(** * scanpy/ann_data.py: the annotated matrix

    A shallow embedding of [StorageType], [BoundRecArr], [_check_dimensions]
    and [AnnData] over an explicit Python heap.  Object identity matters
    throughout the module (a table writes a rebuilt copy of itself back onto
    its owner, [__init__] stores and reshapes the caller's array, slices of a
    numpy array are views), so every Python object lives in a store and is
    named by its location. *)

From Stdlib Require Import ZArith List Bool Lia.
From stdpp Require Import gmap strings list.

Local Open Scope string_scope.
Local Open Scope list_scope.
Local Open Scope nat_scope.

(** ** Python values *)

(** Scalars held in array cells, table columns and the two mappings.
    [VFloat m e] is the decimal [m * 10^e]. *)
Inductive val :=
| VInt (z : Z)
| VFloat (m e : Z)
| VStr (s : string).

#[global] Instance val_eq_dec : EqDecision val.
Proof. solve_decision. Defined.

(** The classes a value handed to the module can have.  [mro] lists each
    class with its ancestors as numpy and scipy declare them:
    [ma.MaskedArray] derives from [np.ndarray]; [C_sparse f] is scipy's
    sparse format class named [f] ([csr_matrix], [dia_matrix], ...), each of
    which derives from [sp.spmatrix]. *)
Inductive pyclass :=
| C_ndarray
| C_MaskedArray
| C_spmatrix
| C_sparse (format : string)
| C_list
| C_dict.

#[global] Instance pyclass_eq_dec : EqDecision pyclass.
Proof. solve_decision. Defined.

Definition mro (c : pyclass) : list pyclass :=
  match c with
  | C_ndarray => [C_ndarray]
  | C_MaskedArray => [C_MaskedArray; C_ndarray]
  | C_spmatrix => [C_spmatrix]
  | C_sparse f => [C_sparse f; C_spmatrix]
  | C_list => [C_list]
  | C_dict => [C_dict]
  end.

Definition class_name (c : pyclass) : string :=
  match c with
  | C_ndarray => "ndarray"
  | C_MaskedArray => "MaskedArray"
  | C_spmatrix => "spmatrix"
  | C_sparse f => f
  | C_list => "list"
  | C_dict => "dict"
  end.

(** [isinstance(x, k)] for an [x] of class [c]. *)
Definition isinstance (c k : pyclass) : bool := bool_decide (k ∈ mro c).

(** ** StorageType *)

Inductive StorageType := Array | Masked | Sparse.

#[global] Instance StorageType_eq_dec : EqDecision StorageType.
Proof. solve_decision. Defined.

(** The enumeration in definition order, which is the order [for s_type in
    StorageType] visits. *)
Definition StorageType_members : list StorageType := [Array; Masked; Sparse].

Definition value (s : StorageType) : pyclass :=
  match s with
  | Array => C_ndarray
  | Masked => C_MaskedArray
  | Sparse => C_spmatrix
  end.

Definition classes : list pyclass := map value StorageType_members.

Definition SMP_NAMES : string := "smp_names".
Definition VAR_NAMES : string := "var_names".

(** ** Exceptions

    One constructor per raise site of the module, and one per error of
    Python, numpy or scipy that the module lets through. *)
Inductive exn :=
(* raised by ann_data.py *)
| ValueError_meta_source (c : pyclass)          (* BoundRecArr.__new__ *)
| ValueError_too_many_entries (lv ls : nat)     (* BoundRecArr.__setitem__ *)
| ValueError_smp_rows (nr_smp rows : nat)       (* _check_dimensions *)
| ValueError_var_rows (nr_var rows : nat)       (* _check_dimensions *)
| ValueError_data_type (c : pyclass) (allowed : string) (* AnnData.__init__ *)
| ValueError_not_2d (ndim : nat)                (* AnnData.__init__ *)
| AssertionError                                (* AnnData.__getitem__ *)
(* raised by Python *)
| ValueError_unpack (expected got : nat)        (* a, b = t *)
| TypeError_multiple_values (arg : string)      (* f(x, **{'x': ..}) *)
| TypeError_not_subscriptable
| IndexError_tuple                              (* t[i] out of range *)
| KeyError (k : string)
| AttributeError (attr : string)
| ValueError_slice_step
(* raised by numpy *)
| ValueError_no_field (name : string)
| ValueError_broadcast (src dst : nat)
| ValueError_duplicate_names
| ValueError_cannot_delete
| IndexError_out_of_bounds (i : Z) (n : nat)
| IndexError_too_many_indices
| IndexError_shape_mismatch
(* raised by the sparse backend *)
| BackendError (msg : string)
(* a reference to nothing: no Python program reaches it *)
| Dangling.

#[global] Instance exn_eq_dec : EqDecision exn.
Proof. solve_decision. Defined.

(** ** The heap *)

(** Locations are positions in a store. *)
Abbreviation loc := nat (only parsing).

(** An array-like object: its class, its [shape] attribute, whether its
    dtype has named fields, and for each element in row-major order the
    address of the memory cell holding it.  A view lists cells of the
    buffer it was taken from; a copy lists fresh ones.  Objects of the other
    classes (a list handed in by mistake) sit in the same store with the
    array attributes unused. *)
Record array_obj := {
  a_class : pyclass;
  a_shape : list nat;
  a_structured : bool;
  a_cells : list loc
}.

(** A record array.  [t_dtype] names its dtype object, which numpy shares
    between an array, its views and its copies and whose field names can be
    reassigned.  [t_attrs] holds [(_parent, _name_col)], the attributes that
    only [BoundRecArr.__new__] sets: views and copies do not have them. *)
Record table_obj := {
  t_dtype : loc;
  t_len : nat;
  t_cols : list (list val);
  t_attrs : option (option loc * string)
}.

Record anndata_obj := {
  ad_storage_type : option StorageType;
  ad_X : option loc;
  ad_smp : option loc;
  ad_var : option loc;
  ad_vis : option loc;
  ad_meta : option loc
}.

Record heap := {
  h_mem : list val;
  h_arrays : list array_obj;
  h_dtypes : list (list string);
  h_tables : list table_obj;
  h_dicts : list (gmap string val);
  h_anndata : list anndata_obj
}.

Definition empty_heap : heap :=
  {| h_mem := []; h_arrays := []; h_dtypes := []; h_tables := [];
     h_dicts := []; h_anndata := [] |}.

(** ** Computations: a heap is threaded, an exception stops the run and
    leaves the heap as it was when raised *)

Definition M (A : Type) : Type := heap -> (exn + A) * heap.

Definition ret {A} (a : A) : M A := fun h => (inr a, h).
Definition raise {A} (e : exn) : M A := fun h => (inl e, h).
Definition bind {A B} (m : M A) (k : A -> M B) : M B :=
  fun h => match m h with
           | (inl e, h') => (inl e, h')
           | (inr a, h') => k a h'
           end.

Notation "'let*' x ':=' m 'in' k" := (bind m (fun x => k))
  (at level 10, x pattern, m at level 100, k at level 200).
Notation "m ';;;' k" := (bind m (fun _ => k))
  (at level 100, k at level 200, right associativity).

Definition lift {A} (r : exn + A) : M A :=
  match r with inl e => raise e | inr a => ret a end.

Definition of_option {A} (e : exn) (o : option A) : M A :=
  match o with Some a => ret a | None => raise e end.

Definition get_heap : M heap := fun h => (inr h, h).
Definition put_heap (h' : heap) : M unit := fun _ => (inr tt, h').

(** Store access.  Allocation appends, so the new location is the length
    of the store and every older location keeps its content. *)

Definition with_mem (f : list val -> list val) (h : heap) : heap :=
  {| h_mem := f (h_mem h); h_arrays := h_arrays h; h_dtypes := h_dtypes h;
     h_tables := h_tables h; h_dicts := h_dicts h; h_anndata := h_anndata h |}.
Definition with_arrays (f : list array_obj -> list array_obj) (h : heap) : heap :=
  {| h_mem := h_mem h; h_arrays := f (h_arrays h); h_dtypes := h_dtypes h;
     h_tables := h_tables h; h_dicts := h_dicts h; h_anndata := h_anndata h |}.
Definition with_dtypes (f : list (list string) -> list (list string)) (h : heap) : heap :=
  {| h_mem := h_mem h; h_arrays := h_arrays h; h_dtypes := f (h_dtypes h);
     h_tables := h_tables h; h_dicts := h_dicts h; h_anndata := h_anndata h |}.
Definition with_tables (f : list table_obj -> list table_obj) (h : heap) : heap :=
  {| h_mem := h_mem h; h_arrays := h_arrays h; h_dtypes := h_dtypes h;
     h_tables := f (h_tables h); h_dicts := h_dicts h; h_anndata := h_anndata h |}.
Definition with_dicts (f : list (gmap string val) -> list (gmap string val)) (h : heap) : heap :=
  {| h_mem := h_mem h; h_arrays := h_arrays h; h_dtypes := h_dtypes h;
     h_tables := h_tables h; h_dicts := f (h_dicts h); h_anndata := h_anndata h |}.
Definition with_anndata (f : list anndata_obj -> list anndata_obj) (h : heap) : heap :=
  {| h_mem := h_mem h; h_arrays := h_arrays h; h_dtypes := h_dtypes h;
     h_tables := h_tables h; h_dicts := h_dicts h; h_anndata := f (h_anndata h) |}.

Definition deref {A} (store : heap -> list A) (l : loc) : M A :=
  fun h => (match store h !! l with Some a => inr a | None => inl Dangling end, h).

Definition get_array : loc -> M array_obj := deref h_arrays.
Definition get_dtype : loc -> M (list string) := deref h_dtypes.
Definition get_table : loc -> M table_obj := deref h_tables.
Definition get_dict : loc -> M (gmap string val) := deref h_dicts.
Definition get_anndata : loc -> M anndata_obj := deref h_anndata.

Definition set_array (l : loc) (a : array_obj) : M unit :=
  fun h => (inr tt, with_arrays (fun s => <[l := a]> s) h).
Definition set_dtype (l : loc) (d : list string) : M unit :=
  fun h => (inr tt, with_dtypes (fun s => <[l := d]> s) h).
Definition set_table (l : loc) (t : table_obj) : M unit :=
  fun h => (inr tt, with_tables (fun s => <[l := t]> s) h).
Definition set_dict (l : loc) (d : gmap string val) : M unit :=
  fun h => (inr tt, with_dicts (fun s => <[l := d]> s) h).
Definition set_anndata (l : loc) (a : anndata_obj) : M unit :=
  fun h => (inr tt, with_anndata (fun s => <[l := a]> s) h).

Definition alloc_array (a : array_obj) : M loc :=
  fun h => (inr (length (h_arrays h)), with_arrays (fun s => s ++ [a]) h).
Definition alloc_dtype (d : list string) : M loc :=
  fun h => (inr (length (h_dtypes h)), with_dtypes (fun s => s ++ [d]) h).
Definition alloc_table (t : table_obj) : M loc :=
  fun h => (inr (length (h_tables h)), with_tables (fun s => s ++ [t]) h).
Definition alloc_dict (d : gmap string val) : M loc :=
  fun h => (inr (length (h_dicts h)), with_dicts (fun s => s ++ [d]) h).
Definition alloc_anndata (a : anndata_obj) : M loc :=
  fun h => (inr (length (h_anndata h)), with_anndata (fun s => s ++ [a]) h).

(** Element memory. *)
Definition junk : val := VInt 0.

Definition read_cells (cells : list loc) : M (list val) :=
  fun h => (inr (map (fun c => nth c (h_mem h) junk) cells), h).
Definition alloc_cells (vs : list val) : M (list loc) :=
  fun h => (inr (seq (length (h_mem h)) (length vs)), with_mem (fun m => m ++ vs) h).
Definition write_cells (cells : list loc) (vs : list val) : M unit :=
  fun h => (inr tt,
            with_mem (fun m => fold_left (fun m cv => <[fst cv := snd cv]> m)
                                         (combine cells vs) m) h).

(** ** numpy: shapes, slices, index lists *)

Definition product (shape : list nat) : nat := fold_right Nat.mul 1 shape.

(** Strides of a C-ordered array, in elements. *)
Fixpoint c_strides (shape : list nat) : list nat :=
  match shape with
  | [] => []
  | _ :: shape' => product shape' :: c_strides shape'
  end.

(** The buffer offsets of a strided view, enumerated in row-major order
    of the view. *)
Fixpoint offsets (shape strides : list nat) : list nat :=
  match shape, strides with
  | d :: shape', t :: strides' =>
      flat_map (fun i => map (Nat.add (i * t)) (offsets shape' strides')) (seq 0 d)
  | _, _ => [0]
  end.

(** What remains of an index after [_unpack_index]: a slice or a list of
    integers. *)
Inductive sel :=
| S_slice (start stop step : option Z)
| S_list (l : list Z).

#[global] Instance sel_eq_dec : EqDecision sel.
Proof. solve_decision. Defined.

(** [slice(None)], the full range [:]. *)
Definition slice_None : sel := S_slice None None None.

(** The positions [slice(start, stop, step)] selects in a dimension of
    length [n], as CPython's [slice.indices] adjusts and counts them. *)
Definition slice_indices (start stop step : option Z) (n : nat) : exn + list nat :=
  let step := default 1%Z step in
  if (step =? 0)%Z then inl ValueError_slice_step else
  let len := Z.of_nat n in
  let lower := if (step <? 0)%Z then (-1)%Z else 0%Z in
  let upper := if (step <? 0)%Z then (len - 1)%Z else len in
  let clamp v := if (v <? 0)%Z then Z.max (v + len) lower else Z.min v upper in
  let start' := match start with
                | None => if (step <? 0)%Z then upper else lower
                | Some v => clamp v
                end in
  let stop' := match stop with
               | None => if (step <? 0)%Z then lower else upper
               | Some v => clamp v
               end in
  let count := if (step <? 0)%Z
               then (if (stop' <? start')%Z then (start' - stop' - 1) / (- step) + 1 else 0)%Z
               else (if (start' <? stop')%Z then (stop' - start' - 1) / step + 1 else 0)%Z in
  inr (map (fun k => Z.to_nat (start' + Z.of_nat k * step)) (seq 0 (Z.to_nat count))).

(** An integer list used as an index: negative entries count from the end,
    anything outside [-n, n) is an [IndexError]. *)
Fixpoint list_indices (l : list Z) (n : nat) : exn + list nat :=
  match l with
  | [] => inr []
  | i :: l' =>
      if ((i <? - Z.of_nat n) || (Z.of_nat n <=? i))%Z
      then inl (IndexError_out_of_bounds i n)
      else match list_indices l' n with
           | inl e => inl e
           | inr r => inr (Z.to_nat (if (i <? 0)%Z then i + Z.of_nat n else i)%Z :: r)
           end
  end.

Definition resolve (s : sel) (n : nat) : exn + list nat :=
  match s with
  | S_slice start stop step => slice_indices start stop step n
  | S_list l => list_indices l n
  end.

(** Errors inside pure index computations. *)
Definition ebind {A B} (r : exn + A) (k : A -> exn + B) : exn + B :=
  match r with inl e => inl e | inr a => k a end.

(** *** Indexing a numpy array with two selectors *)

(** The cells of the sub-array at row [i], column [j]: one cell for a
    two-dimensional array, [rest] of them when further axes follow. *)
Definition block (cells : list loc) (d2 rest i j : nat) : list loc :=
  map (fun k => nth ((i * d2 + j) * rest + k) cells 0) (seq 0 rest).

(** Two index lists are paired elementwise after broadcasting. *)
Definition broadcast_pairs (R C : list nat) : exn + list (nat * nat) :=
  if length R =? length C then inr (combine R C)
  else if length R =? 1 then inr (map (fun c => (hd 0 R, c)) C)
  else if length C =? 1 then inr (map (fun r => (r, hd 0 C)) R)
  else inl IndexError_shape_mismatch.

Definition is_slice (s : sel) : bool :=
  match s with S_slice _ _ _ => true | S_list _ => false end.

(** Shape and cells of [a[smp, var]]. *)
Definition select2 (a : array_obj) (smp var : sel) : exn + (list nat * list loc) :=
  match a_shape a with
  | d1 :: d2 :: ds =>
      let rest := product ds in
      ebind (resolve smp d1) (fun R =>
      ebind (resolve var d2) (fun C =>
      if is_slice smp || is_slice var
      then inr (length R :: length C :: ds,
                flat_map (fun i => flat_map (fun j => block (a_cells a) d2 rest i j) C) R)
      else ebind (broadcast_pairs R C) (fun pairs =>
           inr (length pairs :: ds,
                flat_map (fun p => block (a_cells a) d2 rest (fst p) (snd p)) pairs))))
  | _ => inl IndexError_too_many_indices
  end.

(** [a[smp, var]]: two slices give a view onto the cells of [a]; an index
    list gives a new array holding copies. *)
Definition ndarray_getitem (X : loc) (smp var : sel) : M loc :=
  let* a := get_array X in
  let* sc := lift (select2 a smp var) in
  if is_slice smp && is_slice var
  then alloc_array {| a_class := a_class a; a_shape := fst sc;
                      a_structured := a_structured a; a_cells := snd sc |}
  else
    let* vs := read_cells (snd sc) in
    let* cells := alloc_cells vs in
    alloc_array {| a_class := a_class a; a_shape := fst sc;
                   a_structured := a_structured a; a_cells := cells |}.

(** *** Assignment into a numpy array *)

(** The right-hand side of an assignment: an array given by shape and
    row-major values (shape [[]] for a scalar). *)
Record rhs := { rhs_shape : list nat; rhs_vals : list val }.

Definition scalar (v : val) : rhs := {| rhs_shape := []; rhs_vals := [v] |}.

(** numpy broadcasting: axes are aligned from the right, an axis of
    length 1 is repeated (stride 0). *)
Fixpoint broadcast_strides (src strides dst : list nat) : option (list nat) :=
  match src, strides, dst with
  | [], [], [] => Some []
  | s :: src', t :: strides', d :: dst' =>
      if s =? d then cons t <$> broadcast_strides src' strides' dst'
      else if s =? 1 then cons 0 <$> broadcast_strides src' strides' dst'
      else None
  | _, _, _ => None
  end.

Fixpoint strip_ones (k : nat) (shape : list nat) : option (list nat) :=
  match k, shape with
  | 0, _ => Some shape
  | S k', 1 :: shape' => strip_ones k' shape'
  | S _, _ => None
  end.

Definition broadcast_offsets (src dst : list nat) : option (list nat) :=
  src' ← strip_ones (length src - length dst) src;
  let pad := length dst - length src' in
  st ← broadcast_strides src' (c_strides src') (drop pad dst);
  Some (offsets dst (replicate pad 0 ++ st)).

Definition ndarray_setitem (X : loc) (smp var : sel) (v : rhs) : M unit :=
  let* a := get_array X in
  let* sc := lift (select2 a smp var) in
  match broadcast_offsets (rhs_shape v) (fst sc) with
  | None => raise (ValueError_broadcast (product (rhs_shape v)) (product (fst sc)))
  | Some offs => write_cells (snd sc) (map (fun o => nth o (rhs_vals v) junk) offs)
  end.

(** *** Transpose: a view with the axes reversed *)

(** The elements of a C-ordered array of the given shape, listed in the
    row-major order of its transpose. *)
Definition permute {A} (d : A) (shape : list nat) (l : list A) : list A :=
  map (fun o => nth o l d) (offsets (rev shape) (rev (c_strides shape))).

Definition transposed (a : array_obj) : array_obj :=
  {| a_class := a_class a;
     a_shape := rev (a_shape a);
     a_structured := a_structured a;
     a_cells := permute 0 (a_shape a) (a_cells a) |}.

Definition ndarray_T (X : loc) : M loc :=
  let* a := get_array X in
  alloc_array (transposed a).

(** ** The sparse backend

    scipy's formats differ in what their indexing accepts and returns
    ([dia_matrix] and [coo_matrix] cannot be indexed at all), so the three
    element operations are parameters.  A sparse object holds its dense
    image in its cells. *)
Record sparse_backend := {
  sp_getitem : pyclass -> list nat -> list val -> sel -> sel ->
               exn + (pyclass * list nat * list val);
  sp_setitem : pyclass -> list nat -> list val -> sel -> sel -> rhs ->
               exn + list val;
  sp_delitem : pyclass -> list nat -> list val -> sel -> sel ->
               exn + (list nat * list val)
}.

(** The class of the transpose of a sparse matrix: CSR and CSC swap, the
    other formats keep theirs. *)
Definition sparse_T_class (c : pyclass) : pyclass :=
  match c with
  | C_sparse f =>
      if bool_decide (f = "csr_matrix") then C_sparse "csc_matrix"
      else if bool_decide (f = "csc_matrix") then C_sparse "csr_matrix"
      else c
  | _ => c
  end.

(** ** Record arrays *)

Fixpoint index_of (name : string) (names : list string) : option nat :=
  match names with
  | [] => None
  | n :: names' => if bool_decide (n = name) then Some 0 else S <$> index_of name names'
  end.

(** [t[name]]: the column of a field. *)
Definition field (names : list string) (cols : list (list val)) (name : string)
  : exn + list val :=
  match index_of name names with
  | None => inl (ValueError_no_field name)
  | Some i => inr (nth i cols [])
  end.

Definition recarray_field (t : loc) (name : string) : M (list val) :=
  let* tb := get_table t in
  let* names := get_dtype (t_dtype tb) in
  lift (field names (t_cols tb) name).

(** Assigning a one-dimensional value to a column of [n] rows: equal
    length, or a single entry repeated. *)
Definition broadcast_col (value : list val) (n : nat) : exn + list val :=
  if length value =? n then inr value
  else if length value =? 1 then inr (replicate n (hd junk value))
  else inl (ValueError_broadcast (length value) n).

Definition set_cols (cols : list (list val)) (tb : table_obj) : table_obj :=
  {| t_dtype := t_dtype tb; t_len := t_len tb; t_cols := cols;
     t_attrs := t_attrs tb |}.

(** [np.ndarray.__setitem__(t, key, value)] with a field name as key. *)
Definition ndarray_setfield (t : loc) (key : string) (value : list val) : M unit :=
  let* tb := get_table t in
  let* names := get_dtype (t_dtype tb) in
  match index_of key names with
  | None => raise (ValueError_no_field key)
  | Some i =>
      let* col := lift (broadcast_col value (t_len tb)) in
      set_table t (set_cols (<[i := col]> (t_cols tb)) tb)
  end.

Definition take_rows (rows : list nat) (col : list val) : list val :=
  map (fun i => nth i col junk) rows.

(** [t[s]]: the selected rows, as a record array of the same class and
    dtype object.  The result is only ever read (it is handed to
    [BoundRecArr.__new__], which copies), so it holds the selected values
    themselves. *)
Definition recarray_getitem (t : loc) (s : sel) : M loc :=
  let* tb := get_table t in
  let* rows := lift (resolve s (t_len tb)) in
  alloc_table {| t_dtype := t_dtype tb; t_len := length rows;
                 t_cols := map (take_rows rows) (t_cols tb); t_attrs := None |}.

(** [np.rec.array(t)] for a record array [t]: [t.copy()], a new array with
    the dtype object of [t]. *)
Definition np_rec_array (t : loc) : M loc :=
  let* tb := get_table t in
  alloc_table {| t_dtype := t_dtype tb; t_len := t_len tb;
                 t_cols := t_cols tb; t_attrs := None |}.

(** [d.names = new]: the field names of the dtype object are replaced in
    place; a repeated name is refused. *)
Definition set_names (d : loc) (new : list string) : M unit :=
  let* old := get_dtype d in
  if negb (length new =? length old) then raise ValueError_duplicate_names
  else if bool_decide (NoDup new) then set_dtype d new
  else raise ValueError_duplicate_names.

(** numpy.ma's default fill value for the dtype of a column. *)
Definition default_fill_value (col : list val) : val :=
  match col with
  | VInt _ :: _ => VInt 999999
  | VStr _ :: _ => VStr "N/A"
  | _ => VFloat 1 20
  end.

Definition pad (n : nat) (col : list val) : list val :=
  col ++ replicate (n - length col) (default_fill_value col).

(** [append_fields(base, [key], [value], usemask=False, asrecarray=True)]:
    a new record array as long as the longer of the two, the shorter one
    padded with fill values. *)
Definition append_fields (base : loc) (key : string) (value : list val) : M loc :=
  let* tb := get_table base in
  let* names := get_dtype (t_dtype tb) in
  if bool_decide (key ∈ names) then raise ValueError_duplicate_names else
  let n := max (t_len tb) (length value) in
  let* d := alloc_dtype (names ++ [key]) in
  alloc_table {| t_dtype := d; t_len := n;
                 t_cols := map (pad n) (t_cols tb) ++ [pad n value];
                 t_attrs := None |}.

Definition arange (n : nat) : list val := map (fun i => VInt (Z.of_nat i)) (seq 0 n).

(** ** BoundRecArr *)

(** What [BoundRecArr.__new__] can be given as [source]: [None], a record
    array, a mapping from column names to one-dimensional values (in key
    order), or an object of another class. *)
Inductive source :=
| Src_None
| Src_recarray (t : loc)
| Src_Mapping (d : list (string * list val))
| Src_other (c : pyclass).

Definition update_anndata (self : loc) (f : anndata_obj -> anndata_obj) : M unit :=
  let* ad := get_anndata self in
  set_anndata self (f ad).

Definition set_storage_type (s : StorageType) (ad : anndata_obj) : anndata_obj :=
  {| ad_storage_type := Some s; ad_X := ad_X ad; ad_smp := ad_smp ad;
     ad_var := ad_var ad; ad_vis := ad_vis ad; ad_meta := ad_meta ad |}.
Definition set_X (x : loc) (ad : anndata_obj) : anndata_obj :=
  {| ad_storage_type := ad_storage_type ad; ad_X := Some x; ad_smp := ad_smp ad;
     ad_var := ad_var ad; ad_vis := ad_vis ad; ad_meta := ad_meta ad |}.
Definition set_smp (t : loc) (ad : anndata_obj) : anndata_obj :=
  {| ad_storage_type := ad_storage_type ad; ad_X := ad_X ad; ad_smp := Some t;
     ad_var := ad_var ad; ad_vis := ad_vis ad; ad_meta := ad_meta ad |}.
Definition set_var (t : loc) (ad : anndata_obj) : anndata_obj :=
  {| ad_storage_type := ad_storage_type ad; ad_X := ad_X ad; ad_smp := ad_smp ad;
     ad_var := Some t; ad_vis := ad_vis ad; ad_meta := ad_meta ad |}.
Definition set_vis (d : loc) (ad : anndata_obj) : anndata_obj :=
  {| ad_storage_type := ad_storage_type ad; ad_X := ad_X ad; ad_smp := ad_smp ad;
     ad_var := ad_var ad; ad_vis := Some d; ad_meta := ad_meta ad |}.
Definition set_meta (d : loc) (ad : anndata_obj) : anndata_obj :=
  {| ad_storage_type := ad_storage_type ad; ad_X := ad_X ad; ad_smp := ad_smp ad;
     ad_var := ad_var ad; ad_vis := ad_vis ad; ad_meta := Some d |}.

(** [AnnData.__len__]: [self.X.shape[0]]. *)
Definition AnnData_len (self : loc) : M nat :=
  let* ad := get_anndata self in
  let* X := of_option (AttributeError "X") (ad_X ad) in
  let* a := get_array X in
  match a_shape a with
  | [] => raise IndexError_tuple
  | n :: _ => ret n
  end.

(** The truth value of [self._parent]: [None] is false, and an [AnnData],
    which defines [__len__] and no [__bool__], is true exactly when its
    length is not zero. *)
Definition truth (parent : option loc) : M bool :=
  match parent with
  | None => ret false
  | Some p => let* n := AnnData_len p in ret (negb (n =? 0))
  end.

(** One round of the loop that ends [__new__], [arr[name] = np.array(col)].
    The assignment goes through [BoundRecArr.__setitem__]; [name] is a field
    of [arr], so after the truth value of the parent is taken the guard is
    false and the assignment is numpy's ([fill_is_setitem] below). *)
Definition fill_field (arr : loc) (parent : option loc) (name : string)
    (col : list val) : M unit :=
  let* _ := truth parent in
  ndarray_setfield arr name col.

Fixpoint fill_fields (arr : loc) (parent : option loc)
    (fields : list (string * list val)) : M unit :=
  match fields with
  | [] => ret tt
  | (name, col) :: fields' =>
      fill_field arr parent name col ;;; fill_fields arr parent fields'
  end.

Fixpoint fields_of (names : list string) (cols : list (list val))
    (wanted : list string) : exn + list (list val) :=
  match wanted with
  | [] => inr []
  | n :: wanted' =>
      ebind (field names cols n) (fun c =>
      ebind (fields_of names cols wanted') (fun cs => inr (c :: cs)))
  end.

Definition BoundRecArr_new (src : source) (nr_row : nat) (name_col : string)
    (parent : option loc) : M loc :=
  let* nc :=
    match src with
    | Src_None => ret ([name_col], [arange nr_row])
    | Src_recarray t =>
        let* tb := get_table t in
        let* names := get_dtype (t_dtype tb) in
        let* cols := lift (fields_of names (t_cols tb) names) in
        ret (names, cols)
    | Src_Mapping d =>
        let names := map fst d in
        let cols := map snd d in
        let nc := if bool_decide (name_col ∈ names) then (names, cols)
                  else (names ++ [name_col], cols ++ [arange nr_row]) in
        (* np.dtype refuses a repeated field name *)
        if bool_decide (NoDup (fst nc)) then ret nc
        else raise ValueError_duplicate_names
    | Src_other c => raise (ValueError_meta_source c)
    end in
  let names := fst nc in
  let cols := snd nc in
  match cols with
  | [] => raise IndexError_tuple
  | col0 :: _ =>
      (* np.recarray.__new__: a new dtype object and uninitialised rows *)
      let* d := alloc_dtype names in
      let* arr := alloc_table
        {| t_dtype := d; t_len := length col0;
           t_cols := replicate (length names) (replicate (length col0) junk);
           t_attrs := Some (parent, name_col) |} in
      fill_fields arr parent (combine names cols) ;;;
      ret arr
  end.

(** The [columns] property. *)
Definition columns (self : loc) : M (list string) :=
  let* tb := get_table self in
  let* names := get_dtype (t_dtype tb) in
  let* pn := of_option (AttributeError "_name_col") (t_attrs tb) in
  ret (filter (fun c => negb (bool_decide (c = snd pn))) names).

Inductive attr := A_smp | A_var.

Definition setattr (self : loc) (a : attr) (t : loc) : M unit :=
  update_anndata self (match a with A_smp => set_smp t | A_var => set_var t end).

Definition BoundRecArr_setitem (self : loc) (key : string) (value : list val) : M unit :=
  let* tb := get_table self in
  let* pn := of_option (AttributeError "_parent") (t_attrs tb) in
  let parent := fst pn in
  let name_col := snd pn in
  let* owned := truth parent in
  let* names := get_dtype (t_dtype tb) in
  if owned && negb (bool_decide (key ∈ names)) then
    let attr := if bool_decide (name_col = SMP_NAMES) then A_smp else A_var in
    if t_len tb <? length value
    then raise (ValueError_too_many_entries (length value) (t_len tb))
    else
      let* source := append_fields self key value in
      let* new := BoundRecArr_new (Src_recarray source) (t_len tb) name_col parent in
      match parent with
      | Some p => setattr p attr new
      | None => raise (AttributeError (match attr with A_smp => "smp" | A_var => "var" end))
      end
  else ndarray_setfield self key value.

(** ** _check_dimensions *)

Definition _check_dimensions (data smp var : loc) : M unit :=
  let* a := get_array data in
  match a_shape a with
  | [nr_smp; nr_var] =>
      let* ts := get_table smp in
      if negb (t_len ts =? nr_smp)
      then raise (ValueError_smp_rows nr_smp (t_len ts))
      else
        let* tv := get_table var in
        if negb (t_len tv =? nr_var)
        then raise (ValueError_var_rows nr_var (t_len tv))
        else ret tt
  | s => raise (ValueError_unpack 2 (length s))
  end.

(** ** AnnData *)

Section AnnData.

Context (sp : sparse_backend).

(** *** The storage: a numpy array or a sparse matrix *)

Definition storage_getitem (X : loc) (smp var : sel) : M loc :=
  let* a := get_array X in
  if isinstance (a_class a) C_ndarray then ndarray_getitem X smp var
  else if isinstance (a_class a) C_spmatrix then
    let* vs := read_cells (a_cells a) in
    let* r := lift (sp_getitem sp (a_class a) (a_shape a) vs smp var) in
    let* cells := alloc_cells (snd r) in
    alloc_array {| a_class := fst (fst r); a_shape := snd (fst r);
                   a_structured := false; a_cells := cells |}
  else raise TypeError_not_subscriptable.

Definition storage_setitem (X : loc) (smp var : sel) (v : rhs) : M unit :=
  let* a := get_array X in
  if isinstance (a_class a) C_ndarray then ndarray_setitem X smp var v
  else if isinstance (a_class a) C_spmatrix then
    let* vs := read_cells (a_cells a) in
    let* vs' := lift (sp_setitem sp (a_class a) (a_shape a) vs smp var v) in
    let* cells := alloc_cells vs' in
    set_array X {| a_class := a_class a; a_shape := a_shape a;
                   a_structured := a_structured a; a_cells := cells |}
  else raise TypeError_not_subscriptable.

(** [del X[smp, var]]: numpy refuses to delete array elements. *)
Definition storage_delitem (X : loc) (smp var : sel) : M unit :=
  let* a := get_array X in
  if isinstance (a_class a) C_ndarray then raise ValueError_cannot_delete
  else if isinstance (a_class a) C_spmatrix then
    let* vs := read_cells (a_cells a) in
    let* r := lift (sp_delitem sp (a_class a) (a_shape a) vs smp var) in
    let* cells := alloc_cells (snd r) in
    set_array X {| a_class := a_class a; a_shape := fst r;
                   a_structured := a_structured a; a_cells := cells |}
  else raise TypeError_not_subscriptable.

(** [X.T].  For a numpy array it is a view.  A sparse transpose is a new
    matrix with cells of its own. *)
Definition storage_T (X : loc) : M loc :=
  let* a := get_array X in
  if isinstance (a_class a) C_ndarray then ndarray_T X
  else
    let* vs := read_cells (a_cells (transposed a)) in
    let* cells := alloc_cells vs in
    alloc_array {| a_class := sparse_T_class (a_class a);
                   a_shape := rev (a_shape a);
                   a_structured := a_structured a; a_cells := cells |}.

(** *** __init__ *)

(** [vis or {}]: an empty mapping is false, so it is replaced like [None]. *)
Definition or_empty_dict (vis : option loc) : M loc :=
  match vis with
  | None => alloc_dict ∅
  | Some v =>
      let* d := get_dict v in
      if bool_decide (d = ∅) then alloc_dict ∅ else ret v
  end.

Definition AnnData_init (self X : loc) (smp var : source) (vis : option loc)
    (meta : loc) : M unit :=
  (* check data type of X *)
  let* a := get_array X in
  match find (fun s_type => isinstance (a_class a) (value s_type)) StorageType_members with
  | None =>
      raise (ValueError_data_type (a_class a) (String.concat ", " (map class_name classes)))
  | Some s_type =>
      update_anndata self (set_storage_type s_type) ;;;
      (if length (a_shape a) =? 1
       then set_array X {| a_class := a_class a; a_shape := [hd 0 (a_shape a); 1];
                           a_structured := a_structured a; a_cells := a_cells a |}
       else ret tt) ;;;
      let* a := get_array X in
      if negb (a_structured a) && negb (length (a_shape a) =? 2)
      then raise (ValueError_not_2d (length (a_shape a)))
      else
        match a_shape a with
        | [nr_smp; nr_var] =>
            update_anndata self (set_X X) ;;;
            let* smp_t := BoundRecArr_new smp nr_smp SMP_NAMES (Some self) in
            update_anndata self (set_smp smp_t) ;;;
            let* var_t := BoundRecArr_new var nr_var VAR_NAMES (Some self) in
            update_anndata self (set_var var_t) ;;;
            let* ad := get_anndata self in
            let* s := of_option (AttributeError "smp") (ad_smp ad) in
            let* v := of_option (AttributeError "var") (ad_var ad) in
            _check_dimensions X s v ;;;
            let* vis' := or_empty_dict vis in
            update_anndata self (set_vis vis') ;;;
            update_anndata self (set_meta meta)
        | s => raise (ValueError_unpack 2 (length s))
        end
  end.

(** An object on which [__init__] has not run yet. *)
Definition fresh_instance : anndata_obj :=
  {| ad_storage_type := None; ad_X := None; ad_smp := None;
     ad_var := None; ad_vis := None; ad_meta := None |}.

(** The parameter names of [__init__]: a key of [**meta] equal to one of
    them is a [TypeError] at the call. *)
Definition parameters : list string := ["self"; "X"; "smp"; "var"; "vis"].

(** The call [AnnData(X, smp, var, vis, **meta)]: the keyword arguments
    are collected into a new mapping, a new object is made and [__init__]
    runs on it. *)
Definition AnnData (X : loc) (smp var : source) (vis : option loc)
    (meta : gmap string val) : M loc :=
  match find (fun k => bool_decide (is_Some (meta !! k))) parameters with
  | Some k => raise (TypeError_multiple_values k)
  | None =>
      let* self := alloc_anndata fresh_instance in
      let* m := alloc_dict meta in
      AnnData_init self X smp var vis m ;;;
      ret self
  end.

(** *** Names, indexing, deletion, transpose *)

Definition smp_names (self : loc) : M (list val) :=
  let* ad := get_anndata self in
  let* t := of_option (AttributeError "smp") (ad_smp ad) in
  recarray_field t SMP_NAMES.

Definition var_names (self : loc) : M (list val) :=
  let* ad := get_anndata self in
  let* t := of_option (AttributeError "var") (ad_var ad) in
  recarray_field t VAR_NAMES.

(** One half of an index as the caller writes it. *)
Inductive index :=
| I_int (i : Z)
| I_sel (s : sel).

(** [_unpack_index], after scipy's mixin has split the index in two: an
    [int] becomes the slice [i:i+1]. *)
Definition _unpack_index (smp var : index) : sel * sel :=
  let norm ix := match ix with
                 | I_int i => S_slice (Some i) (Some (i + 1)%Z) None
                 | I_sel s => s
                 end in
  (norm smp, norm var).

(** [del t.iloc[...]] for a record array [t].  numpy looks an unknown
    attribute up among the fields: without a field named [iloc] the access
    is an [AttributeError], with one the deletion is refused by the
    column. *)
Definition recarray_del_iloc (t : loc) : M unit :=
  let* tb := get_table t in
  let* names := get_dtype (t_dtype tb) in
  if bool_decide ("iloc" ∈ names) then raise ValueError_cannot_delete
  else raise (AttributeError "iloc").

Definition AnnData_delitem (self : loc) (smp var : index) : M unit :=
  let sv := _unpack_index smp var in
  let* ad := get_anndata self in
  let* X := of_option (AttributeError "X") (ad_X ad) in
  storage_delitem X (fst sv) (snd sv) ;;;
  (if bool_decide (snd sv = slice_None)
   then let* t := of_option (AttributeError "smp") (ad_smp ad) in recarray_del_iloc t
   else ret tt) ;;;
  (if bool_decide (fst sv = slice_None)
   then let* t := of_option (AttributeError "var") (ad_var ad) in recarray_del_iloc t
   else ret tt).

(** [__getitem__] with a string: [self._meta[index]]. *)
Definition AnnData_getitem_meta (self : loc) (index : string) : M val :=
  let* ad := get_anndata self in
  let* m := of_option (AttributeError "_meta") (ad_meta ad) in
  let* d := get_dict m in
  of_option (KeyError index) (d !! index).

(** [t.shape[i]] *)
Definition shape_at (shape : list nat) (i : nat) : M nat :=
  of_option IndexError_tuple (shape !! i).

(** [__getitem__] with a pair of selectors. *)
Definition AnnData_getitem (self : loc) (smp var : index) : M loc :=
  let sv := _unpack_index smp var in
  let* ad := get_anndata self in
  let* X := of_option (AttributeError "X") (ad_X ad) in
  let* data := storage_getitem X (fst sv) (snd sv) in
  let* s := of_option (AttributeError "smp") (ad_smp ad) in
  let* smp_meta := recarray_getitem s (fst sv) in
  let* v := of_option (AttributeError "var") (ad_var ad) in
  let* var_meta := recarray_getitem v (snd sv) in
  let* a := get_array data in
  let* ts := get_table smp_meta in
  let* d0 := shape_at (a_shape a) 0 in
  if negb (t_len ts =? d0) then raise AssertionError else
  let* tv := get_table var_meta in
  let* d1 := shape_at (a_shape a) 1 in
  if negb (t_len tv =? d1) then raise AssertionError else
  let* vis := of_option (AttributeError "vis") (ad_vis ad) in
  let* m := of_option (AttributeError "_meta") (ad_meta ad) in
  let* d := get_dict m in
  AnnData data (Src_recarray smp_meta) (Src_recarray var_meta) (Some vis) d.

(** [__setitem__] with a string: [self._meta[index] = val]. *)
Definition AnnData_setitem_meta (self : loc) (index : string) (v : val) : M unit :=
  let* ad := get_anndata self in
  let* m := of_option (AttributeError "_meta") (ad_meta ad) in
  let* d := get_dict m in
  set_dict m (<[index := v]> d).

(** [__setitem__] with a pair of selectors: [self.X[samp, feat] = val]. *)
Definition AnnData_setitem (self : loc) (smp var : index) (v : rhs) : M unit :=
  let sf := _unpack_index smp var in
  let* ad := get_anndata self in
  let* X := of_option (AttributeError "X") (ad_X ad) in
  storage_setitem X (fst sf) (snd sf) v.

Definition rename (old new : string) (names : list string) : list string :=
  map (fun n => if bool_decide (n = old) then new else n) names.

Definition transpose (self : loc) : M loc :=
  let* ad := get_anndata self in
  let* v := of_option (AttributeError "var") (ad_var ad) in
  let* smp := np_rec_array v in
  let* tb := get_table smp in
  let* names := get_dtype (t_dtype tb) in
  set_names (t_dtype tb) (rename VAR_NAMES SMP_NAMES names) ;;;
  let* s := of_option (AttributeError "smp") (ad_smp ad) in
  let* var := np_rec_array s in
  let* tb := get_table var in
  let* names := get_dtype (t_dtype tb) in
  set_names (t_dtype tb) (rename SMP_NAMES VAR_NAMES names) ;;;
  let* X := of_option (AttributeError "X") (ad_X ad) in
  let* XT := storage_T X in
  let* vis := of_option (AttributeError "vis") (ad_vis ad) in
  let* m := of_option (AttributeError "_meta") (ad_meta ad) in
  let* d := get_dict m in
  AnnData XT (Src_recarray smp) (Src_recarray var) (Some vis) d.

End AnnData.

(** ** Building inputs *)

(** What the caller does before handing [X] over: [np.array(...)],
    [ma.array(...)], [sp.eye(...)] or a list literal, an object of class
    [c] with the given shape and row-major values. *)
Definition new_array (c : pyclass) (shape : list nat) (vs : list val) : M loc :=
  let* cells := alloc_cells vs in
  alloc_array {| a_class := c; a_shape := shape; a_structured := false;
                 a_cells := cells |}.

Definition ints (l : list Z) : list val := map VInt l.

(** A sparse backend whose matrices support none of the three element
    operations, as scipy's DIA format. *)
Definition dia_backend : sparse_backend :=
  {| sp_getitem := fun _ _ _ _ _ => inl TypeError_not_subscriptable;
     sp_setitem := fun _ _ _ _ _ _ => inl TypeError_not_subscriptable;
     sp_delitem := fun _ _ _ _ _ => inl TypeError_not_subscriptable |}.

(** Running a computation from a heap. *)
Definition result {A} (m : M A) (h : heap) : exn + A := fst (m h).
Definition heap_after {A} (m : M A) (h : heap) : heap := snd (m h).

(** ** Specification vocabulary *)

(** The tables of an instance have as many rows as the storage has rows,
    respectively columns, and every column of a table has one entry per
    row. *)
Definition shape_invariant (h : heap) (self : loc) : Prop :=
  ∃ ad X s v a ts tv,
    h_anndata h !! self = Some ad ∧
    ad_X ad = Some X ∧ ad_smp ad = Some s ∧ ad_var ad = Some v ∧
    h_arrays h !! X = Some a ∧
    h_tables h !! s = Some ts ∧ h_tables h !! v = Some tv ∧
    a_shape a = [t_len ts; t_len tv] ∧
    Forall (fun c => length c = t_len ts) (t_cols ts) ∧
    Forall (fun c => length c = t_len tv) (t_cols tv).

(** The three public operations that return a new instance. *)
Inductive built (sp : sparse_backend) (h h' : heap) (self : loc) : Prop :=
| built_by_call X smp var vis meta :
    AnnData X smp var vis meta h = (inr self, h') -> built sp h h' self
| built_by_getitem parent smp var :
    AnnData_getitem sp parent smp var h = (inr self, h') -> built sp h h' self
| built_by_transpose parent :
    transpose parent h = (inr self, h') -> built sp h h' self.

(** The array [__init__] leaves behind: a one-dimensional array of length
    [L] has become [(L, 1)], any other is as it was. *)
Definition reshaped (a : array_obj) : array_obj :=
  if length (a_shape a) =? 1
  then {| a_class := a_class a; a_shape := [hd 0 (a_shape a); 1];
          a_structured := a_structured a; a_cells := a_cells a |}
  else a.

(** [classify c]: the member [__init__] records for an [X] of class [c]. *)
Definition classify (c : pyclass) : option StorageType :=
  find (fun s_type => isinstance c (value s_type)) StorageType_members.

(** What a successful [BoundRecArr.__new__] leaves behind: one new dtype
    object and one new table. *)
Definition add_table (names : list string) (tb : table_obj) (h : heap) : heap :=
  with_tables (fun s => s ++ [tb]) (with_dtypes (fun s => s ++ [names]) h).

(** The two outcomes of [vis or {}] in heap [h]: the caller's mapping [l]
    itself when it is not empty ([extra = []]), a new empty mapping at [l]
    otherwise ([extra = [∅]]). *)
Definition vis_or_empty (h : heap) (vis : option loc)
    (extra : list (gmap string val)) (l : loc) : Prop :=
  (extra = [] ∧ vis = Some l ∧ ∃ d, h_dicts h !! l = Some d ∧ d ≠ ∅) ∨
  (extra = [∅] ∧ l = length (h_dicts h) ∧
   (vis = None ∨ ∃ v, vis = Some v ∧ h_dicts h !! v = Some ∅)).

(** The heap in which [__init__] starts: the new object and the mapping
    of the keyword arguments have been made. *)
Definition at_call (meta : gmap string val) (h : heap) : heap :=
  with_dicts (fun s => s ++ [meta])
    (with_anndata (fun s => s ++ [fresh_instance]) h).

Definition no_parameter_key (meta : gmap string val) : Prop :=
  find (fun k => bool_decide (is_Some (meta !! k))) parameters = None.

(** The heap in which a successful [__init__] ends. *)
Definition initialised (self X : loc) (s_type : StorageType) (a0 : array_obj)
    (ns : list string) (ts : table_obj) (nv : list string) (tv : table_obj)
    (extra : list (gmap string val)) (l meta : loc) (h : heap) : heap :=
  with_anndata
    (fun s => <[self := {| ad_storage_type := Some s_type; ad_X := Some X;
                           ad_smp := Some (length (h_tables h));
                           ad_var := Some (S (length (h_tables h)));
                           ad_vis := Some l; ad_meta := Some meta |}]> s)
    (with_dicts (fun s => s ++ extra)
       (add_table nv tv (add_table ns ts
          (with_arrays (fun s => <[X := reshaped a0]> s) h)))).

(** ** Worked inputs *)

(** [np.array([[1, 2], [3, 4]])], [ma.array([[1, 2], [3, 4]], mask=...)],
    [sp.eye(2)] and the plain list [[1, 2]], as in [test_creation]. *)
Definition dense_2x2 : M loc := new_array C_ndarray [2; 2] (ints [1; 2; 3; 4]%Z).
Definition masked_2x2 : M loc := new_array C_MaskedArray [2; 2] (ints [1; 2; 3; 4]%Z).
Definition sparse_eye_2 : M loc :=
  new_array (C_sparse "dia_matrix") [2; 2]
            [VFloat 1 0; VFloat 0 0; VFloat 0 0; VFloat 1 0].
Definition plain_list : M loc := new_array C_list [] (ints [1; 2]%Z).

(** [AnnData(x).storage_type] *)
Definition storage_type_of (x : M loc) : M (option StorageType) :=
  let* X := x in
  let* self := AnnData X Src_None Src_None None ∅ in
  let* ad := get_anndata self in
  ret (ad_storage_type ad).

(** The heap after [mat = AnnData(x)] from an empty heap; [mat] is
    instance 0, [mat.X] array 0, [mat.smp] table 0 and [mat.var] table 1. *)
Definition heap_of (x : M loc) : heap :=
  heap_after (let* X := x in AnnData X Src_None Src_None None ∅) empty_heap.

(** [np.array([[1, 2, 3], [4, 5, 6]])], as in [test_get_subset]. *)
Definition dense_2x3 : M loc :=
  new_array C_ndarray [2; 3] (ints [1; 2; 3; 4; 5; 6]%Z).

(** [np.zeros((0, 2))]: no rows, two columns. *)
Definition dense_0x2 : M loc := new_array C_ndarray [0; 2] [].

(** [np.array([7, 8, 9])], one-dimensional. *)
Definition dense_3 : M loc := new_array C_ndarray [3] (ints [7; 8; 9]%Z).

(** The values of the storage of an instance, row-major. *)
Definition storage_values (self : loc) : M (list nat * list val) :=
  let* ad := get_anndata self in
  let* X := of_option (AttributeError "X") (ad_X ad) in
  let* a := get_array X in
  let* vs := read_cells (a_cells a) in
  ret (a_shape a, vs).

(** The field names and the columns of a table. *)
Definition table_content (t : loc) : M (list string * list (list val)) :=
  let* tb := get_table t in
  let* names := get_dtype (t_dtype tb) in
  ret (names, t_cols tb).

Definition smp_of (self : loc) : M loc :=
  let* ad := get_anndata self in of_option (AttributeError "smp") (ad_smp ad).
Definition var_of (self : loc) : M loc :=
  let* ad := get_anndata self in of_option (AttributeError "var") (ad_var ad).
Definition vis_of (self : loc) : M loc :=
  let* ad := get_anndata self in of_option (AttributeError "vis") (ad_vis ad).
Definition meta_of (self : loc) : M loc :=
  let* ad := get_anndata self in of_option (AttributeError "_meta") (ad_meta ad).

(** The field names and columns [BoundRecArr.__new__] assembles from its
    source, before the table is made. *)
Definition source_fields (h : heap) (src : source) (nr_row : nat)
    (name_col : string) : option (list string * list (list val)) :=
  match src with
  | Src_None => Some ([name_col], [arange nr_row])
  | Src_recarray t =>
      tb ← h_tables h !! t;
      names ← h_dtypes h !! t_dtype tb;
      Some (names, t_cols tb)
  | Src_Mapping d =>
      if bool_decide (name_col ∈ map fst d) then Some (map fst d, map snd d)
      else Some (map fst d ++ [name_col], map snd d ++ [arange nr_row])
  | Src_other _ => None
  end.

(** Field names without repetition, one column per name, every column as
    long as the first. *)
Definition regular (names : list string) (cols : list (list val)) (n : nat) : Prop :=
  NoDup names ∧ names ≠ [] ∧ length names = length cols ∧
  Forall (fun c => length c = n) cols.

(** The table [BoundRecArr.__new__] makes in heap [h]. *)
Definition new_table (h : heap) (cols : list (list val)) (n : nat)
    (parent : option loc) (name_col : string) : table_obj :=
  {| t_dtype := length (h_dtypes h); t_len := n; t_cols := cols;
     t_attrs := Some (parent, name_col) |}.

(** The slot of the owner a bound table writes to. *)
Definition slot (name_col : string) : attr :=
  if bool_decide (name_col = SMP_NAMES) then A_smp else A_var.

Definition set_slot (name_col : string) (t : loc) : anndata_obj -> anndata_obj :=
  match slot name_col with A_smp => set_smp t | A_var => set_var t end.

(** [mat[0:0, :]], the slice without rows, and [mat[0, :]], the first row. *)
Definition no_rows : index := I_sel (S_slice (Some 0%Z) (Some 0%Z) None).
Definition all : index := I_sel slice_None.

(** [s = mat[smp, :]; s.var[key] = value], then the columns of [s.var] and
    of [mat.var]. *)
Definition append_to_slice (sp : sparse_backend) (smp : index) (key : string)
    (value : list val) : M (list string * list string) :=
  let* s := AnnData_getitem sp 0 smp all in
  let* v := var_of s in
  BoundRecArr_setitem v key value ;;;
  let* v' := var_of s in
  let* cs := columns v' in
  let* v0 := var_of 0 in
  let* c0 := columns v0 in
  ret (cs, c0).

(** The owner recorded in the column table of [mat[smp, :]]. *)
Definition owner_of_slice_var (sp : sparse_backend) (smp : index)
    : M (loc * option (option loc * string)) :=
  let* s := AnnData_getitem sp 0 smp all in
  let* v := var_of s in
  let* tb := get_table v in
  ret (s, t_attrs tb).

(** Nothing that was in [h] has changed in [h']: every store of [h'] starts
    with the store of [h]. *)
Definition extends (h h' : heap) : Prop :=
  h_mem h `prefix_of` h_mem h' ∧ h_arrays h `prefix_of` h_arrays h' ∧
  h_dtypes h `prefix_of` h_dtypes h' ∧ h_tables h `prefix_of` h_tables h' ∧
  h_dicts h `prefix_of` h_dicts h' ∧ h_anndata h `prefix_of` h_anndata h'.

(** [t] is a table made between [h] and [h'], with a dtype object made in
    between as well, and bound to [owner]. *)
Definition new_bound_table (h h' : heap) (t owner : loc) (name_col : string) : Prop :=
  length (h_tables h) ≤ t ∧
  ∃ tb, h_tables h' !! t = Some tb ∧ length (h_dtypes h) ≤ t_dtype tb ∧
        t_attrs tb = Some (Some owner, name_col).

(** How the storage [a'] of a slice relates to the storage [a] of its
    parent when that is a numpy array: two slices give a view, which lists
    the selected cells of [a]; an integer list gives a copy, whose cells
    were all made for it. *)
Definition view_or_copy (h : heap) (a : array_obj) (smp var : sel)
    (a' : array_obj) : Prop :=
  if is_slice smp && is_slice var
  then select2 a smp var = inr (a_shape a', a_cells a')
  else Forall (fun c => length (h_mem h) ≤ c) (a_cells a').

(** C3 as the spec states it, for the slice [self[smp, var]] taken in heap
    [h]: no write to the storage of [self] changes the values of the slice,
    and the slice has the [vis] and the [_meta] objects of [self]. *)
Definition storage_independent (sp : sparse_backend) (h : heap) (self : loc)
    (smp var : index) : Prop :=
  ∀ s h1 i j v u h2,
    AnnData_getitem sp self smp var h = (inr s, h1) ->
    AnnData_setitem sp self i j v h1 = (inr u, h2) ->
    result (storage_values s) h2 = result (storage_values s) h1.

Definition vis_shared (sp : sparse_backend) (h : heap) (self : loc)
    (smp var : index) : Prop :=
  ∀ s h1, AnnData_getitem sp self smp var h = (inr s, h1) ->
          result (vis_of s) h1 = result (vis_of self) h1.

Definition meta_shared (sp : sparse_backend) (h : heap) (self : loc)
    (smp var : index) : Prop :=
  ∀ s h1, AnnData_getitem sp self smp var h = (inr s, h1) ->
          result (meta_of s) h1 = result (meta_of self) h1.

(** ** What an instance holds *)

(** The storage as shape and row-major values, the two tables as field
    names and columns, and the entries of the two mappings. *)
Record content := {
  c_shape : list nat;
  c_values : list val;
  c_smp : list string * list (list val);
  c_var : list string * list (list val);
  c_vis : gmap string val;
  c_meta : gmap string val
}.

(** Reading the content of [self] off the heap. *)
Definition content_of (self : loc) : M content :=
  let* sv := storage_values self in
  let* s := smp_of self in
  let* ts := table_content s in
  let* v := var_of self in
  let* tv := table_content v in
  let* l := vis_of self in
  let* dv := get_dict l in
  let* m := meta_of self in
  let* dm := get_dict m in
  ret {| c_shape := fst sv; c_values := snd sv; c_smp := ts; c_var := tv;
         c_vis := dv; c_meta := dm |}.

(** [self] is an instance of [h] as the constructor leaves one, holding
    [C]: its attributes name objects of [h]; the storage is of an accepted
    class, two-dimensional, with one cell per element; each table is
    regular with one row per row (column) of the storage; the two tables
    have dtype objects of their own; no key of [_meta] is a parameter name
    of [__init__]. *)
Definition well_formed (h : heap) (self : loc) (C : content) : Prop :=
  ∃ ad X s v l m a ts tv r c,
    h_anndata h !! self = Some ad ∧
    ad_X ad = Some X ∧ ad_smp ad = Some s ∧ ad_var ad = Some v ∧
    ad_vis ad = Some l ∧ ad_meta ad = Some m ∧
    h_arrays h !! X = Some a ∧ a_shape a = [r; c] ∧
    length (a_cells a) = r * c ∧ classify (a_class a) ≠ None ∧
    c_shape C = [r; c] ∧
    c_values C = map (fun k => nth k (h_mem h) junk) (a_cells a) ∧
    h_tables h !! s = Some ts ∧ h_dtypes h !! t_dtype ts = Some (fst (c_smp C)) ∧
    t_cols ts = snd (c_smp C) ∧ t_len ts = r ∧
    regular (fst (c_smp C)) (snd (c_smp C)) r ∧
    h_tables h !! v = Some tv ∧ h_dtypes h !! t_dtype tv = Some (fst (c_var C)) ∧
    t_cols tv = snd (c_var C) ∧ t_len tv = c ∧
    regular (fst (c_var C)) (snd (c_var C)) c ∧
    t_dtype ts ≠ t_dtype tv ∧
    h_dicts h !! l = Some (c_vis C) ∧ h_dicts h !! m = Some (c_meta C) ∧
    no_parameter_key (c_meta C).

(** The content of the transpose of an instance holding [C]. *)
Definition transpose_content (C : content) : content :=
  {| c_shape := rev (c_shape C);
     c_values := permute junk (c_shape C) (c_values C);
     c_smp := (rename VAR_NAMES SMP_NAMES (fst (c_var C)), snd (c_var C));
     c_var := (rename SMP_NAMES VAR_NAMES (fst (c_smp C)), snd (c_smp C));
     c_vis := c_vis C;
     c_meta := c_meta C |}.

(** The array [X.T] and the cells made for it (none for a numpy array). *)
Definition T_array (h : heap) (a : array_obj) : array_obj :=
  if isinstance (a_class a) C_ndarray then transposed a
  else {| a_class := sparse_T_class (a_class a);
          a_shape := rev (a_shape a);
          a_structured := a_structured a;
          a_cells := seq (length (h_mem h)) (length (a_cells (transposed a))) |}.

Definition T_mem (h : heap) (a : array_obj) : list val :=
  if isinstance (a_class a) C_ndarray then []
  else map (fun k => nth k (h_mem h) junk) (a_cells (transposed a)).

(** A copy of a table as [np.rec.array] makes it. *)
Definition copy_of (tb : table_obj) : table_obj :=
  {| t_dtype := t_dtype tb; t_len := t_len tb; t_cols := t_cols tb;
     t_attrs := None |}.

(** C6 as the spec states it, for instance [self] of heap [h] holding [C]:
    [self.T] and [self.T.T] are made and the second holds [C]. *)
Definition restored_by_double_transpose (h : heap) (self : loc) (C : content) : Prop :=
  ∃ T1 h1 T2 h2,
    transpose self h = (inr T1, h1) ∧ transpose T1 h1 = (inr T2, h2) ∧
    result (content_of self) h = inr C ∧
    result (content_of T2) h2 = inr C.

(** [AnnData(np.array([[1, 2], [3, 4]]), var=dict(smp_names=['x', 'y']))]:
    the column table has a column called [smp_names] next to its identity
    column. *)
Definition heap_with_smp_names_in_var : heap :=
  heap_after (let* X := dense_2x2 in
              AnnData X Src_None
                (Src_Mapping [(SMP_NAMES, [VStr "x"; VStr "y"])]) None ∅)
             empty_heap.

(** What [AnnData(np.array([[1, 2, 3], [4, 5, 6]]))] holds. *)
Definition content_2x3 : content :=
  {| c_shape := [2; 3];
     c_values := ints [1; 2; 3; 4; 5; 6]%Z;
     c_smp := ([SMP_NAMES], [ints [0; 1]%Z]);
     c_var := ([VAR_NAMES], [ints [0; 1; 2]%Z]);
     c_vis := ∅;
     c_meta := ∅ |}.

(** The instance [AnnData(x)] is in [heap_of x]. *)
Definition instance_0 : anndata_obj :=
  {| ad_storage_type := Some Array; ad_X := Some 0; ad_smp := Some 0;
     ad_var := Some 1; ad_vis := Some 1; ad_meta := Some 0 |}.

(** A computation that only reads. *)
Definition reads {A} (m : M A) : Prop := ∀ h r h', m h = (r, h') -> h' = h.

(** A parent whose truth value can be taken in [h], and in every heap with
    the same instances and arrays. *)
Definition truth_defined (parent : option loc) (h : heap) : Prop :=
  match parent with
  | None => True
  | Some p => ∃ ad X a n shape,
      h_anndata h !! p = Some ad ∧ ad_X ad = Some X ∧
      h_arrays h !! X = Some a ∧ a_shape a = n :: shape
  end.


(** ** The rest of the interface of [AnnData] *)

(** [__contains__]: [item in self._meta]. *)
Definition AnnData_contains (self : loc) (item : string) : M bool :=
  let* ad := get_anndata self in
  let* m := of_option (AttributeError "_meta") (ad_meta ad) in
  let* d := get_dict m in
  ret (bool_decide (is_Some (d !! item))).

(** [get]: [self._meta.get(key, default)].  [None] stands for Python's
    [None], which is also the default of [default]. *)
Definition AnnData_get (self : loc) (key : string) (default : option val)
    : M (option val) :=
  let* ad := get_anndata self in
  let* m := of_option (AttributeError "_meta") (ad_meta ad) in
  let* d := get_dict m in
  ret (match d !! key with Some v => Some v | None => default end).

(** The setters of the properties [smp_names] and [var_names]:
    [self.smp[SMP_NAMES] = keys] and [self.var[VAR_NAMES] = keys]. *)
Definition smp_names_setter (self : loc) (keys : list val) : M unit :=
  let* ad := get_anndata self in
  let* t := of_option (AttributeError "smp") (ad_smp ad) in
  BoundRecArr_setitem t SMP_NAMES keys.


(** A computation that leaves the arrays and their elements alone,
    whether it returns or raises. *)
Definition keeps_arrays {A} (m : M A) : Prop :=
  ∀ h r h', m h = (r, h') -> h_mem h' = h_mem h ∧ h_arrays h' = h_arrays h.

(** ** More worked inputs *)

(** The array of [np.array([[1, 2], [3, 4]])] and of
    [np.array([[1, 2, 3], [4, 5, 6]])], as [dense_2x2] and [dense_2x3]
    leave them at location 0 of an empty heap. *)
Definition array_2x2 : array_obj :=
  {| a_class := C_ndarray; a_shape := [2; 2]; a_structured := false;
     a_cells := [0; 1; 2; 3] |}.
Definition array_2x3 : array_obj :=
  {| a_class := C_ndarray; a_shape := [2; 3]; a_structured := false;
     a_cells := [0; 1; 2; 3; 4; 5] |}.

(** [dict(smp_names=[1, 2, 3, 4])], [dict(TooLong=[1, 2, 3, 4])],
    [dict(Smp=['A', 'B'])] and [dict(Feat=['a', 'b', 'c'])]. *)
Definition four_names : list (string * list val) := [(SMP_NAMES, ints [1; 2; 3; 4]%Z)].
Definition too_long : list (string * list val) := [("TooLong", ints [1; 2; 3; 4]%Z)].
Definition Smp_AB : list (string * list val) := [("Smp", [VStr "A"; VStr "B"])].
Definition Feat_abc : list (string * list val) :=
  [("Feat", [VStr "a"; VStr "b"; VStr "c"])].

(** [mat.var] in [heap_of dense_2x2]. *)
Definition var_table_2 : table_obj :=
  {| t_dtype := 1; t_len := 2; t_cols := [ints [0; 1]%Z];
     t_attrs := Some (Some 0, VAR_NAMES) |}.

(** The table in the slot of [self] that a table with identity column
    [name_col] writes to: [self.smp] or [self.var]. *)
Definition slot_of (name_col : string) (self : loc) : M loc :=
  match slot name_col with A_smp => smp_of self | A_var => var_of self end.

(** [mat.smp] in [heap_of dense_2x3]. *)
Definition smp_table_2 : table_obj :=
  {| t_dtype := 0; t_len := 2; t_cols := [ints [0; 1]%Z];
     t_attrs := Some (Some 0, SMP_NAMES) |}.

(** What [mat[smp, var]] holds when [mat] holds [C], has [c] columns, and
    the selectors resolve to the rows [R] and the columns [Cs]. *)
Definition getitem_content (C : content) (c : nat) (R Cs : list nat) : content :=
  {| c_shape := [length R; length Cs];
     c_values := flat_map (fun i => map (fun j => nth (i * c + j) (c_values C) junk) Cs) R;
     c_smp := (fst (c_smp C), map (take_rows R) (snd (c_smp C)));
     c_var := (fst (c_var C), map (take_rows Cs) (snd (c_var C)));
     c_vis := c_vis C;
     c_meta := c_meta C |}.

(** * Proofs *)

(** ** Running computations *)

Lemma bind_inr {A B} (m : M A) (k : A -> M B) h a h1 :
  m h = (inr a, h1) -> bind m k h = k a h1.
Proof. intros E. unfold bind. now rewrite E. Qed.

Lemma bind_inl {A B} (m : M A) (k : A -> M B) h e h1 :
  m h = (inl e, h1) -> bind m k h = (inl e, h1).
Proof. intros E. unfold bind. now rewrite E. Qed.

Lemma bind_inv {A B} (m : M A) (k : A -> M B) h b h' :
  bind m k h = (inr b, h') ->
  ∃ a h1, m h = (inr a, h1) ∧ k a h1 = (inr b, h').
Proof.
  unfold bind. destruct (m h) as [[e|a] h1]; [discriminate|]. eauto.
Qed.

Lemma ret_inv {A} (a b : A) h h' : ret a h = (inr b, h') -> b = a ∧ h' = h.
Proof. unfold ret. intros [= -> ->]. auto. Qed.

Lemma bind_assoc {A B C} (m : M A) (k0 : A -> M B) (k : B -> M C) h :
  bind (bind m k0) k h = bind m (fun x => bind (k0 x) k) h.
Proof. unfold bind. now destruct (m h) as [[e|a] h1]. Qed.

Lemma ret_run {A} (a : A) h : ret a h = (inr a, h).
Proof. reflexivity. Qed.

Lemma raise_inv {A} e (b : A) h h' : raise e h = (inr b, h') -> False.
Proof. discriminate. Qed.

Lemma lift_inv {A} (r : exn + A) b h h' :
  lift r h = (inr b, h') -> r = inr b ∧ h' = h.
Proof. destruct r; simpl; [discriminate|]. intros [= -> ->]. auto. Qed.

Lemma of_option_inv {A} e (o : option A) b h h' :
  of_option e o h = (inr b, h') -> o = Some b ∧ h' = h.
Proof. destruct o; simpl; [|discriminate]. intros [= -> ->]. auto. Qed.

Lemma deref_inv {A} (store : heap -> list A) l h a h' :
  deref store l h = (inr a, h') -> store h !! l = Some a ∧ h' = h.
Proof.
  unfold deref. destruct (store h !! l); [|discriminate].
  intros [= -> ->]. auto.
Qed.

Lemma deref_heap {A} (store : heap -> list A) l h r h' :
  deref store l h = (r, h') -> h' = h.
Proof. unfold deref. now intros [= _ ->]. Qed.

Lemma deref_Some {A} (store : heap -> list A) l h a :
  store h !! l = Some a -> deref store l h = (inr a, h).
Proof. unfold deref. now intros ->. Qed.

Lemma reads_deref {A} (store : heap -> list A) l : reads (deref store l).
Proof. intros h r h'. apply deref_heap. Qed.

Lemma reads_ret {A} (a : A) : reads (ret a).
Proof. intros h r h'. unfold ret. now intros [= _ ->]. Qed.

Lemma reads_raise {A} e : reads (@raise A e).
Proof. intros h r h'. unfold raise. now intros [= _ ->]. Qed.

Lemma reads_of_option {A} e (o : option A) : reads (of_option e o).
Proof. destruct o; [apply reads_ret | apply reads_raise]. Qed.

Lemma reads_lift {A} (r : exn + A) : reads (lift r).
Proof. destruct r; [apply reads_raise | apply reads_ret]. Qed.

Lemma reads_bind {A B} (m : M A) (k : A -> M B) :
  reads m -> (∀ a, reads (k a)) -> reads (bind m k).
Proof.
  intros Hm Hk h r h'. unfold bind.
  destruct (m h) as [[e|a] h1] eqn:E; apply Hm in E as ->.
  - now intros [= _ ->].
  - apply Hk.
Qed.

Lemma reads_AnnData_len self : reads (AnnData_len self).
Proof.
  unfold AnnData_len, get_anndata, get_array.
  repeat (apply reads_bind; [auto using reads_deref, reads_of_option|intros]).
  destruct (a_shape _); [apply reads_raise | apply reads_ret].
Qed.

Lemma reads_truth parent : reads (truth parent).
Proof.
  destruct parent; simpl; [|apply reads_ret].
  apply reads_bind; [apply reads_AnnData_len | intros; apply reads_ret].
Qed.

(** Decomposing a successful run, one step at a time. *)
Ltac run_inv H :=
  lazymatch type of H with
  | bind _ _ _ = (inr _, _) =>
      let a := fresh "a" in let h1 := fresh "h" in let E := fresh "E" in
      apply bind_inv in H as (a & h1 & E & H)
  | ret _ _ = (inr _, _) => apply ret_inv in H as [? ?]; subst
  | raise _ _ = (inr _, _) => exfalso; exact (raise_inv _ _ _ _ H)
  | lift _ _ = (inr _, _) => apply lift_inv in H as [? ?]; subst
  | of_option _ _ _ = (inr _, _) => apply of_option_inv in H as [? ?]; subst
  | deref _ _ _ = (inr _, _) => apply deref_inv in H as [? ?]; subst
  end.

Tactic Notation "run_bind" hyp(H) "as" ident(a) ident(h1) ident(E) :=
  apply bind_inv in H as (a & h1 & E & H).

(** Projections of an updated heap. *)
Ltac hsimpl :=
  cbn [h_mem h_arrays h_dtypes h_tables h_dicts h_anndata
       with_mem with_arrays with_dtypes with_tables with_dicts with_anndata] in *.

(** Reading back what was just stored at [i]. *)
Ltac ins_simpl Hlt :=
  repeat match goal with
  | H : context [<[?i:=_]> _ !! ?i] |- _ =>
      rewrite list_lookup_insert_eq in H by (rewrite ?length_insert; exact Hlt)
  | |- context [<[?i:=_]> _ !! ?i] =>
      rewrite list_lookup_insert_eq by (rewrite ?length_insert; exact Hlt)
  end.

Lemma heap_eq h1 h2 :
  h_mem h1 = h_mem h2 -> h_arrays h1 = h_arrays h2 ->
  h_dtypes h1 = h_dtypes h2 -> h_tables h1 = h_tables h2 ->
  h_dicts h1 = h_dicts h2 -> h_anndata h1 = h_anndata h2 -> h1 = h2.
Proof. destruct h1, h2; cbn. now intros -> -> -> -> -> ->. Qed.

(** ** Record arrays *)

Lemma with_tables_id h : with_tables (fun s => s) h = h.
Proof. now destruct h. Qed.

Lemma set_cols_id tb : set_cols (t_cols tb) tb = tb.
Proof. now destruct tb. Qed.

Lemma set_cols_set_cols c1 c2 tb : set_cols c1 (set_cols c2 tb) = set_cols c1 tb.
Proof. reflexivity. Qed.

Lemma with_tables_insert_id h t tb :
  h_tables h !! t = Some tb -> with_tables (fun s => <[t := tb]> s) h = h.
Proof.
  intros E. destruct h; unfold with_tables; simpl in *.
  now rewrite list_insert_id.
Qed.

Lemma with_tables_insert_insert h t tb1 tb2 :
  with_tables (fun s => <[t := tb2]> s) (with_tables (fun s => <[t := tb1]> s) h)
  = with_tables (fun s => <[t := tb2]> s) h.
Proof. unfold with_tables; simpl. now rewrite list_insert_insert_eq. Qed.

Lemma broadcast_col_length value n col :
  broadcast_col value n = inr col -> length col = n.
Proof.
  unfold broadcast_col.
  destruct (length value =? n) eqn:E1.
  - intros [= <-]. now apply Nat.eqb_eq.
  - destruct (length value =? 1); [|discriminate].
    intros [= <-]. apply length_replicate.
Qed.

Lemma broadcast_col_same value : broadcast_col value (length value) = inr value.
Proof. unfold broadcast_col. now rewrite Nat.eqb_refl. Qed.

Lemma ndarray_setfield_inv t key value h u h' :
  ndarray_setfield t key value h = (inr u, h') ->
  ∃ tb names i col,
    h_tables h !! t = Some tb ∧ h_dtypes h !! t_dtype tb = Some names ∧
    index_of key names = Some i ∧ broadcast_col value (t_len tb) = inr col ∧
    h' = with_tables (fun s => <[t := set_cols (<[i := col]> (t_cols tb)) tb]> s) h.
Proof.
  unfold ndarray_setfield, get_table, get_dtype, set_table. intros H.
  run_inv H. run_inv E. run_inv H. run_inv E.
  destruct (index_of key a0) as [i|] eqn:Ei; [|run_inv H].
  run_inv H. run_inv E. injection H as _ <-.
  eauto 10.
Qed.

(** Filling the fields of a new array touches nothing but that array,
    whose columns keep the length of the array. *)
Lemma fill_fields_inv arr parent fields : ∀ h u h' tb,
  fill_fields arr parent fields h = (inr u, h') ->
  h_tables h !! arr = Some tb ->
  Forall (fun c => length c = t_len tb) (t_cols tb) ->
  ∃ cols, h' = with_tables (fun s => <[arr := set_cols cols tb]> s) h ∧
          Forall (fun c => length c = t_len tb) cols ∧
          length cols = length (t_cols tb).
Proof.
  induction fields as [|[name col] fields IH]; intros h u h' tb H Htb Hlen; simpl in H.
  - run_inv H. exists (t_cols tb). rewrite set_cols_id.
    now rewrite with_tables_insert_id.
  - run_inv H. unfold fill_field in E. run_inv E.
    apply reads_truth in E0 as ->.
    apply ndarray_setfield_inv in E as (tb' & names & i & col' & Htb' & _ & _ & Hb & ->).
    rewrite Htb in Htb'. injection Htb' as <-.
    apply broadcast_col_length in Hb.
    eapply IH with (tb := set_cols (<[i := col']> (t_cols tb)) tb) in H
      as (cols & -> & Hc & Hl).
    + exists cols. rewrite with_tables_insert_insert.
      split; [reflexivity|]. split; [exact Hc|].
      simpl in Hl. now rewrite length_insert in Hl.
    + simpl. apply list_lookup_insert_eq. eapply lookup_lt_Some, Htb.
    + simpl. now apply Forall_insert.
Qed.

Lemma insert_snoc {A} (l : list A) x y : <[length l := y]> (l ++ [x]) = l ++ [y].
Proof.
  replace (length l) with (length l + 0) by lia.
  now rewrite insert_app_r.
Qed.

Lemma lookup_snoc {A} (l : list A) x : (l ++ [x]) !! length l = Some x.
Proof. now rewrite list_lookup_middle. Qed.

Lemma BoundRecArr_new_inv src nr_row name_col parent h t h' :
  BoundRecArr_new src nr_row name_col parent h = (inr t, h') ->
  ∃ tb names,
    t = length (h_tables h) ∧ h' = add_table names tb h ∧
    t_dtype tb = length (h_dtypes h) ∧
    Forall (fun c => length c = t_len tb) (t_cols tb) ∧
    t_attrs tb = Some (parent, name_col).
Proof.
  unfold BoundRecArr_new. intros H. run_bind H as nc h0 E.
  destruct (snd nc) as [|col0 cols] eqn:Ecols; [run_inv H|].
  assert (h0 = h) as ->.
  { revert E. destruct src; simpl.
    - now intros [= _ ->].
    - apply reads_bind; [apply reads_deref|intros].
      apply reads_bind; [apply reads_deref|intros].
      apply reads_bind; [apply reads_lift|intros]. apply reads_ret.
    - case_bool_decide; now intros [= _ ->].
    - discriminate. }
  clear E. run_bind H as d h1 E. unfold alloc_dtype in E. injection E as <- <-.
  run_bind H as arr h2 E. unfold alloc_table in E. injection E as <- <-.
  run_bind H as u h3 E. run_inv H.
  set (tb0 := {| t_dtype := length (h_dtypes h); t_len := length col0;
                 t_cols := replicate (length (fst nc)) (replicate (length col0) junk);
                 t_attrs := Some (parent, name_col) |}) in *.
  apply (fill_fields_inv _ _ _ _ _ _ tb0) in E as (cs & -> & Hc & Hl).
  - exists (set_cols cs tb0), (fst nc).
    unfold add_table, with_tables, with_dtypes; simpl.
    rewrite insert_snoc. repeat split; try reflexivity. exact Hc.
  - simpl. apply lookup_snoc.
  - simpl. apply Forall_replicate. apply length_replicate.
Qed.

(** ** The constructor *)

Lemma update_anndata_inv self f h u h' :
  update_anndata self f h = (inr u, h') ->
  ∃ ad, h_anndata h !! self = Some ad ∧
        h' = with_anndata (fun s => <[self := f ad]> s) h.
Proof.
  unfold update_anndata, get_anndata, set_anndata. intros H.
  run_inv H. run_inv E. injection H as _ <-. eauto.
Qed.

Lemma _check_dimensions_inv data smp var h u h' :
  _check_dimensions data smp var h = (inr u, h') ->
  h' = h ∧
  ∃ a ts tv, h_arrays h !! data = Some a ∧ h_tables h !! smp = Some ts ∧
             h_tables h !! var = Some tv ∧ a_shape a = [t_len ts; t_len tv].
Proof.
  unfold _check_dimensions, get_array, get_table. intros H.
  run_inv H. run_inv E.
  destruct (a_shape a) as [|nr_smp [|nr_var [|]]] eqn:Es; try solve [run_inv H].
  run_inv H. run_inv E.
  destruct (t_len a0 =? nr_smp) eqn:E1; cbn [negb] in H; [|run_inv H].
  run_inv H. run_inv E.
  destruct (t_len a1 =? nr_var) eqn:E2; cbn [negb] in H; [|run_inv H].
  run_inv H. apply Nat.eqb_eq in E1, E2. subst.
  split; [reflexivity|]. eauto 10.
Qed.

Lemma or_empty_dict_inv vis h l h' :
  or_empty_dict vis h = (inr l, h') ->
  (h' = h ∧ vis = Some l ∧ ∃ d, h_dicts h !! l = Some d ∧ d ≠ ∅) ∨
  (h' = with_dicts (fun s => s ++ [∅]) h ∧ l = length (h_dicts h) ∧
   (vis = None ∨ ∃ v, vis = Some v ∧ h_dicts h !! v = Some ∅)).
Proof.
  unfold or_empty_dict, alloc_dict, get_dict. destruct vis as [v|].
  - intros H. run_inv H. run_inv E. case_bool_decide as Hd.
    + injection H as <- <-. right. subst. eauto 10.
    + run_inv H. left. eauto 10.
  - intros [= <- <-]. right. eauto.
Qed.

Lemma with_dicts_id h : with_dicts (fun _ => h_dicts h) h = h.
Proof. now destruct h. Qed.

Lemma with_arrays_insert_id h X a :
  h_arrays h !! X = Some a -> with_arrays (fun s => <[X := a]> s) h = h.
Proof.
  intros E. destruct h; unfold with_arrays; simpl in *.
  now rewrite list_insert_id.
Qed.

Lemma with_dicts_nil h : with_dicts (fun s => s ++ []) h = h.
Proof. destruct h; unfold with_dicts; simpl. now rewrite app_nil_r. Qed.

Lemma or_empty_dict_run vis h l h' :
  or_empty_dict vis h = (inr l, h') ->
  ∃ extra, vis_or_empty h vis extra l ∧ h' = with_dicts (fun s => s ++ extra) h.
Proof.
  intros H. apply or_empty_dict_inv in H as [(-> & ? & ?)|(-> & ? & ?)].
  - exists []. split; [left; auto|]. now rewrite with_dicts_nil.
  - exists [∅]. split; [right; auto|reflexivity].
Qed.

(** The state in which [__init__] ends, when it ends without an
    exception. *)
Lemma AnnData_init_inv self X smp var vis meta h u h' :
  AnnData_init self X smp var vis meta h = (inr u, h') ->
  ∃ ad0 a0 s_type ns ts nv tv extra l,
    h_anndata h !! self = Some ad0 ∧ h_arrays h !! X = Some a0 ∧
    classify (a_class a0) = Some s_type ∧
    a_shape (reshaped a0) = [t_len ts; t_len tv] ∧
    t_dtype ts = length (h_dtypes h) ∧ t_dtype tv = S (length (h_dtypes h)) ∧
    Forall (fun c => length c = t_len ts) (t_cols ts) ∧
    Forall (fun c => length c = t_len tv) (t_cols tv) ∧
    t_attrs ts = Some (Some self, SMP_NAMES) ∧
    t_attrs tv = Some (Some self, VAR_NAMES) ∧
    vis_or_empty h vis extra l ∧
    h' = initialised self X s_type a0 ns ts nv tv extra l meta h.
Proof.
  unfold AnnData_init. intros H.
  run_bind H as a0 h0 E. unfold get_array in E. run_inv E.
  fold (classify (a_class a0)) in H.
  destruct (classify (a_class a0)) as [s_type|] eqn:Ecl; [|run_inv H].
  run_bind H as u1 h1 E. apply update_anndata_inv in E as (ad0 & Had0 & ->).
  run_bind H as u2 h2 E2.
  assert (h2 = with_arrays (fun s => <[X := reshaped a0]> s)
            (with_anndata (fun s => <[self := set_storage_type s_type ad0]> s) h))
    as ->.
  { unfold reshaped. destruct (length (a_shape a0) =? 1).
    - unfold set_array in E2. now injection E2 as _ <-.
    - run_inv E2. symmetry. now apply with_arrays_insert_id. }
  clear E2.
  assert (HX : X < length (h_arrays h)) by (eapply lookup_lt_Some; eauto).
  assert (Hself : self < length (h_anndata h)) by (eapply lookup_lt_Some, Had0).
  run_bind H as a h3 E. unfold get_array in E. run_inv E.
  hsimpl. ins_simpl HX. injection H1 as <-.
  destruct (negb (a_structured (reshaped a0)) &&
            negb (length (a_shape (reshaped a0)) =? 2)); [run_inv H|].
  destruct (a_shape (reshaped a0)) as [|nr_smp [|nr_var [|]]] eqn:Es;
    try solve [run_inv H].
  run_bind H as u3 h4 E. apply update_anndata_inv in E as (ad1 & Had1 & ->).
  run_bind H as s h5 E.
  apply BoundRecArr_new_inv in E as (ts & ns & -> & -> & Hds & Hts & Has).
  run_bind H as u4 h6 E. apply update_anndata_inv in E as (ad2 & Had2 & ->).
  run_bind H as v h7 E.
  apply BoundRecArr_new_inv in E as (tv & nv & -> & -> & Hdv & Htv & Hav).
  run_bind H as u5 h8 E. apply update_anndata_inv in E as (ad3 & Had3 & ->).
  run_bind H as ad h9 E. unfold get_anndata in E. run_inv E.
  run_bind H as s' h9 E. run_inv E. run_bind H as v' h9 E. run_inv E.
  run_bind H as u6 h9 E.
  apply _check_dimensions_inv in E as (-> & a' & ts' & tv' & Ha' & Hts' & Htv' & Hshape).
  run_bind H as l h10 E.
  apply or_empty_dict_run in E as (extra & Hvis & ->).
  run_bind H as u7 h11 E. apply update_anndata_inv in E as (ad4 & Had4 & ->).
  apply update_anndata_inv in H as (ad5 & Had5 & ->).
  unfold add_table in *. hsimpl.
  ins_simpl Hself. ins_simpl HX.
  injection Had1 as <-. injection Had2 as <-. injection Had3 as <-.
  injection H1 as <-. injection Had4 as <-. injection Had5 as <-.
  injection Ha' as <-.
  cbn in H2, H3. injection H2 as <-. injection H3 as <-.
  rewrite lookup_app_l in Hts' by (rewrite length_app; simpl; lia).
  rewrite lookup_snoc in Hts', Htv'.
  injection Hts' as <-. injection Htv' as <-.
  rewrite length_app in Hdv. simpl in Hdv.
  exists ad0, a0, s_type, ns, ts, nv, tv, extra, l.
  unfold vis_or_empty in *. hsimpl.
  repeat split; try assumption.
  - lia.
  - unfold initialised, add_table.
    apply heap_eq; hsimpl; try reflexivity.
    rewrite !list_insert_insert_eq. do 2 f_equal.
    unfold set_meta, set_vis, set_var, set_smp, set_X, set_storage_type.
    cbn [ad_storage_type ad_X ad_smp ad_var ad_vis ad_meta].
    rewrite length_app, Nat.add_1_r. reflexivity.
Qed.

Lemma AnnData_inv X smp var vis meta h self h' :
  AnnData X smp var vis meta h = (inr self, h') ->
  self = length (h_anndata h) ∧ no_parameter_key meta ∧
  ∃ u, AnnData_init self X smp var vis (length (h_dicts h)) (at_call meta h)
       = (inr u, h').
Proof.
  unfold AnnData, no_parameter_key. intros H.
  destruct (find _ parameters) eqn:Ef; [run_inv H|].
  run_bind H as s h1 E. unfold alloc_anndata in E. injection E as <- <-.
  run_bind H as m h2 E. unfold alloc_dict in E. injection E as <- <-.
  run_bind H as u h3 E. run_inv H. hsimpl. eauto 10.
Qed.

Lemma AnnData_run_init X smp var vis meta h h' :
  no_parameter_key meta ->
  AnnData_init (length (h_anndata h)) X smp var vis (length (h_dicts h)) (at_call meta h)
  = (inr tt, h') ->
  AnnData X smp var vis meta h = (inr (length (h_anndata h)), h').
Proof.
  unfold AnnData, no_parameter_key. intros -> H.
  unfold alloc_anndata, alloc_dict, bind. hsimpl.
  fold (at_call meta h). now rewrite H.
Qed.

Lemma AnnData_shape_invariant X smp var vis meta h self h' :
  AnnData X smp var vis meta h = (inr self, h') -> shape_invariant h' self.
Proof.
  intros H. apply AnnData_inv in H as (-> & _ & u & H). unfold at_call in H.
  apply AnnData_init_inv in H
    as (ad0 & a0 & s_type & ns & ts & nv & tv & extra & l & Had0 & Ha0 & _ & Hsh
        & _ & _ & Hts & Htv & _ & _ & _ & ->).
  hsimpl.
  assert (HX : X < length (h_arrays h)) by (eapply lookup_lt_Some; eauto).
  assert (Hself : length (h_anndata h) < length (h_anndata h ++ [ad0]))
    by (rewrite length_app; simpl; lia).
  rewrite lookup_snoc in Had0. injection Had0 as <-.
  unfold shape_invariant, initialised, add_table in *. hsimpl.
  eexists _, X, _, _, (reshaped a0), ts, tv.
  ins_simpl Hself. ins_simpl HX.
  cbn [ad_X ad_smp ad_var].
  repeat split; try reflexivity; try assumption.
  - rewrite lookup_app_l by (rewrite length_app; simpl; lia). apply lookup_snoc.
  - replace (S (length (h_tables h))) with (length (h_tables h ++ [ts]))
      by (rewrite length_app; simpl; lia).
    apply lookup_snoc.
Qed.

(** ** C1: the shape invariant *)

Ltac run_any H :=
  let a := fresh "a" in let h1 := fresh "h" in let E := fresh "E" in
  apply bind_inv in H as (a & h1 & E & H).

Ltac skip_checks H :=
  repeat first
    [ run_any H
    | match type of H with
      | (if ?b then raise _ else _) _ = (inr _, _) =>
          destruct b; [exfalso; exact (raise_inv _ _ _ _ H)|]
      end ].

Lemma AnnData_getitem_shape_invariant sp parent smp var h self h' :
  AnnData_getitem sp parent smp var h = (inr self, h') -> shape_invariant h' self.
Proof.
  unfold AnnData_getitem. intros H. skip_checks H.
  eapply AnnData_shape_invariant, H.
Qed.

Lemma transpose_shape_invariant parent h self h' :
  transpose parent h = (inr self, h') -> shape_invariant h' self.
Proof.
  unfold transpose. intros H. skip_checks H.
  eapply AnnData_shape_invariant, H.
Qed.

(** C1. Every instance returned by the constructor call, by indexing with a
    pair of selectors or by [transpose] satisfies the shape invariant: the
    row table has as many rows as the storage, the column table as many
    rows as the storage has columns. *)
Theorem built_shape_invariant sp h h' self :
  built sp h h' self -> shape_invariant h' self.
Proof.
  intros [X smp var vis meta H | parent smp var H | parent H].
  - eapply AnnData_shape_invariant, H.
  - eapply AnnData_getitem_shape_invariant, H.
  - eapply transpose_shape_invariant, H.
Qed.

(** ** Running [BoundRecArr.__new__] forward *)

Lemma index_of_middle name pre post :
  name ∉ pre -> index_of name (pre ++ name :: post) = Some (length pre).
Proof.
  induction pre as [|p pre IH]; intros Hn; simpl.
  - now rewrite bool_decide_eq_true_2.
  - rewrite bool_decide_eq_false_2 by (intros ->; apply Hn; left).
    rewrite IH by (intros Hin; apply Hn; now right). reflexivity.
Qed.

Lemma index_of_None name names : name ∉ names -> index_of name names = None.
Proof.
  induction names as [|n names IH]; intros Hn; simpl; [reflexivity|].
  rewrite bool_decide_eq_false_2 by (intros ->; apply Hn; left).
  rewrite IH by (intros Hin; apply Hn; now right). reflexivity.
Qed.

Lemma nth_middle_length {A} (pre : list A) x post d :
  nth (length pre) (pre ++ x :: post) d = x.
Proof. induction pre; simpl; auto. Qed.

Lemma fields_of_suffix names cols : ∀ pre_n pre_c,
  length pre_n = length pre_c -> length names = length cols ->
  NoDup (pre_n ++ names) ->
  fields_of (pre_n ++ names) (pre_c ++ cols) names = inr cols.
Proof.
  revert cols. induction names as [|n names IH]; intros [|c cols] pre_n pre_c Hp Hl Hnd;
    try discriminate; simpl; [reflexivity|].
  unfold field. rewrite index_of_middle.
  2:{ apply NoDup_app in Hnd as (_ & Hd & _). intros Hin. apply (Hd _ Hin). left. }
  rewrite Hp, nth_middle_length. simpl.
  replace (pre_n ++ n :: names) with ((pre_n ++ [n]) ++ names)
    by (now rewrite <- app_assoc).
  replace (pre_c ++ c :: cols) with ((pre_c ++ [c]) ++ cols)
    by (now rewrite <- app_assoc).
  rewrite IH; [reflexivity| | |].
  - rewrite !length_app; simpl; lia.
  - simpl in Hl; lia.
  - now rewrite <- app_assoc.
Qed.

Lemma fields_of_self names cols :
  length names = length cols -> NoDup names ->
  fields_of names cols names = inr cols.
Proof. intros Hl Hnd. now apply (fields_of_suffix names cols [] []). Qed.

Lemma ndarray_setfield_run t key value h tb names i :
  h_tables h !! t = Some tb -> h_dtypes h !! t_dtype tb = Some names ->
  index_of key names = Some i -> length value = t_len tb ->
  ndarray_setfield t key value h
  = (inr tt, with_tables (fun s => <[t := set_cols (<[i := value]> (t_cols tb)) tb]> s) h).
Proof.
  intros Ht Hd Hi Hl. unfold ndarray_setfield, get_table, get_dtype.
  rewrite (bind_inr _ _ _ _ _ (deref_Some h_tables _ _ _ Ht)).
  rewrite (bind_inr _ _ _ _ _ (deref_Some h_dtypes _ _ _ Hd)).
  rewrite Hi. rewrite <- Hl, broadcast_col_same. reflexivity.
Qed.

Lemma truth_run parent h :
  truth_defined parent h -> ∃ b, truth parent h = (inr b, h).
Proof.
  destruct parent as [p|]; simpl; [|eauto].
  intros (ad & X & a & n & shape & Had & HX & Ha & Hs).
  unfold AnnData_len, get_anndata, get_array, bind, deref.
  rewrite Had. cbv beta iota. rewrite HX. cbv beta iota delta [of_option ret].
  rewrite Ha. cbv beta iota. rewrite Hs. eauto.
Qed.

Lemma truth_defined_ext parent h h' :
  h_anndata h' = h_anndata h -> h_arrays h' = h_arrays h ->
  truth_defined parent h -> truth_defined parent h'.
Proof.
  intros E1 E2. destruct parent; [|auto]. simpl. now rewrite E1, E2.
Qed.

Lemma fill_fields_run arr parent d n attrs names : ∀ post_n post_c pre_n pre_c old h,
  names = pre_n ++ post_n -> NoDup names ->
  length pre_n = length pre_c -> length post_n = length post_c ->
  length old = length post_n ->
  Forall (fun c => length c = n) post_c ->
  h_tables h !! arr
    = Some {| t_dtype := d; t_len := n; t_cols := pre_c ++ old; t_attrs := attrs |} ->
  h_dtypes h !! d = Some names ->
  truth_defined parent h ->
  fill_fields arr parent (combine post_n post_c) h
  = (inr tt,
     with_tables (fun s => <[arr := {| t_dtype := d; t_len := n;
                                       t_cols := pre_c ++ post_c;
                                       t_attrs := attrs |}]> s) h).
Proof.
  induction post_n as [|name post_n IH];
    intros [|col post_c] pre_n pre_c [|o old] h Hn Hnd Hp Hl Ho Hf Ht Hd Htr;
    try discriminate; simpl.
  - unfold ret. f_equal. symmetry. now apply with_tables_insert_id.
  - destruct (truth_run _ _ Htr) as [b Hb].
    unfold fill_field. rewrite bind_assoc.
    rewrite (bind_inr _ _ _ _ _ Hb).
    assert (Hi : index_of name names = Some (length pre_n)).
    { rewrite Hn. apply index_of_middle. rewrite Hn in Hnd.
      apply NoDup_app in Hnd as (_ & Hdis & _). intros Hin.
      apply (Hdis _ Hin). left. }
    inversion Hf as [|? ? Hc Hf']; subst.
    erewrite bind_inr; [|eapply ndarray_setfield_run; eauto].
    cbn [t_cols set_cols t_dtype t_len t_attrs].
    rewrite Hp.
    replace (length pre_c) with (length pre_c + 0) by lia.
    rewrite insert_app_r. cbn [list_insert insert].
    erewrite (IH post_c (pre_n ++ [name]) (pre_c ++ [col]) old).
    + rewrite with_tables_insert_insert. now rewrite <- app_assoc.
    + now rewrite <- app_assoc.
    + assumption.
    + rewrite !length_app; simpl; lia.
    + simpl in Hl; lia.
    + simpl in Ho; lia.
    + assumption.
    + hsimpl. rewrite list_lookup_insert_eq by (eapply lookup_lt_Some, Ht).
      now rewrite <- app_assoc.
    + hsimpl. assumption.
    + eapply truth_defined_ext; [| |exact Htr]; reflexivity.
Qed.

Lemma BoundRecArr_new_run src nr_row name_col parent h names cols n :
  source_fields h src nr_row name_col = Some (names, cols) ->
  regular names cols n -> truth_defined parent h ->
  BoundRecArr_new src nr_row name_col parent h
  = (inr (length (h_tables h)),
     add_table names (new_table h cols n parent name_col) h).
Proof.
  intros Hsrc (Hnd & Hne & Hl & Hf) Htr. unfold BoundRecArr_new.
  assert (Hnc : (match src with
    | Src_None => ret ([name_col], [arange nr_row])
    | Src_recarray t =>
        let* tb := get_table t in
        let* names := get_dtype (t_dtype tb) in
        let* cols := lift (fields_of names (t_cols tb) names) in
        ret (names, cols)
    | Src_Mapping d =>
        let names := map fst d in
        let cols := map snd d in
        let nc := if bool_decide (name_col ∈ names) then (names, cols)
                  else (names ++ [name_col], cols ++ [arange nr_row]) in
        if bool_decide (NoDup (fst nc)) then ret nc
        else raise ValueError_duplicate_names
    | Src_other c => raise (ValueError_meta_source c)
    end) h = (inr (names, cols), h)).
  { destruct src as [|t|d|c]; simpl in Hsrc.
    - now injection Hsrc as <- <-.
    - destruct (h_tables h !! t) as [tb|] eqn:Et; [|discriminate]. simpl in Hsrc.
      destruct (h_dtypes h !! t_dtype tb) as [ns|] eqn:Ed; [|discriminate].
      injection Hsrc as <- <-.
      unfold get_table, get_dtype, bind, deref. rewrite Et. cbv beta iota.
      rewrite Ed. cbv beta iota. rewrite fields_of_self by assumption.
      reflexivity.
    - cbv zeta. destruct (bool_decide (name_col ∈ map fst d));
        injection Hsrc as <- <-; cbn [fst];
        now rewrite bool_decide_eq_true_2.
    - discriminate. }
  rewrite (bind_inr _ _ _ _ _ Hnc). cbn [fst snd].
  destruct cols as [|col0 cols]; [destruct names; [congruence|discriminate]|].
  assert (Hn : length col0 = n) by (now inversion Hf).
  unfold alloc_dtype, alloc_table.
  erewrite bind_inr; [|reflexivity]. erewrite bind_inr; [|reflexivity].
  hsimpl.
  erewrite bind_inr.
  2:{ eapply (fill_fields_run _ _ (length (h_dtypes h)) n _ names names (col0 :: cols) [] []).
      - reflexivity.
      - assumption.
      - reflexivity.
      - assumption.
      - rewrite length_replicate. reflexivity.
      - assumption.
      - hsimpl. rewrite lookup_snoc. rewrite Hn. reflexivity.
      - hsimpl. apply lookup_snoc.
      - eapply truth_defined_ext; [| |exact Htr]; reflexivity. }
  unfold ret, add_table, new_table. f_equal.
  apply heap_eq; hsimpl; try reflexivity.
  now rewrite insert_snoc.
Qed.

(** ** Appending a column through a bound table *)

Lemma AnnData_len_run p h ad X a n shape :
  h_anndata h !! p = Some ad -> ad_X ad = Some X ->
  h_arrays h !! X = Some a -> a_shape a = n :: shape ->
  AnnData_len p h = (inr n, h).
Proof.
  intros Had HX Ha Hs.
  unfold AnnData_len, get_anndata, get_array, bind, deref.
  rewrite Had. cbv beta iota. rewrite HX. cbv beta iota delta [of_option ret].
  rewrite Ha. cbv beta iota. rewrite Hs. reflexivity.
Qed.

Lemma pad_full n col : length col = n -> pad n col = col.
Proof. intros <-. unfold pad. rewrite Nat.sub_diag. apply app_nil_r. Qed.

Lemma map_pad_full n cols :
  Forall (fun c => length c = n) cols -> map (pad n) cols = cols.
Proof.
  induction 1 as [|c cols Hc _ IH]; simpl; [reflexivity|].
  now rewrite pad_full, IH.
Qed.

Section Append.

Variables (h : heap) (t p X : loc) (tb : table_obj) (name_col : string)
          (names : list string) (ad : anndata_obj) (a : array_obj)
          (n : nat) (shape : list nat).

Hypothesis Ht : h_tables h !! t = Some tb.
Hypothesis Hattrs : t_attrs tb = Some (Some p, name_col).
Hypothesis Hd : h_dtypes h !! t_dtype tb = Some names.
Hypothesis Had : h_anndata h !! p = Some ad.
Hypothesis HX : ad_X ad = Some X.
Hypothesis Ha : h_arrays h !! X = Some a.
Hypothesis Hshape : a_shape a = n :: shape.

(** The owner has no rows: it is false, the guard fails, and numpy's
    assignment finds no field of that name. *)
Lemma setitem_empty_owner key value :
  n = 0 -> key ∉ names ->
  BoundRecArr_setitem t key value h = (inl (ValueError_no_field key), h).
Proof using Ht Hattrs Hd Had HX Ha Hshape.
  intros -> Hk. unfold BoundRecArr_setitem, get_table, get_dtype.
  rewrite (bind_inr _ _ _ _ _ (deref_Some h_tables _ _ _ Ht)).
  rewrite Hattrs. cbn [of_option].
  rewrite (bind_inr _ _ _ _ _ (ret_run _ _)). cbn [fst snd truth].
  rewrite bind_assoc.
  rewrite (bind_inr _ _ _ _ _ (AnnData_len_run _ _ _ _ _ _ _ Had HX Ha Hshape)).
  rewrite (bind_inr _ _ _ _ _ (ret_run _ _)).
  rewrite (bind_inr _ _ _ _ _ (deref_Some h_dtypes _ _ _ Hd)).
  cbn [Nat.eqb negb andb].
  unfold ndarray_setfield, get_table, get_dtype.
  rewrite (bind_inr _ _ _ _ _ (deref_Some h_tables _ _ _ Ht)).
  rewrite (bind_inr _ _ _ _ _ (deref_Some h_dtypes _ _ _ Hd)).
  now rewrite index_of_None.
Qed.

(** The owner has rows and the new column is too long: the module's own
    error, before anything is built. *)
Lemma setitem_too_long key value :
  n ≠ 0 -> key ∉ names -> t_len tb < length value ->
  BoundRecArr_setitem t key value h
  = (inl (ValueError_too_many_entries (length value) (t_len tb)), h).
Proof using Ht Hattrs Hd Had HX Ha Hshape.
  intros Hn Hk Hlen. unfold BoundRecArr_setitem, get_table, get_dtype.
  rewrite (bind_inr _ _ _ _ _ (deref_Some h_tables _ _ _ Ht)).
  rewrite Hattrs. cbn [of_option].
  rewrite (bind_inr _ _ _ _ _ (ret_run _ _)). cbn [fst snd truth].
  rewrite bind_assoc.
  rewrite (bind_inr _ _ _ _ _ (AnnData_len_run _ _ _ _ _ _ _ Had HX Ha Hshape)).
  rewrite (bind_inr _ _ _ _ _ (ret_run _ _)).
  rewrite (bind_inr _ _ _ _ _ (deref_Some h_dtypes _ _ _ Hd)).
  destruct n as [|n']; [congruence|]. cbn [Nat.eqb negb andb].
  rewrite bool_decide_eq_false_2 by assumption. cbn [negb].
  apply Nat.ltb_lt in Hlen. now rewrite Hlen.
Qed.

(** The owner has rows and the new column has one entry per row: the slot
    of the owner named by the identity column receives a rebuilt table with
    the old columns and the new one. *)
Lemma setitem_appends key value :
  n ≠ 0 -> key ∉ names -> length value = t_len tb ->
  regular names (t_cols tb) (t_len tb) ->
  let h1 := add_table (names ++ [key])
              {| t_dtype := length (h_dtypes h); t_len := t_len tb;
                 t_cols := t_cols tb ++ [value]; t_attrs := None |} h in
  BoundRecArr_setitem t key value h
  = (inr tt,
     with_anndata (fun s => <[p := set_slot name_col (S (length (h_tables h))) ad]> s)
       (add_table (names ++ [key])
          (new_table h1 (t_cols tb ++ [value]) (t_len tb) (Some p) name_col) h1)).
Proof using Ht Hattrs Hd Had HX Ha Hshape.
  intros Hn Hk Hlen (Hnd & Hne & Hl & Hf) h1.
  unfold BoundRecArr_setitem, get_table, get_dtype.
  rewrite (bind_inr _ _ _ _ _ (deref_Some h_tables _ _ _ Ht)).
  rewrite Hattrs. cbn [of_option].
  rewrite (bind_inr _ _ _ _ _ (ret_run _ _)). cbn [fst snd truth].
  rewrite bind_assoc.
  rewrite (bind_inr _ _ _ _ _ (AnnData_len_run _ _ _ _ _ _ _ Had HX Ha Hshape)).
  rewrite (bind_inr _ _ _ _ _ (ret_run _ _)).
  rewrite (bind_inr _ _ _ _ _ (deref_Some h_dtypes _ _ _ Hd)).
  destruct n as [|n'] eqn:En; [congruence|]. cbn [Nat.eqb negb andb].
  rewrite bool_decide_eq_false_2 by assumption. cbn [negb].
  replace (t_len tb <? length value) with false
    by (symmetry; apply Nat.ltb_ge; lia).
  assert (Happ : append_fields t key value h = (inr (length (h_tables h)), h1)).
  { unfold append_fields, get_table, get_dtype.
    rewrite (bind_inr _ _ _ _ _ (deref_Some h_tables _ _ _ Ht)).
    rewrite (bind_inr _ _ _ _ _ (deref_Some h_dtypes _ _ _ Hd)).
    rewrite bool_decide_eq_false_2 by assumption.
    rewrite Hlen, Nat.max_id. rewrite map_pad_full by assumption.
    rewrite pad_full by assumption.
    unfold alloc_dtype, alloc_table, bind. reflexivity. }
  rewrite (bind_inr _ _ _ _ _ Happ).
  erewrite bind_inr.
  2:{ apply BoundRecArr_new_run with (names := names ++ [key])
        (cols := t_cols tb ++ [value]) (n := t_len tb).
      - unfold h1, add_table. simpl. hsimpl. rewrite lookup_snoc. simpl.
        rewrite lookup_snoc. reflexivity.
      - repeat split.
        + apply NoDup_app. repeat split; [assumption| |apply NoDup_singleton].
          intros x Hx Hx'. apply list_elem_of_singleton in Hx'. now subst.
        + now destruct names.
        + rewrite !length_app. simpl. lia.
        + apply Forall_app. split; [assumption|]. now constructor.
      - simpl. exists ad, X, a, (S n'), shape. unfold h1, add_table. hsimpl. auto. }
  unfold setattr, update_anndata, get_anndata, set_anndata.
  assert (Hl1 : length (h_tables h1) = S (length (h_tables h))).
  { unfold h1, add_table. hsimpl. rewrite length_app. simpl. lia. }
  unfold bind, deref, add_table. hsimpl. unfold h1, add_table. hsimpl.
  rewrite Had. unfold set_slot, slot.
  destruct (bool_decide (name_col = SMP_NAMES)); cbv beta iota;
    rewrite length_app, Nat.add_1_r; reflexivity.
Qed.

End Append.

(** ** The storage type *)

(** No class is classified [Masked]: a masked array is an [ndarray], and
    [Array] comes first. *)
Lemma classify_never_Masked c : classify c ≠ Some Masked.
Proof. destruct c; vm_compute; discriminate. Qed.

Lemma classify_MaskedArray : classify C_MaskedArray = Some Array.
Proof. reflexivity. Qed.

(** C2. [AnnData(x).storage_type] for the four inputs of the claim: the
    dense array is recorded as [Array] and the sparse matrix as [Sparse],
    the list is refused with the three class names, and the masked array
    is recorded as [Array], not [Masked]. *)
Theorem storage_type_of_masked_array :
  result (storage_type_of dense_2x2) empty_heap = inr (Some Array) ∧
  result (storage_type_of masked_2x2) empty_heap = inr (Some Array) ∧
  result (storage_type_of sparse_eye_2) empty_heap = inr (Some Sparse) ∧
  result (storage_type_of plain_list) empty_heap
  = inl (ValueError_data_type C_list "ndarray, MaskedArray, spmatrix").
Proof. repeat split; vm_compute; reflexivity. Qed.

(** ** Appending through a table whose owner has no rows *)

(** C4. [mat = AnnData(np.zeros((0, 2)))]: [mat.var] has two rows and is
    bound to [mat].  [mat.var['new'] = [1, 2, 3]] leaves the heap as it
    was, but the error is numpy's for an unknown field, not the module's
    for a column that is too long; with a two-row owner it is the
    module's. *)
Theorem too_long_column_on_rowless_owner :
  h_tables (heap_of dense_0x2) !! 1
  = Some {| t_dtype := 1; t_len := 2; t_cols := [ints [0; 1]%Z];
            t_attrs := Some (Some 0, VAR_NAMES) |} ∧
  BoundRecArr_setitem 1 "new" (ints [1; 2; 3]%Z) (heap_of dense_0x2)
  = (inl (ValueError_no_field "new"), heap_of dense_0x2) ∧
  BoundRecArr_setitem 1 "new" (ints [1; 2; 3]%Z) (heap_of dense_2x2)
  = (inl (ValueError_too_many_entries 3 2), heap_of dense_2x2).
Proof. repeat split; vm_compute; reflexivity. Qed.

(** C5. [mat = AnnData(np.zeros((0, 2)))]; [mat.var['new'] = [1, 2]], two
    values for a table of two rows and a name not yet present, raises and
    leaves the heap as it was.  With a two-row owner the same assignment
    succeeds and [mat.var.columns] is [['new']]. *)
Theorem append_on_rowless_owner :
  result (let* v := var_of 0 in table_content v) (heap_of dense_0x2)
  = inr ([VAR_NAMES], [ints [0; 1]%Z]) ∧
  BoundRecArr_setitem 1 "new" (ints [1; 2]%Z) (heap_of dense_0x2)
  = (inl (ValueError_no_field "new"), heap_of dense_0x2) ∧
  result (BoundRecArr_setitem 1 "new" (ints [1; 2]%Z) ;;;
          let* v := var_of 0 in columns v) (heap_of dense_2x2)
  = inr ["new"].
Proof. repeat split; vm_compute; reflexivity. Qed.

(** C10. [mat = AnnData(np.array([[1, 2], [3, 4]]))]; [s = mat[0:0, :]] is
    a new instance whose column table is bound to [s], yet
    [s.var['new'] = [1, 2]] raises instead of writing a table onto [s].
    For [s = mat[0, :]] the assignment does write onto [s] and leaves the
    columns of [mat.var] alone. *)
Theorem append_on_rowless_slice :
  result (owner_of_slice_var dia_backend no_rows) (heap_of dense_2x2)
  = inr (1, Some (Some 1, VAR_NAMES)) ∧
  result (append_to_slice dia_backend no_rows "new" (ints [1; 2]%Z)) (heap_of dense_2x2)
  = inl (ValueError_no_field "new") ∧
  result (append_to_slice dia_backend (I_int 0) "new" (ints [1; 2]%Z)) (heap_of dense_2x2)
  = inr (["new"], []).
Proof. repeat split; vm_compute; reflexivity. Qed.

(** ** Transpose and the tables of the source *)

(** C7. [mat = AnnData(np.array([[1, 2], [3, 4]]))]; before [mat.T] the
    tables of [mat] have the fields [smp_names] and [var_names]; after it
    they have [var_names] and [smp_names]: the identity columns of the
    source are renamed, [mat.var_names] and [mat.smp_names] raise, and
    [mat.var.columns] lists [smp_names]. *)
Theorem transpose_renames_fields_of_source :
  let h := heap_of dense_2x2 in
  let h' := heap_after (transpose 0) h in
  result (table_content 0) h = inr ([SMP_NAMES], [ints [0; 1]%Z]) ∧
  result (table_content 1) h = inr ([VAR_NAMES], [ints [0; 1]%Z]) ∧
  result (var_names 0) h = inr (ints [0; 1]%Z) ∧
  result (columns 1) h = inr [] ∧
  result (transpose 0) h = inr 1 ∧
  result (smp_of 0) h' = inr 0 ∧ result (var_of 0) h' = inr 1 ∧
  result (table_content 0) h' = inr ([VAR_NAMES], [ints [0; 1]%Z]) ∧
  result (table_content 1) h' = inr ([SMP_NAMES], [ints [0; 1]%Z]) ∧
  result (var_names 0) h' = inl (ValueError_no_field VAR_NAMES) ∧
  result (smp_names 0) h' = inl (ValueError_no_field SMP_NAMES) ∧
  result (columns 1) h' = inr [SMP_NAMES].
Proof. cbv zeta. repeat split; vm_compute; reflexivity. Qed.

(** ** Deletion *)

(** numpy does not delete array elements: on an instance whose storage is
    a numpy array, [del mat[smp, var]] raises before anything changes. *)
Lemma delitem_numpy sp self smp var h ad X a :
  h_anndata h !! self = Some ad -> ad_X ad = Some X ->
  h_arrays h !! X = Some a -> isinstance (a_class a) C_ndarray = true ->
  AnnData_delitem sp self smp var h = (inl ValueError_cannot_delete, h).
Proof.
  intros Had HX Ha Hc. unfold AnnData_delitem, storage_delitem, get_anndata, get_array.
  rewrite (bind_inr _ _ _ _ _ (deref_Some h_anndata _ _ _ Had)).
  rewrite HX. cbn [of_option]. rewrite (bind_inr _ _ _ _ _ (ret_run _ _)).
  rewrite bind_assoc.
  rewrite (bind_inr _ _ _ _ _ (deref_Some h_arrays _ _ _ Ha)).
  rewrite Hc. reflexivity.
Qed.

(** Whatever the backend, [del t.iloc[...]] on a table raises, so a
    deletion that returns had neither selector equal to [:], and no
    deletion changes a table. *)
Lemma recarray_del_iloc_raises t h : ∃ e, recarray_del_iloc t h = (inl e, h).
Proof.
  unfold recarray_del_iloc, get_table, get_dtype, bind, deref.
  destruct (h_tables h !! t) as [tb|]; [|eauto]. cbv beta iota.
  destruct (h_dtypes h !! t_dtype tb) as [names|]; [|eauto]. cbv beta iota.
  destruct (bool_decide _); eauto.
Qed.

Lemma delitem_returns sp self smp var h u h' :
  AnnData_delitem sp self smp var h = (inr u, h') ->
  fst (_unpack_index smp var) ≠ slice_None ∧
  snd (_unpack_index smp var) ≠ slice_None.
Proof.
  unfold AnnData_delitem. intros H.
  run_bind H as ad h0 E. clear E. run_bind H as X h1 E. clear E.
  run_bind H as u1 h2 E. clear E.
  run_bind H as u2 h3 E.
  split; intros Heq.
  - rewrite bool_decide_eq_true_2 in H by assumption.
    run_bind H as t h4 E1.
    destruct (recarray_del_iloc_raises t h4) as [e He]. congruence.
  - rewrite bool_decide_eq_true_2 in E by assumption.
    run_bind E as t h4 E1.
    destruct (recarray_del_iloc_raises t h4) as [e He]. congruence.
Qed.

(** C8. [mat = AnnData(np.array([[1, 2], [3, 4]]))]; [del mat[0, :]]
    raises numpy's error for deleting array elements and leaves the heap,
    storage and row table included, as it was. *)
Theorem delitem_raises :
  AnnData_delitem dia_backend 0 (I_int 0) all (heap_of dense_2x2)
  = (inl ValueError_cannot_delete, heap_of dense_2x2) ∧
  result (storage_values 0) (heap_of dense_2x2) = inr ([2; 2], ints [1; 2; 3; 4]%Z) ∧
  result (table_content 0) (heap_of dense_2x2) = inr ([SMP_NAMES], [ints [0; 1]%Z]).
Proof. repeat split; vm_compute; reflexivity. Qed.

(** ** Running the constructor forward *)

Lemma source_fields_ext h h' src nr_row name_col x T D :
  h_tables h' = h_tables h ++ T -> h_dtypes h' = h_dtypes h ++ D ->
  source_fields h src nr_row name_col = Some x ->
  source_fields h' src nr_row name_col = Some x.
Proof.
  intros Ht Hd. destruct src as [|t|d|c]; simpl; try easy.
  rewrite Ht, Hd.
  destruct (h_tables h !! t) as [tb|] eqn:Et; [|discriminate]. simpl.
  destruct (h_dtypes h !! t_dtype tb) as [ns|] eqn:Ed; [|discriminate]. simpl.
  rewrite (lookup_app_l_Some _ _ _ _ Et). simpl.
  now rewrite (lookup_app_l_Some _ _ _ _ Ed).
Qed.

Lemma update_anndata_run self f h ad :
  h_anndata h !! self = Some ad ->
  update_anndata self f h = (inr tt, with_anndata (fun s => <[self := f ad]> s) h).
Proof.
  intros Had. unfold update_anndata, get_anndata, set_anndata, bind, deref.
  now rewrite Had.
Qed.

Lemma or_empty_dict_fwd vis h extra l :
  vis_or_empty h vis extra l ->
  or_empty_dict vis h = (inr l, with_dicts (fun s => s ++ extra) h).
Proof.
  unfold or_empty_dict, get_dict, alloc_dict, bind, deref.
  intros [(-> & -> & d & Hd & Hne)|(-> & -> & [->|(v & -> & Hv)])].
  - rewrite Hd. cbv beta iota. rewrite bool_decide_eq_false_2 by assumption.
    unfold ret. now rewrite with_dicts_nil.
  - reflexivity.
  - rewrite Hv. cbv beta iota. now rewrite bool_decide_eq_true_2.
Qed.

Lemma AnnData_init_run self X smp var vis meta h ad0 a0 s_type r c ns cs nv cv extra l :
  h_anndata h !! self = Some ad0 ->
  h_arrays h !! X = Some a0 -> classify (a_class a0) = Some s_type ->
  a_shape (reshaped a0) = [r; c] ->
  source_fields h smp r SMP_NAMES = Some (ns, cs) -> regular ns cs r ->
  source_fields h var c VAR_NAMES = Some (nv, cv) -> regular nv cv c ->
  vis_or_empty h vis extra l ->
  AnnData_init self X smp var vis meta h
  = (inr tt,
     initialised self X s_type a0
       ns (new_table h cs r (Some self) SMP_NAMES)
       nv (new_table (with_dtypes (fun s => s ++ [ns]) h) cv c (Some self) VAR_NAMES)
       extra l meta h).
Proof.
  intros Had Ha Hcl Hsh Hs Hrs Hv Hrv Hvis.
  assert (HX : X < length (h_arrays h)) by (eapply lookup_lt_Some; eauto).
  assert (Hself : self < length (h_anndata h)) by (eapply lookup_lt_Some; eauto).
  unfold AnnData_init, get_array.
  rewrite (bind_inr _ _ _ _ _ (deref_Some h_arrays _ _ _ Ha)).
  fold (classify (a_class a0)). rewrite Hcl.
  erewrite bind_inr; [|apply update_anndata_run; exact Had].
  set (h1 := with_arrays (fun s => <[X := reshaped a0]> s)
               (with_anndata (fun s => <[self := set_storage_type s_type ad0]> s) h)).
  erewrite (bind_inr _ _ _ _ h1).
  2:{ unfold h1, reshaped. destruct (length (a_shape a0) =? 1); [reflexivity|].
      unfold ret. f_equal. symmetry. now apply with_arrays_insert_id. }
  assert (Ha1 : h_arrays h1 !! X = Some (reshaped a0))
    by (unfold h1; hsimpl; now apply list_lookup_insert_eq).
  rewrite (bind_inr _ _ _ _ _ (deref_Some h_arrays _ _ _ Ha1)).
  rewrite Hsh. cbn [length Nat.eqb negb andb].
  rewrite Bool.andb_false_r.
  erewrite bind_inr.
  2:{ apply update_anndata_run. unfold h1. hsimpl.
      now apply list_lookup_insert_eq. }
  set (h2 := with_anndata _ h1).
  assert (Htr : ∀ h3, h_arrays h3 = h_arrays h1 ->
            (∃ ad, h_anndata h3 !! self = Some ad ∧ ad_X ad = Some X) ->
            truth_defined (Some self) h3).
  { intros h3 E1 (ad & E2 & E3). simpl. exists ad, X, (reshaped a0), r, [c].
    rewrite E1. auto. }
  erewrite bind_inr.
  2:{ eapply BoundRecArr_new_run with (names := ns) (cols := cs) (n := r).
      - eapply (source_fields_ext h _ _ _ _ _ [] []); [| |exact Hs];
          unfold h2, h1; hsimpl; now rewrite app_nil_r.
      - assumption.
      - apply Htr; [reflexivity|]. unfold h2, h1. hsimpl.
        rewrite list_lookup_insert_eq by (now rewrite length_insert). eauto. }
  set (h3 := add_table ns _ h2).
  erewrite bind_inr.
  2:{ apply update_anndata_run. unfold h3, add_table, h2, h1. hsimpl.
      apply list_lookup_insert_eq. now rewrite length_insert. }
  set (h4 := with_anndata _ h3).
  erewrite bind_inr.
  2:{ eapply BoundRecArr_new_run with (names := nv) (cols := cv) (n := c).
      - eapply (source_fields_ext h _ _ _ _ _ [_] [_]); [| |exact Hv];
          unfold h4, h3, add_table, h2, h1; hsimpl; reflexivity.
      - assumption.
      - apply Htr; [reflexivity|]. unfold h4, h3, add_table, h2, h1. hsimpl.
        rewrite list_lookup_insert_eq by (now rewrite !length_insert). eauto. }
  set (h5 := add_table nv _ h4).
  erewrite bind_inr.
  2:{ apply update_anndata_run. unfold h5, add_table, h4, h3, add_table, h2, h1.
      hsimpl. apply list_lookup_insert_eq. now rewrite !length_insert. }
  set (h6 := with_anndata _ h5).
  unfold get_anndata.
  erewrite bind_inr.
  2:{ apply deref_Some. unfold h6, h5, add_table, h4, h3, add_table, h2, h1.
      hsimpl. apply list_lookup_insert_eq. now rewrite !length_insert. }
  cbn [set_var set_smp set_X set_storage_type ad_smp ad_var of_option].
  rewrite (bind_inr _ _ _ _ _ (ret_run _ _)).
  rewrite (bind_inr _ _ _ _ _ (ret_run _ _)).
  assert (Hck : _check_dimensions X (length (h_tables h2)) (length (h_tables h4)) h6
                = (inr tt, h6)).
  { unfold _check_dimensions, get_array, get_table, bind, deref.
    replace (h_arrays h6 !! X) with (Some (reshaped a0)).
    cbv beta iota. rewrite Hsh.
    replace (h_tables h6 !! length (h_tables h2))
      with (Some (new_table h2 cs r (Some self) SMP_NAMES)).
    2:{ unfold h6, h5, add_table, h4, h3, add_table. hsimpl.
        rewrite lookup_app_l by (rewrite length_app; simpl; lia).
        now rewrite lookup_snoc. }
    cbv beta iota. cbn [new_table t_len]. rewrite Nat.eqb_refl. cbn [negb].
    replace (h_tables h6 !! length (h_tables h4))
      with (Some (new_table h4 cv c (Some self) VAR_NAMES)).
    2:{ unfold h6, h5, add_table. hsimpl. now rewrite lookup_snoc. }
    cbv beta iota. cbn [new_table t_len]. rewrite Nat.eqb_refl. reflexivity. }
  rewrite (bind_inr _ _ _ _ _ Hck).
  erewrite bind_inr.
  2:{ apply or_empty_dict_fwd with (extra := extra).
      unfold vis_or_empty in *. unfold h6, h5, add_table, h4, h3, add_table, h2, h1.
      hsimpl. exact Hvis. }
  erewrite bind_inr.
  2:{ apply update_anndata_run. unfold h6, h5, add_table, h4, h3, add_table, h2, h1.
      hsimpl. apply list_lookup_insert_eq. now rewrite !length_insert. }
  erewrite update_anndata_run.
  2:{ unfold h6, h5, add_table, h4, h3, add_table, h2, h1.
      hsimpl. apply list_lookup_insert_eq. now rewrite !length_insert. }
  f_equal. unfold initialised, h6, h5, add_table, h4, h3, add_table, h2, h1.
  apply heap_eq; hsimpl; try reflexivity.
  rewrite !list_insert_insert_eq. do 2 f_equal.
  unfold set_meta, set_vis, set_var, set_smp, set_X, set_storage_type.
  cbn [ad_storage_type ad_X ad_smp ad_var ad_vis ad_meta].
  rewrite length_app, Nat.add_1_r. reflexivity.
Qed.

Lemma AnnData_run X smp var vis meta h a0 s_type r c ns cs nv cv extra l :
  no_parameter_key meta ->
  h_arrays h !! X = Some a0 -> classify (a_class a0) = Some s_type ->
  a_shape (reshaped a0) = [r; c] ->
  source_fields h smp r SMP_NAMES = Some (ns, cs) -> regular ns cs r ->
  source_fields h var c VAR_NAMES = Some (nv, cv) -> regular nv cv c ->
  vis_or_empty (at_call meta h) vis extra l ->
  AnnData X smp var vis meta h
  = (inr (length (h_anndata h)),
     initialised (length (h_anndata h)) X s_type a0
       ns (new_table h cs r (Some (length (h_anndata h))) SMP_NAMES)
       nv (new_table (with_dtypes (fun s => s ++ [ns]) h) cv c
                     (Some (length (h_anndata h))) VAR_NAMES)
       extra l (length (h_dicts h)) (at_call meta h)).
Proof.
  intros Hm Ha Hcl Hsh Hs Hrs Hv Hrv Hvis.
  apply AnnData_run_init; [assumption|].
  erewrite AnnData_init_run; try eassumption.
  - reflexivity.
  - unfold at_call. hsimpl. apply lookup_snoc.
Qed.

(** ** C9: a one-dimensional array is reshaped in place *)

Lemma regular_arange name n : regular [name] [arange n] n.
Proof.
  repeat split.
  - apply NoDup_singleton.
  - discriminate.
  - constructor; [|constructor]. unfold arange. now rewrite length_map, length_seq.
Qed.

(** C9. When the constructor is given a one-dimensional array [X] of
    length [L] and returns, the object [X] itself has shape [(L, 1)] and
    its old cells, the new instance stores that very object, and no array
    and no cell was made.  With no metadata and a class that is accepted
    the constructor does return. *)
Theorem rank1_storage_reshaped_in_place h X a L :
  h_arrays h !! X = Some a -> a_shape a = [L] ->
  (∀ smp var vis meta self h',
     AnnData X smp var vis meta h = (inr self, h') ->
     h_arrays h' = <[X := {| a_class := a_class a; a_shape := [L; 1];
                             a_structured := a_structured a;
                             a_cells := a_cells a |}]> (h_arrays h) ∧
     h_mem h' = h_mem h ∧
     ∃ ad, h_anndata h' !! self = Some ad ∧ ad_X ad = Some X) ∧
  (classify (a_class a) ≠ None ->
   ∃ self h', AnnData X Src_None Src_None None ∅ h = (inr self, h')).
Proof.
  intros Ha Hs.
  assert (Hr : reshaped a = {| a_class := a_class a; a_shape := [L; 1];
                               a_structured := a_structured a;
                               a_cells := a_cells a |})
    by (unfold reshaped; rewrite Hs; reflexivity).
  split.
  - intros smp var vis meta self h' H.
    apply AnnData_inv in H as (-> & _ & u & H).
    apply AnnData_init_inv in H
      as (ad0 & a0 & s_type & ns & ts & nv & tv & extra & l & Had0 & Ha0 & _ & _
          & _ & _ & _ & _ & _ & _ & _ & ->).
    unfold at_call in Ha0. hsimpl. rewrite Ha in Ha0. injection Ha0 as <-.
    unfold initialised, add_table, at_call. hsimpl. rewrite Hr.
    repeat split.
    eexists. split.
    + apply list_lookup_insert_eq. rewrite length_app. simpl. lia.
    + reflexivity.
  - intros Hc. destruct (classify (a_class a)) as [s_type|] eqn:Ecl; [|congruence].
    eexists _, _.
    eapply AnnData_run with (extra := [∅]); try eassumption.
    + reflexivity.
    + rewrite Hr. reflexivity.
    + reflexivity.
    + apply regular_arange.
    + reflexivity.
    + apply regular_arange.
    + right. repeat split. now left.
Qed.

(** ** C3: what a slice shares with its parent *)

Lemma read_cells_run cells h :
  read_cells cells h = (inr (map (fun c => nth c (h_mem h) junk) cells), h).
Proof. reflexivity. Qed.

Lemma storage_getitem_inv sp X smp var h data h1 :
  storage_getitem sp X smp var h = (inr data, h1) ->
  ∃ a a' vs,
    h_arrays h !! X = Some a ∧ data = length (h_arrays h) ∧
    h1 = with_arrays (fun s => s ++ [a']) (with_mem (fun m => m ++ vs) h) ∧
    (isinstance (a_class a) C_ndarray = true -> view_or_copy h a smp var a').
Proof.
  unfold storage_getitem, get_array. intros H.
  run_bind H as a h0 E. run_inv E.
  destruct (isinstance (a_class a) C_ndarray) eqn:Hc.
  - unfold ndarray_getitem, get_array in H.
    run_bind H as a1 h0 E. run_inv E. rewrite H0 in H1. injection H1 as <-.
    run_bind H as sc h0 E. run_inv E.
    unfold view_or_copy.
    destruct (is_slice smp && is_slice var).
    + unfold alloc_array in H. injection H as <- <-.
      eexists a, _, []. split; [exact H0|]. split; [reflexivity|]. split.
      * apply heap_eq; hsimpl; try reflexivity. now rewrite app_nil_r.
      * intros _. cbn [a_shape a_cells]. now destruct sc.
    + run_bind H as vs h0 E. unfold read_cells in E. injection E as <- <-.
      run_bind H as cells h0 E. unfold alloc_cells in E. injection E as <- <-.
      unfold alloc_array in H. injection H as <- <-. hsimpl.
      eexists a, _, _. split; [exact H0|]. split; [reflexivity|].
      split; [reflexivity|].
      intros _. cbn [a_cells]. apply Forall_forall. intros c Hc'.
      apply list_elem_of_In, in_seq in Hc'. lia.
  - destruct (isinstance (a_class a) C_spmatrix); [|run_inv H].
    run_bind H as vs h0 E. unfold read_cells in E. injection E as <- <-.
    run_bind H as r h0 E. run_inv E.
    run_bind H as cells h0 E. unfold alloc_cells in E. injection E as <- <-.
    unfold alloc_array in H. injection H as <- <-. hsimpl.
    eexists a, _, _. split; [exact H0|]. split; [reflexivity|].
    split; [reflexivity|intros Hf; congruence].
Qed.

Lemma recarray_getitem_inv t s h t' h1 :
  recarray_getitem t s h = (inr t', h1) ->
  ∃ tb, t' = length (h_tables h) ∧ h1 = with_tables (fun s => s ++ [tb]) h.
Proof.
  unfold recarray_getitem, get_table, alloc_table. intros H.
  run_bind H as tb h0 E. run_inv E. run_bind H as rows h0 E. run_inv E.
  injection H as <- <-. eauto.
Qed.

(** A write to the storage of an instance changes cells and that array:
    no table, dtype, mapping or instance. *)
Lemma AnnData_setitem_frame sp self smp var v h r h' :
  AnnData_setitem sp self smp var v h = (r, h') ->
  h_tables h' = h_tables h ∧ h_dtypes h' = h_dtypes h ∧
  h_dicts h' = h_dicts h ∧ h_anndata h' = h_anndata h.
Proof.
  unfold AnnData_setitem, storage_setitem, ndarray_setitem, get_anndata, get_array,
    bind, deref, of_option, lift, ret, raise, read_cells, alloc_cells, set_array,
    write_cells.
  destruct (h_anndata h !! self) as [ad|]; [|now intros [= _ <-]].
  destruct (ad_X ad) as [X|]; [|now intros [= _ <-]].
  destruct (h_arrays h !! X) as [a|]; [|now intros [= _ <-]].
  destruct (isinstance (a_class a) C_ndarray).
  - destruct (h_arrays h !! X); [|now intros [= _ <-]].
    destruct (select2 _ _ _); [now intros [= _ <-]|].
    destruct (broadcast_offsets _ _); now intros [= _ <-].
  - destruct (isinstance (a_class a) C_spmatrix); [|now intros [= _ <-]].
    destruct (sp_setitem _ _ _ _ _ _ _); now intros [= _ <-].
Qed.

Lemma reshaped_not_rank1 a d : a_shape a !! 1 = Some d -> reshaped a = a.
Proof.
  unfold reshaped. destruct (a_shape a) as [|x [|y l]]; try discriminate.
  reflexivity.
Qed.

Lemma AnnData_getitem_inv sp self smp var h s h' :
  AnnData_getitem sp self smp var h = (inr s, h') ->
  ∃ ad X a a' vs tb1 tb2 vis m dm h3,
    h_anndata h !! self = Some ad ∧ ad_X ad = Some X ∧
    h_arrays h !! X = Some a ∧ ad_vis ad = Some vis ∧ ad_meta ad = Some m ∧
    h_dicts h !! m = Some dm ∧ reshaped a' = a' ∧
    (isinstance (a_class a) C_ndarray = true ->
     view_or_copy h a (fst (_unpack_index smp var)) (snd (_unpack_index smp var)) a') ∧
    h3 = with_tables (fun s => (s ++ [tb1]) ++ [tb2])
           (with_arrays (fun s => s ++ [a']) (with_mem (fun m => m ++ vs) h)) ∧
    AnnData (length (h_arrays h)) (Src_recarray (length (h_tables h)))
            (Src_recarray (S (length (h_tables h)))) (Some vis) dm h3
    = (inr s, h').
Proof.
  unfold AnnData_getitem. intros H.
  run_bind H as ad h0 E. unfold get_anndata in E. run_inv E.
  run_bind H as X h0 E. run_inv E.
  run_bind H as data h1 E.
  apply storage_getitem_inv in E as (a & a' & vs & Ha & -> & -> & Hview).
  run_bind H as st h2 E. run_inv E.
  run_bind H as smp_meta h2 E. apply recarray_getitem_inv in E as (tb1 & -> & ->).
  run_bind H as vt h2 E. run_inv E.
  run_bind H as var_meta h2 E. apply recarray_getitem_inv in E as (tb2 & -> & ->).
  run_bind H as a1 h2 E. unfold get_array in E. run_inv E.
  hsimpl. rewrite lookup_snoc in H4. injection H4 as <-.
  run_bind H as ts h2 E. unfold get_table in E. run_inv E.
  run_bind H as d0 h2 E. unfold shape_at in E. run_inv E.
  destruct (negb (t_len ts =? d0)); [run_inv H|].
  run_bind H as tv h2 E. unfold get_table in E. run_inv E.
  run_bind H as d1 h2 E. unfold shape_at in E. run_inv E.
  destruct (negb (t_len tv =? d1)); [run_inv H|].
  run_bind H as vis h2 E. run_inv E.
  run_bind H as m h2 E. run_inv E.
  run_bind H as dm h2 E. unfold get_dict in E. run_inv E. hsimpl.
  exists ad, X, a, a', vs, tb1, tb2, vis, m, dm.
  eexists. repeat (split; [eassumption || reflexivity || eauto using reshaped_not_rank1|]).
  rewrite length_app, Nat.add_1_r in H. exact H.
Qed.

(** C3, amended. Whenever [self[smp, var]] returns an instance [s]:
    nothing that existed before has changed and [s] is new; its row and
    column tables are new tables with new dtype objects, bound to [s], and
    no write to the storage of any instance changes a table; when the
    storage of [self] is a numpy array, the storage of [s] is a new array
    object that lists the selected cells of the parent if both selectors
    are slices (a view) and cells of its own if a selector is an integer
    list (a copy); [s.vis] is the [vis] object of [self] when that is not
    empty and a new empty mapping otherwise; [s._meta] is a new mapping
    with the entries of [self._meta]. *)
Theorem slice_views_storage_and_copies_tables sp h self ad vis dv smp var s h' :
  h_anndata h !! self = Some ad -> ad_vis ad = Some vis ->
  h_dicts h !! vis = Some dv ->
  AnnData_getitem sp self smp var h = (inr s, h') ->
  ∃ ad' X a a' m dm st vt l,
    (* the parent *)
    ad_X ad = Some X ∧ h_arrays h !! X = Some a ∧
    ad_meta ad = Some m ∧ h_dicts h !! m = Some dm ∧
    (* a new instance *)
    extends h h' ∧ s = length (h_anndata h) ∧ h_anndata h' !! s = Some ad' ∧
    (* its storage *)
    ad_X ad' = Some (length (h_arrays h)) ∧
    h_arrays h' !! length (h_arrays h) = Some a' ∧
    (isinstance (a_class a) C_ndarray = true ->
     view_or_copy h a (fst (_unpack_index smp var)) (snd (_unpack_index smp var)) a') ∧
    (* its tables *)
    ad_smp ad' = Some st ∧ new_bound_table h h' st s SMP_NAMES ∧
    ad_var ad' = Some vt ∧ new_bound_table h h' vt s VAR_NAMES ∧
    (∀ self' i j v r h2, AnnData_setitem sp self' i j v h' = (r, h2) ->
       h_tables h2 = h_tables h' ∧ h_dtypes h2 = h_dtypes h') ∧
    (* its vis and _meta *)
    ad_vis ad' = Some l ∧
    (if bool_decide (dv = ∅)
     then length (h_dicts h) ≤ l ∧ h_dicts h' !! l = Some ∅
     else l = vis) ∧
    ad_meta ad' = Some (length (h_dicts h)) ∧
    h_dicts h' !! length (h_dicts h) = Some dm.
Proof.
  intros Had Hvis Hdv H.
  apply AnnData_getitem_inv in H
    as (ad1 & X & a & a' & vs & tb1 & tb2 & vis1 & m & dm & h3 & Had1 & HX & Ha
        & Hvis1 & Hm & Hdm & Hre & Hview & -> & H).
  rewrite Had in Had1. injection Had1 as <-.
  rewrite Hvis in Hvis1. injection Hvis1 as <-.
  apply AnnData_inv in H as (-> & _ & u & H).
  apply AnnData_init_inv in H
    as (ad0 & a0 & s_type & ns & ts & nv & tv & extra & l & _ & Ha0 & _ & _
        & Hds & Hdtv & _ & _ & Hats & Hatv & Hl & ->).
  unfold at_call in *. hsimpl.
  rewrite lookup_snoc in Ha0. injection Ha0 as <-.
  assert (Hvlt : vis < length (h_dicts h)) by (eapply lookup_lt_Some; eauto).
  assert (Hcase : if bool_decide (dv = ∅)
                  then extra = [∅] ∧ l = S (length (h_dicts h))
                  else extra = [] ∧ l = vis).
  { unfold vis_or_empty in Hl. hsimpl.
    destruct Hl as [(-> & [= Heq] & d & Hd & Hne)|(-> & -> & [[=]|(v & [= Heq] & Hv)])];
      subst.
    - rewrite lookup_app_l in Hd by assumption.
      assert (d = dv) by congruence. subst d.
      now rewrite bool_decide_eq_false_2.
    - rewrite lookup_app_l in Hv by assumption.
      assert (dv = ∅) by congruence. subst dv.
      rewrite bool_decide_eq_true_2 by reflexivity.
      rewrite length_app. simpl. split; [reflexivity|lia]. }
  clear Hl.
  assert (Hs : length (h_anndata h) < length (h_anndata h ++ [fresh_instance]))
    by (rewrite length_app; simpl; lia).
  unfold initialised, add_table. hsimpl.
  eexists _, X, a, a', m, dm, _, _, l.
  split; [exact HX|]. split; [exact Ha|]. split; [exact Hm|]. split; [exact Hdm|].
  split.
  { unfold extends. hsimpl. rewrite Hre, insert_snoc, insert_snoc.
    repeat split; try (eexists; reflexivity).
    - eexists. rewrite <- !app_assoc. reflexivity.
    - eexists. rewrite <- !app_assoc. reflexivity.
    - eexists. rewrite <- !app_assoc. reflexivity. }
  split; [reflexivity|]. split; [now apply list_lookup_insert_eq|].
  cbn [ad_X ad_smp ad_var ad_vis ad_meta].
  split; [reflexivity|].
  split; [rewrite Hre; now rewrite insert_snoc, lookup_snoc|].
  split; [exact Hview|].
  split; [reflexivity|].
  split.
  { unfold new_bound_table. hsimpl. split; [rewrite !length_app; simpl; lia|].
    exists ts. split; [|split; [rewrite Hds; lia|exact Hats]].
    rewrite lookup_app_l by (rewrite !length_app; simpl; lia).
    apply lookup_snoc. }
  split; [reflexivity|].
  split.
  { unfold new_bound_table. hsimpl. split; [rewrite !length_app; simpl; lia|].
    exists tv. split; [|split; [rewrite Hdtv; lia|exact Hatv]].
    replace (S (length ((h_tables h ++ [tb1]) ++ [tb2])))
      with (length (((h_tables h ++ [tb1]) ++ [tb2]) ++ [ts]))
      by (rewrite !length_app; simpl; lia).
    apply lookup_snoc. }
  split.
  { intros self' i j v r h2 Hw. apply AnnData_setitem_frame in Hw as (E1 & E2 & _).
    now rewrite E1, E2. }
  split; [reflexivity|].
  split.
  { destruct (bool_decide (dv = ∅)); destruct Hcase as [-> ->]; [|reflexivity].
    split; [lia|].
    replace (S (length (h_dicts h))) with (length (h_dicts h ++ [dm]))
      by (rewrite length_app; simpl; lia).
    apply lookup_snoc. }
  split; [reflexivity|].
  rewrite lookup_app_l by (rewrite length_app; simpl; lia).
  apply lookup_snoc.
Qed.

(** ** Transposing twice *)

Lemma flat_map_rows_length {A} (f : nat -> nat -> A) r c : ∀ k,
  length (flat_map (fun i => map (f i) (seq 0 r)) (seq k c)) = c * r.
Proof.
  induction c as [|c IH]; intros k; simpl; [reflexivity|].
  rewrite length_app, length_map, length_seq, IH. reflexivity.
Qed.

Lemma flat_map_rows_nth {A} (f : nat -> nat -> A) d r c : ∀ k i j,
  i < c -> j < r ->
  nth (i * r + j) (flat_map (fun i => map (f i) (seq 0 r)) (seq k c)) d = f (k + i) j.
Proof.
  induction c as [|c IH]; intros k i j Hi Hj; [lia|]. simpl.
  destruct i as [|i].
  - simpl. rewrite app_nth1 by (now rewrite length_map, length_seq).
    rewrite (nth_indep _ d (f k 0)) by (now rewrite length_map, length_seq).
    rewrite map_nth, seq_nth by assumption. now rewrite Nat.add_0_r.
  - rewrite app_nth2 by (rewrite length_map, length_seq; simpl; lia).
    rewrite length_map, length_seq.
    replace (S i * r + j - r) with (i * r + j) by (simpl; lia).
    rewrite IH by lia. f_equal. lia.
Qed.

Lemma map_nth_seq {A} (l : list A) d : ∀ k n,
  k + n <= length l -> map (fun i => nth i l d) (seq k n) = firstn n (skipn k l).
Proof.
  intros k n. revert k. induction n as [|n IH]; intros k Hk; simpl; [reflexivity|].
  rewrite IH by lia.
  destruct (skipn k l) as [|x l'] eqn:E.
  - exfalso. assert (Hl := length_skipn k l). rewrite E in Hl. simpl in Hl. lia.
  - simpl. f_equal.
    + rewrite <- (firstn_skipn k l) at 1. rewrite app_nth2 by (rewrite length_firstn; lia).
      rewrite length_firstn, Nat.min_l by lia. rewrite Nat.sub_diag, E. reflexivity.
    + f_equal. replace (S k) with (1 + k) by reflexivity.
      rewrite <- skipn_skipn. rewrite E. reflexivity.
Qed.

(** A list of [r * c] elements is the concatenation of its [r] rows. *)
Lemma rows_concat {A} (d : A) c : ∀ r (l : list A),
  length l = r * c ->
  flat_map (fun j => map (fun i => nth (j * c + i) l d) (seq 0 c)) (seq 0 r) = l.
Proof.
  induction r as [|r IH]; intros l Hl.
  - destruct l; [reflexivity|discriminate].
  - cbn [seq flat_map]. rewrite <- seq_shift, flat_map_concat_map, map_map.
    rewrite <- flat_map_concat_map.
    transitivity (firstn c l ++ skipn c l); [|apply firstn_skipn]. f_equal.
    + simpl. rewrite (map_nth_seq l d 0 c) by (simpl in Hl; lia). reflexivity.
    + rewrite <- (IH (skipn c l)) by (rewrite length_skipn; simpl in Hl; lia).
      apply flat_map_ext. intros j. apply map_ext. intros i.
      rewrite <- (firstn_skipn c l) at 1.
      rewrite app_nth2 by (rewrite length_firstn; simpl; lia).
      rewrite length_firstn, Nat.min_l by (simpl in Hl; lia).
      f_equal. simpl. lia.
Qed.

Lemma map_of_flat_map {A B C} (f : B -> C) (g : A -> list B) l :
  map f (flat_map g l) = flat_map (fun x => map f (g x)) l.
Proof.
  induction l as [|x l IH]; simpl; [reflexivity|].
  now rewrite map_app, IH.
Qed.

Lemma flat_map_single {A B} (g : A -> B) l : flat_map (fun x => [g x]) l = map g l.
Proof. induction l as [|x l IH]; simpl; [reflexivity|]. now rewrite IH. Qed.

Lemma permute_rank2 {A} (d : A) r c l :
  permute d [r; c] l
  = flat_map (fun i => map (fun j => nth (j * c + i) l d) (seq 0 r)) (seq 0 c).
Proof.
  unfold permute. cbn [rev app c_strides product fold_right offsets map].
  rewrite map_of_flat_map. apply flat_map_ext. intros i.
  rewrite map_map, map_of_flat_map.
  cbn [map]. rewrite flat_map_single. apply map_ext. intros j.
  f_equal. lia.
Qed.

Lemma flat_map_ext_seq {A} (f g : nat -> list A) k n :
  (∀ i, k <= i < k + n -> f i = g i) ->
  flat_map f (seq k n) = flat_map g (seq k n).
Proof.
  revert k. induction n as [|n IH]; intros k H; simpl; [reflexivity|].
  rewrite H by lia. f_equal. apply IH. intros i Hi. apply H. lia.
Qed.

Lemma permute_length {A} (d : A) r c l : length (permute d [r; c] l) = c * r.
Proof. rewrite permute_rank2. apply (flat_map_rows_length _ r c 0). Qed.

Lemma permute_involutive {A} (d : A) r c l :
  length l = r * c -> permute d [c; r] (permute d [r; c] l) = l.
Proof.
  intros Hl. rewrite (permute_rank2 d c r).
  transitivity (flat_map (fun j => map (fun i => nth (j * c + i) l d) (seq 0 c)) (seq 0 r));
    [|now apply rows_concat].
  apply flat_map_ext_seq. intros j Hj. apply map_ext_in. intros i Hi.
  apply in_seq in Hi.
  rewrite permute_rank2. rewrite (flat_map_rows_nth _ d r c 0 i j) by lia.
  reflexivity.
Qed.

Lemma permute_map {A B} (g : A -> B) dA dB r c l :
  length l = r * c ->
  map g (permute dA [r; c] l) = permute dB [r; c] (map g l).
Proof.
  intros Hl. rewrite !permute_rank2.
  rewrite flat_map_concat_map, concat_map, map_map, <- flat_map_concat_map.
  apply flat_map_ext_seq. intros i Hi. rewrite map_map.
  apply map_ext_in. intros j Hj. apply in_seq in Hj.
  rewrite (nth_indep (map g l) dB (g dA)) by (rewrite length_map, Hl; nia).
  now rewrite map_nth.
Qed.

(** ** Transpose, forward *)

Lemma rename_length old new names : length (rename old new names) = length names.
Proof. apply length_map. Qed.

Lemma rename_undo old new names :
  new ∉ names -> rename new old (rename old new names) = names.
Proof.
  intros Hn. unfold rename. rewrite map_map.
  rewrite <- (map_id names) at 2. apply map_ext_in. intros n Hin.
  destruct (decide (n = old)) as [->|Hne].
  - rewrite (bool_decide_eq_true_2 (old = old)) by reflexivity.
    now rewrite bool_decide_eq_true_2.
  - rewrite (bool_decide_eq_false_2 (n = old)) by assumption.
    rewrite bool_decide_eq_false_2; [reflexivity|].
    intros ->. apply Hn. now apply list_elem_of_In.
Qed.

Lemma NoDup_rename old new names :
  NoDup names -> new ∉ names -> NoDup (rename old new names).
Proof.
  intros Hnd Hn. unfold rename. apply NoDup_fmap_2_strong; [|assumption].
  intros x y Hx Hy. repeat case_bool_decide; subst; congruence.
Qed.

Lemma not_in_rename old new names : old ≠ new -> old ∉ rename old new names.
Proof.
  intros Hne Hin. unfold rename in Hin. apply list_elem_of_fmap in Hin as (n & E & _).
  case_bool_decide; congruence.
Qed.

Lemma rename_nonempty old new names : names ≠ [] -> rename old new names ≠ [].
Proof. now destruct names. Qed.

Lemma np_rec_array_run t h tb :
  h_tables h !! t = Some tb ->
  np_rec_array t h
  = (inr (length (h_tables h)), with_tables (fun s => s ++ [copy_of tb]) h).
Proof.
  intros Ht. unfold np_rec_array, get_table, alloc_table, bind, deref.
  now rewrite Ht.
Qed.

Lemma set_names_run d new h old :
  h_dtypes h !! d = Some old -> length new = length old -> NoDup new ->
  set_names d new h = (inr tt, with_dtypes (fun s => <[d := new]> s) h).
Proof.
  intros Hd Hl Hnd. unfold set_names, get_dtype, set_dtype, bind, deref.
  rewrite Hd. cbv beta iota. rewrite Hl, Nat.eqb_refl. cbn [negb].
  now rewrite bool_decide_eq_true_2.
Qed.

Lemma storage_T_run X h a :
  h_arrays h !! X = Some a ->
  storage_T X h
  = (inr (length (h_arrays h)),
     with_arrays (fun s => s ++ [T_array h a]) (with_mem (fun m => m ++ T_mem h a) h)).
Proof.
  intros Ha. unfold storage_T, ndarray_T, get_array, T_array, T_mem.
  rewrite (bind_inr _ _ _ _ _ (deref_Some h_arrays _ _ _ Ha)).
  destruct (isinstance (a_class a) C_ndarray).
  - rewrite (bind_inr _ _ _ _ _ (deref_Some h_arrays _ _ _ Ha)).
    unfold alloc_array. f_equal. apply heap_eq; hsimpl; try reflexivity.
    now rewrite app_nil_r.
  - unfold read_cells, alloc_cells, alloc_array, bind. hsimpl.
    now rewrite length_map.
Qed.

Lemma classify_T_class c : classify c ≠ None ->
  classify (if isinstance c C_ndarray then c else sparse_T_class c) = classify c.
Proof.
  destruct c; try (vm_compute; congruence).
  intros _.
  replace (isinstance (C_sparse format) C_ndarray) with false
    by (vm_compute; reflexivity).
  unfold sparse_T_class. repeat case_bool_decide; vm_compute; reflexivity.
Qed.

Lemma read_fresh_cells (mem vs : list val) :
  map (fun k => nth k (mem ++ vs) junk) (seq (length mem) (length vs)) = vs.
Proof.
  rewrite (map_nth_seq (mem ++ vs) junk (length mem) (length vs))
    by (rewrite length_app; lia).
  rewrite skipn_app, Nat.sub_diag, skipn_all. simpl.
  apply firstn_all.
Qed.

(** The values of [X.T] are the values of [X], permuted. *)
Lemma T_array_values h a r c :
  a_shape a = [r; c] -> length (a_cells a) = r * c ->
  map (fun k => nth k (h_mem h ++ T_mem h a) junk) (a_cells (T_array h a))
  = permute junk [r; c] (map (fun k => nth k (h_mem h) junk) (a_cells a)).
Proof.
  intros Hs Hl. unfold T_array, T_mem, transposed. rewrite Hs.
  destruct (isinstance (a_class a) C_ndarray); cbn [a_cells].
  - rewrite app_nil_r. now apply permute_map.
  - rewrite <- (length_map (fun k => nth k (h_mem h) junk) (permute 0 [r; c] (a_cells a))).
    rewrite read_fresh_cells. now apply permute_map.
Qed.

Ltac run_reads :=
  unfold get_anndata, get_array, get_table, get_dtype, get_dict, bind, deref;
  repeat match goal with
  | H : ?l !! ?i = Some _ |- context [?l !! ?i] => rewrite H; cbv beta iota
  | H : ?f ?ad = Some _ |- context [of_option _ (?f ?ad)] =>
      rewrite H; cbv beta iota delta [of_option ret]
  end.

Lemma attr_run (f : anndata_obj -> option loc) e self h ad x :
  h_anndata h !! self = Some ad -> f ad = Some x ->
  (let* ad := get_anndata self in of_option e (f ad)) h = (inr x, h).
Proof. intros Had Hf. run_reads. reflexivity. Qed.

Lemma table_content_run t h tb names :
  h_tables h !! t = Some tb -> h_dtypes h !! t_dtype tb = Some names ->
  table_content t h = (inr (names, t_cols tb), h).
Proof. intros Ht Hd. unfold table_content. run_reads. reflexivity. Qed.

Lemma storage_values_run self h ad X a :
  h_anndata h !! self = Some ad -> ad_X ad = Some X -> h_arrays h !! X = Some a ->
  storage_values self h
  = (inr (a_shape a, map (fun k => nth k (h_mem h) junk) (a_cells a)), h).
Proof. intros Had HX Ha. unfold storage_values. run_reads. reflexivity. Qed.


Lemma vis_or_empty_choice h l dv :
  h_dicts h !! l = Some dv ->
  ∃ extra l', vis_or_empty h (Some l) extra l' ∧
              (h_dicts h ++ extra) !! l' = Some dv.
Proof.
  intros Hl. destruct (decide (dv = ∅)) as [->|Hne].
  - exists [∅], (length (h_dicts h)). split; [|apply lookup_snoc].
    right. repeat split. right. eauto.
  - exists [], l. split; [|now rewrite app_nil_r].
    left. repeat split. eauto.
Qed.

Lemma reshaped_rank2 a r c : a_shape a = [r; c] -> reshaped a = a.
Proof. intros H. unfold reshaped. now rewrite H. Qed.

Lemma regular_length names cols n : regular names cols n -> length names = length cols.
Proof. now intros (_ & _ & ? & _). Qed.

(** The transpose of a well-formed instance whose tables do not carry the
    identity name of the other axis is made, is well formed in the new
    heap, and holds the transposed content. *)
Lemma transpose_spec h self C :
  well_formed h self C ->
  VAR_NAMES ∉ fst (c_smp C) -> SMP_NAMES ∉ fst (c_var C) ->
  ∃ T hT, transpose self h = (inr T, hT) ∧ well_formed hT T (transpose_content C) ∧
    result (let* t := smp_of self in table_content t) hT
    = inr (rename SMP_NAMES VAR_NAMES (fst (c_smp C)), snd (c_smp C)) ∧
    result (let* t := var_of self in table_content t) hT
    = inr (rename VAR_NAMES SMP_NAMES (fst (c_var C)), snd (c_var C)).
Proof.
  intros (ad & X & s & v & l & m & a & ts & tv & r & c & Had & HX & Hs & Hv & Hl & Hm
          & Ha & Hsh & Hcells & Hcl & HCs & HCv & Hts & Hns & Hcs & Hls & Hrs
          & Htv & Hnv & Hcv & Hlv & Hrv & Hdd & Hdl & Hdm & Hkeys) Hnos Hnov.
  destruct C as [Cshape Cvalues [ns cols_s] [nv cols_v] dv dm].
  cbn [c_shape c_values c_smp c_var c_vis c_meta fst snd] in *. subst Cshape.
  destruct Hrs as (Hnds & Hnes & Hlens & Hfs).
  destruct Hrv as (Hndv & Hnev & Hlenv & Hfv).
  unfold transpose, get_anndata.
  rewrite (bind_inr _ _ _ _ _ (deref_Some h_anndata _ _ _ Had)).
  rewrite Hv, Hs, HX, Hl, Hm. cbn [of_option].
  rewrite (bind_inr _ _ _ _ _ (ret_run _ _)).
  rewrite (bind_inr _ _ _ _ _ (np_rec_array_run _ _ _ Htv)).
  set (h1 := with_tables (fun s => s ++ [copy_of tv]) h).
  unfold get_table, get_dtype.
  erewrite bind_inr; [|apply deref_Some; unfold h1; hsimpl; apply lookup_snoc].
  erewrite bind_inr; [|apply deref_Some; unfold h1; hsimpl; exact Hnv].
  cbn [copy_of t_dtype].
  erewrite bind_inr.
  2:{ eapply set_names_run; [unfold h1; hsimpl; exact Hnv|apply rename_length|].
      now apply NoDup_rename. }
  set (h2 := with_dtypes _ h1).
  rewrite (bind_inr _ _ _ _ _ (ret_run _ _)).
  erewrite bind_inr; [|apply np_rec_array_run; unfold h2, h1; hsimpl;
                       apply lookup_app_l_Some; exact Hts].
  set (h3 := with_tables _ h2).
  erewrite bind_inr; [|apply deref_Some; unfold h3, h2, h1; hsimpl; apply lookup_snoc].
  cbn [copy_of t_dtype].
  erewrite bind_inr.
  2:{ apply deref_Some. unfold h3, h2, h1. hsimpl.
      rewrite list_lookup_insert_ne by congruence. exact Hns. }
  erewrite bind_inr.
  2:{ eapply set_names_run; [|apply rename_length|now apply NoDup_rename].
      unfold h3, h2, h1. hsimpl.
      rewrite list_lookup_insert_ne by congruence. exact Hns. }
  set (h4 := with_dtypes _ h3).
  rewrite (bind_inr _ _ _ _ _ (ret_run _ _)).
  erewrite bind_inr; [|apply storage_T_run; unfold h4, h3, h2, h1; hsimpl; exact Ha].
  set (h5 := with_arrays _ _).
  rewrite (bind_inr _ _ _ _ _ (ret_run _ _)).
  rewrite (bind_inr _ _ _ _ _ (ret_run _ _)).
  erewrite bind_inr; [|apply deref_Some; unfold h5, h4, h3, h2, h1; hsimpl; exact Hdm].
  assert (Hdv5 : h_dicts (at_call dm h5) !! l = Some dv).
  { unfold at_call, h5, h4, h3, h2, h1. hsimpl. now apply lookup_app_l_Some. }
  destruct (vis_or_empty_choice _ _ _ Hdv5) as (extra & l' & Hvis & Hl').
  destruct (classify (a_class a)) as [s_type|] eqn:Ecl; [|congruence].
  assert (HaT : a_shape (T_array (with_dtypes
             (fun s0 => <[t_dtype ts:=rename SMP_NAMES VAR_NAMES ns]> s0) h3) a) = [c; r]).
  { unfold T_array, transposed.
    destruct (isinstance _ _); cbn [a_shape]; now rewrite Hsh. }
  fold h4 in HaT.
  eexists _, _. split.
  { unfold h4 in *. hsimpl.
    eapply AnnData_run with (extra := extra) (l := l') (s_type := s_type)
      (ns := rename VAR_NAMES SMP_NAMES nv) (cs := cols_v)
      (nv := rename SMP_NAMES VAR_NAMES ns) (cv := cols_s) (r := c) (c := r).
    - assumption.
    - unfold h5. hsimpl. apply lookup_snoc.
    - unfold T_array.
      rewrite <- Ecl. rewrite <- (classify_T_class (a_class a)) by congruence.
      now destruct (isinstance (a_class a) C_ndarray).
    - rewrite (reshaped_rank2 _ _ _ HaT). exact HaT.
    - unfold h5, h3, h2, h1. simpl. hsimpl.
      rewrite lookup_app_l by (rewrite length_app; simpl; lia).
      rewrite lookup_snoc. simpl.
      rewrite list_lookup_insert_ne by congruence.
      rewrite list_lookup_insert_eq by (eapply lookup_lt_Some, Hnv).
      simpl. now rewrite Hcv.
    - repeat split.
      + now apply NoDup_rename.
      + now apply rename_nonempty.
      + now rewrite rename_length.
      + assumption.
    - unfold h5, h3, h2, h1. simpl. hsimpl.
      replace (S (length (h_tables h))) with (length (h_tables h ++ [copy_of tv]))
        by (rewrite length_app; simpl; lia).
      rewrite lookup_snoc. simpl.
      rewrite list_lookup_insert_eq
        by (rewrite length_insert; eapply lookup_lt_Some, Hns).
      simpl. now rewrite Hcs.
    - repeat split.
      + now apply NoDup_rename.
      + now apply rename_nonempty.
      + now rewrite rename_length.
      + assumption.
    - exact Hvis. }
  assert (HreT : reshaped (T_array h4 a) = T_array h4 a)
    by (apply (reshaped_rank2 _ _ _ HaT)).
  unfold h4 in HreT, HaT.
  assert (Hself : self < length (h_anndata h)) by (eapply lookup_lt_Some, Had).
  assert (Hlt_s : s < length (h_tables h)) by (eapply lookup_lt_Some, Hts).
  assert (Hlt_v : v < length (h_tables h)) by (eapply lookup_lt_Some, Htv).
  split; [|split].
  2:{ unfold result, smp_of.
      erewrite bind_inr.
      2:{ eapply (attr_run ad_smp); [|exact Hs].
          unfold initialised, add_table, at_call, h5, h4, h3, h2, h1.
          hsimpl. rewrite list_lookup_insert_ne by lia.
          apply lookup_app_l_Some. exact Had. }
      erewrite table_content_run; [rewrite Hcs; reflexivity| |].
      - unfold initialised, add_table, at_call, h5, h4, h3, h2, h1. hsimpl.
        do 4 apply lookup_app_l_Some. exact Hts.
      - unfold initialised, add_table, at_call, h5, h4, h3, h2, h1. hsimpl.
        do 2 apply lookup_app_l_Some.
        apply list_lookup_insert_eq. rewrite length_insert.
        eapply lookup_lt_Some, Hns. }
  2:{ unfold result, var_of.
      erewrite bind_inr.
      2:{ eapply (attr_run ad_var); [|exact Hv].
          unfold initialised, add_table, at_call, h5, h4, h3, h2, h1.
          hsimpl. rewrite list_lookup_insert_ne by lia.
          apply lookup_app_l_Some. exact Had. }
      erewrite table_content_run; [rewrite Hcv; reflexivity| |].
      - unfold initialised, add_table, at_call, h5, h4, h3, h2, h1. hsimpl.
        do 4 apply lookup_app_l_Some. exact Htv.
      - unfold initialised, add_table, at_call, h5, h4, h3, h2, h1. hsimpl.
        do 2 apply lookup_app_l_Some.
        rewrite list_lookup_insert_ne by congruence.
        apply list_lookup_insert_eq. eapply lookup_lt_Some, Hnv. }
  unfold well_formed, transpose_content, initialised, add_table, new_table, at_call.
  cbn [c_shape c_values c_smp c_var c_vis c_meta fst snd]. hsimpl.
  rewrite HreT.
  eexists _, _, _, _, _, _, _, _, _, c, r.
  split.
  { apply list_lookup_insert_eq. rewrite length_app. simpl. lia. }
  cbn [ad_X ad_smp ad_var ad_vis ad_meta].
  do 5 (split; [reflexivity|]).
  split.
  { unfold h5, h3, h2, h1. hsimpl. rewrite insert_snoc. apply lookup_snoc. }
  split; [exact HaT|].
  split.
  { unfold T_array, transposed. rewrite Hsh.
    destruct (isinstance _ _); cbn [a_cells].
    - apply permute_length.
    - rewrite length_seq. apply permute_length. }
  split.
  { assert (Hc := classify_T_class (a_class a)). rewrite Ecl in Hc.
    specialize (Hc Hcl).
    unfold T_array, transposed.
    destruct (isinstance (a_class a) C_ndarray); cbn [a_class]; congruence. }
  split; [reflexivity|].
  split.
  { unfold h5, h4, h3, h2, h1. hsimpl. subst Cvalues.
    symmetry. apply (T_array_values h a r c Hsh Hcells). }
  split.
  { rewrite lookup_app_l by (rewrite length_app; simpl; lia). apply lookup_snoc. }
  cbn [t_dtype t_cols t_len].
  split.
  { rewrite lookup_app_l by (rewrite length_app; simpl; lia). apply lookup_snoc. }
  do 2 (split; [reflexivity|]).
  split.
  { repeat split; [now apply NoDup_rename|now apply rename_nonempty
                   |now rewrite rename_length|assumption]. }
  split.
  { replace (S (length (h_tables h5)))
      with (length (h_tables h5 ++ [ {| t_dtype := length (h_dtypes h5); t_len := c;
              t_cols := cols_v;
              t_attrs := Some (Some (length (h_anndata h5)), SMP_NAMES) |} ]))
      by (rewrite length_app; simpl; lia).
    apply lookup_snoc. }
  cbn [t_dtype t_cols t_len].
  split.
  { replace (length (h_dtypes h5 ++ [rename VAR_NAMES SMP_NAMES nv]))
      with (length (h_dtypes h5 ++ [rename VAR_NAMES SMP_NAMES nv]) + 0) by lia.
    rewrite lookup_app_r by lia.
    replace (_ - _) with 0 by lia. reflexivity. }
  do 2 (split; [reflexivity|]).
  split.
  { repeat split; [now apply NoDup_rename|now apply rename_nonempty
                   |now rewrite rename_length|assumption]. }
  split; [rewrite length_app; simpl; lia|].
  split; [exact Hl'|].
  split.
  { rewrite lookup_app_l by (rewrite length_app; simpl; lia). apply lookup_snoc. }
  exact Hkeys.
Qed.

Lemma content_of_run h self C :
  well_formed h self C -> result (content_of self) h = inr C.
Proof.
  intros (ad & X & s & v & l & m & a & ts & tv & r & c & Had & HX & Hs & Hv & Hl & Hm
          & Ha & Hsh & Hcells & Hcl & HCs & HCv & Hts & Hns & Hcs & Hls & Hrs
          & Htv & Hnv & Hcv & Hlv & Hrv & Hdd & Hdl & Hdm & Hkeys).
  destruct C as [Cshape Cvalues [ns cols_s] [nv cols_v] dv dm].
  cbn [c_shape c_values c_smp c_var c_vis c_meta fst snd] in *.
  unfold result, content_of, smp_of, var_of, vis_of, meta_of.
  rewrite (bind_inr _ _ _ _ _ (storage_values_run _ _ _ _ _ Had HX Ha)).
  rewrite (bind_inr _ _ _ _ _ (attr_run ad_smp _ _ _ _ _ Had Hs)).
  rewrite (bind_inr _ _ _ _ _ (table_content_run _ _ _ _ Hts Hns)).
  rewrite (bind_inr _ _ _ _ _ (attr_run ad_var _ _ _ _ _ Had Hv)).
  rewrite (bind_inr _ _ _ _ _ (table_content_run _ _ _ _ Htv Hnv)).
  rewrite (bind_inr _ _ _ _ _ (attr_run ad_vis _ _ _ _ _ Had Hl)).
  rewrite (bind_inr _ _ _ _ _ (deref_Some h_dicts _ _ _ Hdl)).
  rewrite (bind_inr _ _ _ _ _ (attr_run ad_meta _ _ _ _ _ Had Hm)).
  rewrite (bind_inr _ _ _ _ _ (deref_Some h_dicts _ _ _ Hdm)).
  cbn [ret fst snd]. now rewrite Hsh, Hcs, Hcv, HCs, HCv.
Qed.

Lemma transpose_content_involutive C r c :
  c_shape C = [r; c] -> length (c_values C) = r * c ->
  VAR_NAMES ∉ fst (c_smp C) -> SMP_NAMES ∉ fst (c_var C) ->
  transpose_content (transpose_content C) = C.
Proof.
  destruct C as [Cshape Cvalues [ns cols_s] [nv cols_v] dv dm].
  cbn [c_shape c_values c_smp c_var fst snd]. intros -> Hl Hs Hv.
  unfold transpose_content. cbn [c_shape c_values c_smp c_var c_vis c_meta fst snd rev app].
  rewrite permute_involutive by assumption.
  now rewrite !rename_undo by assumption.
Qed.

(** C6, amended. For a well-formed instance whose row table has no field
    called [var_names] and whose column table none called [smp_names],
    [self.T] and then [self.T.T] are made, and the second holds what
    [self] held before the two calls: the same storage shape and values,
    the same fields and columns in both tables, identity columns
    included, and the same entries in [vis] and [_meta]. *)
Theorem transpose_twice h self C :
  well_formed h self C ->
  VAR_NAMES ∉ fst (c_smp C) -> SMP_NAMES ∉ fst (c_var C) ->
  restored_by_double_transpose h self C.
Proof.
  intros Hwf Hs Hv. unfold restored_by_double_transpose.
  destruct (transpose_spec h self C Hwf Hs Hv) as (T1 & h1 & E1 & Hwf1 & _).
  assert (Hs1 : VAR_NAMES ∉ fst (c_smp (transpose_content C)))
    by (apply not_in_rename; discriminate).
  assert (Hv1 : SMP_NAMES ∉ fst (c_var (transpose_content C)))
    by (apply not_in_rename; discriminate).
  destruct (transpose_spec h1 T1 _ Hwf1 Hs1 Hv1) as (T2 & h2 & E2 & Hwf2 & _).
  exists T1, h1, T2, h2. repeat split; try assumption.
  - now apply content_of_run.
  - apply content_of_run.
    destruct Hwf as (ad & X & s & v & l & m & a & ts & tv & r & c & _ & _ & _ & _ & _
          & _ & _ & _ & Hcells & _ & HCs & HCv & _).
    rewrite (transpose_content_involutive C r c) in Hwf2; try assumption.
    now rewrite HCv, length_map.
Qed.

(** The constructor leaves a well-formed instance: given an array of an
    accepted class that is two-dimensional once reshaped, with one cell per
    element, and sources whose fields are regular and as long as the
    storage is high, respectively wide, the call returns an instance that
    is well formed and holds the values of the array, the fields of the
    sources and the entries of [vis] and of the keyword arguments. *)
Lemma AnnData_well_formed X smp var vis meta h a0 r c ns cs nv cv dv :
  no_parameter_key meta ->
  h_arrays h !! X = Some a0 -> classify (a_class a0) ≠ None ->
  a_shape (reshaped a0) = [r; c] -> length (a_cells a0) = r * c ->
  source_fields h smp r SMP_NAMES = Some (ns, cs) -> regular ns cs r ->
  source_fields h var c VAR_NAMES = Some (nv, cv) -> regular nv cv c ->
  match vis with None => dv = ∅ | Some l => h_dicts h !! l = Some dv end ->
  ∃ self h',
    AnnData X smp var vis meta h = (inr self, h') ∧
    well_formed h' self
      {| c_shape := [r; c];
         c_values := map (fun k => nth k (h_mem h) junk) (a_cells a0);
         c_smp := (ns, cs); c_var := (nv, cv); c_vis := dv; c_meta := meta |}.
Proof.
  intros Hkeys Ha Hcl Hsh Hcells Hs Hrs Hv Hrv Hvis.
  destruct (classify (a_class a0)) as [s_type|] eqn:Ecl; [|congruence].
  assert (∃ extra l', vis_or_empty (at_call meta h) vis extra l' ∧
            ((h_dicts h ++ [meta]) ++ extra) !! l' = Some dv)
    as (extra & l' & Hvo & Hl').
  { destruct vis as [l|].
    - apply vis_or_empty_choice. unfold at_call. hsimpl.
      now apply lookup_app_l_Some.
    - subst dv. exists [∅], (length (h_dicts h ++ [meta])).
      split; [|apply lookup_snoc]. right. unfold at_call. hsimpl.
      repeat split. now left. }
  assert (HX : X < length (h_arrays h)) by (eapply lookup_lt_Some; eauto).
  eexists _, _. split.
  { eapply AnnData_run with (extra := extra) (l := l'); eassumption. }
  unfold well_formed, initialised, add_table, new_table, at_call.
  cbn [c_shape c_values c_smp c_var c_vis c_meta fst snd]. hsimpl.
  eexists _, _, _, _, _, _, _, _, _, r, c.
  split.
  { apply list_lookup_insert_eq. rewrite length_app. simpl. lia. }
  cbn [ad_X ad_smp ad_var ad_vis ad_meta].
  do 5 (split; [reflexivity|]).
  split; [now apply list_lookup_insert_eq|].
  split; [exact Hsh|].
  split.
  { unfold reshaped. destruct (_ =? 1); assumption. }
  split.
  { unfold reshaped. destruct (_ =? 1); cbn [a_class]; congruence. }
  split; [reflexivity|].
  split.
  { unfold reshaped. now destruct (_ =? 1). }
  split.
  { rewrite lookup_app_l by (rewrite length_app; simpl; lia). apply lookup_snoc. }
  cbn [t_dtype t_cols t_len].
  split.
  { rewrite lookup_app_l by (rewrite length_app; simpl; lia). apply lookup_snoc. }
  do 2 (split; [reflexivity|]).
  split; [assumption|].
  split.
  { replace (S (length (h_tables h)))
      with (length (h_tables h ++ [ {| t_dtype := length (h_dtypes h); t_len := r;
              t_cols := cs;
              t_attrs := Some (Some (length (h_anndata h)), SMP_NAMES) |} ]))
      by (rewrite length_app; simpl; lia).
    apply lookup_snoc. }
  cbn [t_dtype t_cols t_len].
  split; [apply lookup_snoc|].
  do 2 (split; [reflexivity|]).
  split; [assumption|].
  split; [rewrite length_app; simpl; lia|].
  split; [exact Hl'|].
  split.
  { rewrite lookup_app_l by (rewrite length_app; simpl; lia). apply lookup_snoc. }
  exact Hkeys.
Qed.

(** ** Transpose renames the fields of its source *)

Lemma names_of_content (f : anndata_obj -> option loc) e self name h names cols :
  result (let* t := (let* ad := get_anndata self in of_option e (f ad)) in
          table_content t) h = inr (names, cols) ->
  result (let* ad := get_anndata self in
          let* t := of_option e (f ad) in
          recarray_field t name) h
  = match field names cols name with inl x => inl x | inr col => inr col end.
Proof.
  unfold result, table_content, recarray_field, get_anndata, get_table, get_dtype,
    bind, deref.
  destruct (h_anndata h !! self) as [ad|]; [|discriminate]. cbv beta iota.
  destruct (f ad) as [t|]; [|discriminate]. cbv beta iota delta [of_option ret].
  destruct (h_tables h !! t) as [tb|]; [|discriminate]. cbv beta iota.
  destruct (h_dtypes h !! t_dtype tb) as [ns|]; [|discriminate]. cbv beta iota.
  cbn [fst]. intros [= -> ->].
  destruct (field _ _ _); reflexivity.
Qed.

(** After [self.T] the column table of [self] has the field names of a row
    table: its identity column is called [smp_names], and [self.var_names]
    raises.  The same holds for the row table and [self.smp_names]. *)
Lemma transpose_renames_source h self C :
  well_formed h self C ->
  VAR_NAMES ∉ fst (c_smp C) -> SMP_NAMES ∉ fst (c_var C) ->
  ∃ T hT, transpose self h = (inr T, hT) ∧
    result (let* t := var_of self in table_content t) hT
    = inr (rename VAR_NAMES SMP_NAMES (fst (c_var C)), snd (c_var C)) ∧
    result (var_names self) hT = inl (ValueError_no_field VAR_NAMES) ∧
    result (smp_names self) hT = inl (ValueError_no_field SMP_NAMES).
Proof.
  intros Hwf Hs Hv.
  destruct (transpose_spec h self C Hwf Hs Hv) as (T & hT & E & _ & Hsmp & Hvar).
  exists T, hT. split; [exact E|]. split; [exact Hvar|]. split.
  - unfold var_names. unfold var_of in Hvar.
    rewrite (names_of_content ad_var _ _ VAR_NAMES _ _ _ Hvar).
    unfold field. rewrite index_of_None; [reflexivity|].
    apply not_in_rename. discriminate.
  - unfold smp_names. unfold smp_of in Hsmp.
    rewrite (names_of_content ad_smp _ _ SMP_NAMES _ _ _ Hsmp).
    unfold field. rewrite index_of_None; [reflexivity|].
    apply not_in_rename. discriminate.
Qed.

(** ** The loop of [__new__] and [__setitem__] *)


(** ** Counterexamples and instances *)

Ltac by_compute :=
  lazymatch goal with
  | |- NoDup _ => repeat constructor; by_compute
  | |- Forall _ _ => repeat constructor
  | |- _ ∉ _ => let H := fresh in intros H; apply list_elem_of_In in H;
                vm_compute in H; intuition discriminate
  | |- _ ≠ _ => vm_compute; discriminate
  | |- _ = _ => vm_compute; reflexivity
  | |- _ => idtac
  end.

(** C3 as stated fails for [mat = AnnData(np.array([[1, 2, 3], [4, 5, 6]]))]
    and [s = mat[0, :]]: after [mat[0, 0] = 99] the storage of [s] reads
    99, and [s.vis] and [s._meta] are not the objects of [mat]. *)
Lemma slice_of_dense_array_is_a_view :
  ¬ storage_independent dia_backend (heap_of dense_2x3) 0 (I_int 0) all ∧
  ¬ vis_shared dia_backend (heap_of dense_2x3) 0 (I_int 0) all ∧
  ¬ meta_shared dia_backend (heap_of dense_2x3) 0 (I_int 0) all.
Proof.
  set (h1 := heap_after (AnnData_getitem dia_backend 0 (I_int 0) all) (heap_of dense_2x3)).
  assert (E1 : AnnData_getitem dia_backend 0 (I_int 0) all (heap_of dense_2x3)
               = (inr 1, h1)) by (vm_compute; reflexivity).
  set (h2 := heap_after (AnnData_setitem dia_backend 0 (I_int 0) (I_int 0)
                           (scalar (VInt 99))) h1).
  assert (E2 : AnnData_setitem dia_backend 0 (I_int 0) (I_int 0) (scalar (VInt 99)) h1
               = (inr tt, h2)) by (vm_compute; reflexivity).
  repeat split; intros H.
  - specialize (H _ _ _ _ _ _ _ E1 E2). vm_compute in H. discriminate H.
  - specialize (H _ _ E1). vm_compute in H. discriminate H.
  - specialize (H _ _ E1). vm_compute in H. discriminate H.
Qed.

Example view_shows_write_to_parent :
  result (let* s := AnnData_getitem dia_backend 0 (I_int 0) all in
          let* before := storage_values s in
          AnnData_setitem dia_backend 0 (I_int 0) (I_int 0) (scalar (VInt 99)) ;;;
          let* after := storage_values s in
          ret (before, after)) (heap_of dense_2x3)
  = inr (([1; 3], ints [1; 2; 3]%Z), ([1; 3], ints [99; 2; 3]%Z)).
Proof. vm_compute. reflexivity. Qed.

Example copy_hides_write_to_parent :
  result (let* s := AnnData_getitem dia_backend 0 (I_sel (S_list [0%Z])) all in
          let* before := storage_values s in
          AnnData_setitem dia_backend 0 (I_int 0) (I_int 0) (scalar (VInt 99)) ;;;
          let* after := storage_values s in
          ret (before, after)) (heap_of dense_2x3)
  = inr (([1; 3], ints [1; 2; 3]%Z), ([1; 3], ints [1; 2; 3]%Z)).
Proof. vm_compute. reflexivity. Qed.

Lemma slice_views_storage_and_copies_tables_witness :
  let h := heap_of dense_2x3 in
  let h' := heap_after (AnnData_getitem dia_backend 0 (I_int 0) all) h in
  h_anndata h !! 0 = Some instance_0 ∧ ad_vis instance_0 = Some 1 ∧
  h_dicts h !! 1 = Some ∅ ∧
  AnnData_getitem dia_backend 0 (I_int 0) all h = (inr 1, h') ∧
  ∃ ad' X a a' m dm st vt l,
    ad_X instance_0 = Some X ∧ h_arrays h !! X = Some a ∧
    ad_meta instance_0 = Some m ∧ h_dicts h !! m = Some dm ∧
    extends h h' ∧ 1 = length (h_anndata h) ∧ h_anndata h' !! 1 = Some ad' ∧
    ad_X ad' = Some (length (h_arrays h)) ∧
    h_arrays h' !! length (h_arrays h) = Some a' ∧
    (isinstance (a_class a) C_ndarray = true ->
     view_or_copy h a (fst (_unpack_index (I_int 0) all))
                  (snd (_unpack_index (I_int 0) all)) a') ∧
    ad_smp ad' = Some st ∧ new_bound_table h h' st 1 SMP_NAMES ∧
    ad_var ad' = Some vt ∧ new_bound_table h h' vt 1 VAR_NAMES ∧
    (∀ self' i j v r h2, AnnData_setitem dia_backend self' i j v h' = (r, h2) ->
       h_tables h2 = h_tables h' ∧ h_dtypes h2 = h_dtypes h') ∧
    ad_vis ad' = Some l ∧
    (if bool_decide ((∅ : gmap string val) = ∅)
     then length (h_dicts h) ≤ l ∧ h_dicts h' !! l = Some ∅
     else l = 1) ∧
    ad_meta ad' = Some (length (h_dicts h)) ∧
    h_dicts h' !! length (h_dicts h) = Some dm.
Proof.
  cbv zeta.
  assert (H1 : h_anndata (heap_of dense_2x3) !! 0 = Some instance_0)
    by (vm_compute; reflexivity).
  assert (H2 : ad_vis instance_0 = Some 1) by reflexivity.
  assert (H3 : h_dicts (heap_of dense_2x3) !! 1 = Some (∅ : gmap string val))
    by (vm_compute; reflexivity).
  assert (H4 : AnnData_getitem dia_backend 0 (I_int 0) all (heap_of dense_2x3)
               = (inr 1, heap_after (AnnData_getitem dia_backend 0 (I_int 0) all)
                                    (heap_of dense_2x3)))
    by (vm_compute; reflexivity).
  exact (conj H1 (conj H2 (conj H3 (conj H4
    (slice_views_storage_and_copies_tables dia_backend _ 0 _ 1 ∅ _ _ 1 _ H1 H2 H3 H4))))).
Defined.

(** C6 as stated fails for
    [mat = AnnData(np.array([[1, 2], [3, 4]]), var=dict(smp_names=['x', 'y']))]:
    [mat.T] raises, because renaming [var_names] to [smp_names] would give
    two fields that name. *)
Lemma transpose_raises_on_clashing_field :
  result (let* t := var_of 0 in table_content t) heap_with_smp_names_in_var
  = inr ([SMP_NAMES; VAR_NAMES], [[VStr "x"; VStr "y"]; ints [0; 1]%Z]) ∧
  result (transpose 0) heap_with_smp_names_in_var = inl ValueError_duplicate_names ∧
  ¬ ∃ C, restored_by_double_transpose heap_with_smp_names_in_var 0 C.
Proof.
  split; [vm_compute; reflexivity|]. split; [vm_compute; reflexivity|].
  intros (C & T1 & h1 & T2 & h2 & E & _).
  apply (f_equal fst) in E. vm_compute in E. discriminate E.
Qed.

Lemma well_formed_2x3 : well_formed (heap_of dense_2x3) 0 content_2x3.
Proof.
  exists instance_0, 0, 0, 1, 1, 0.
  eexists _, _, _, 2, 3.
  split; [vm_compute; reflexivity|].
  do 5 (split; [reflexivity|]).
  split; [vm_compute; reflexivity|].
  split; [reflexivity|]. split; [reflexivity|].
  split; [by_compute|].
  split; [reflexivity|]. split; [vm_compute; reflexivity|].
  split; [vm_compute; reflexivity|].
  split; [vm_compute; reflexivity|].
  split; [reflexivity|]. split; [reflexivity|].
  split; [repeat split; by_compute|].
  split; [vm_compute; reflexivity|].
  split; [vm_compute; reflexivity|].
  split; [reflexivity|]. split; [reflexivity|].
  split; [repeat split; by_compute|].
  split; [by_compute|].
  split; [vm_compute; reflexivity|].
  split; [vm_compute; reflexivity|].
  vm_compute. reflexivity.
Defined.

Lemma transpose_twice_witness :
  well_formed (heap_of dense_2x3) 0 content_2x3 ∧
  (VAR_NAMES ∉ fst (c_smp content_2x3)) ∧ (SMP_NAMES ∉ fst (c_var content_2x3)) ∧
  restored_by_double_transpose (heap_of dense_2x3) 0 content_2x3.
Proof.
  assert (H1 : VAR_NAMES ∉ fst (c_smp content_2x3)) by by_compute.
  assert (H2 : SMP_NAMES ∉ fst (c_var content_2x3)) by by_compute.
  exact (conj well_formed_2x3 (conj H1 (conj H2
    (transpose_twice _ 0 content_2x3 well_formed_2x3 H1 H2)))).
Defined.

Example transpose_twice_2x3 :
  result (let* t1 := transpose 0 in let* t2 := transpose t1 in content_of t2)
         (heap_of dense_2x3)
  = inr content_2x3.
Proof. vm_compute. reflexivity. Qed.

Lemma built_shape_invariant_witness :
  let h := heap_of dense_2x3 in
  let h' := heap_after (AnnData_getitem dia_backend 0 (I_int 0) all) h in
  built dia_backend h h' 1 ∧ shape_invariant h' 1.
Proof.
  cbv zeta.
  assert (B : built dia_backend (heap_of dense_2x3)
                (heap_after (AnnData_getitem dia_backend 0 (I_int 0) all)
                            (heap_of dense_2x3)) 1).
  { apply built_by_getitem with (parent := 0) (smp := I_int 0) (var := all).
    vm_compute. reflexivity. }
  exact (conj B (built_shape_invariant _ _ _ _ B)).
Defined.

Lemma rank1_storage_reshaped_in_place_witness :
  let h := heap_after dense_3 empty_heap in
  let a := {| a_class := C_ndarray; a_shape := [3]; a_structured := false;
              a_cells := [0; 1; 2] |} in
  h_arrays h !! 0 = Some a ∧ a_shape a = [3] ∧
  (∀ smp var vis meta self h',
     AnnData 0 smp var vis meta h = (inr self, h') ->
     h_arrays h' = <[0 := {| a_class := a_class a; a_shape := [3; 1];
                             a_structured := a_structured a;
                             a_cells := a_cells a |}]> (h_arrays h) ∧
     h_mem h' = h_mem h ∧
     ∃ ad, h_anndata h' !! self = Some ad ∧ ad_X ad = Some 0) ∧
  (classify (a_class a) ≠ None ->
   ∃ self h', AnnData 0 Src_None Src_None None ∅ h = (inr self, h')).
Proof.
  cbv zeta.
  assert (H1 : h_arrays (heap_after dense_3 empty_heap) !! 0
               = Some {| a_class := C_ndarray; a_shape := [3];
                         a_structured := false; a_cells := [0; 1; 2] |})
    by (vm_compute; reflexivity).
  exact (conj H1 (conj eq_refl
    (rank1_storage_reshaped_in_place _ 0 _ 3 H1 eq_refl))).
Defined.

(** ** The tests of the module *)

Example test_creation_dense :
  result (let* X := dense_2x2 in AnnData X Src_None Src_None None ∅) empty_heap = inr 0.
Proof. vm_compute. reflexivity. Qed.

Example test_creation_with_metadata :
  result (let* X := dense_2x3 in
          let* self := AnnData X (Src_Mapping [("Smp", [VStr "A"; VStr "B"])])
                         (Src_Mapping [("Feat", [VStr "a"; VStr "b"; VStr "c"])])
                         None ∅ in
          let* s := smp_of self in table_content s) empty_heap
  = inr (["Smp"; SMP_NAMES], [[VStr "A"; VStr "B"]; ints [0; 1]%Z]).
Proof. vm_compute. reflexivity. Qed.

Example test_creation_too_long :
  result (let* X := dense_2x2 in
          AnnData X (Src_Mapping [("TooLong", ints [1; 2; 3; 4]%Z)]) Src_None None ∅)
         empty_heap
  = inl (ValueError_broadcast 2 4).
Proof. vm_compute. reflexivity. Qed.

(** [test_creation] expects [AnnData(np.array([1]))] to raise; the
    constructor reshapes the array to [(1, 1)] and returns. *)
Example test_creation_rank1 :
  result (let* X := new_array C_ndarray [1] (ints [1]%Z) in
          let* self := AnnData X Src_None Src_None None ∅ in
          storage_values self) empty_heap
  = inr ([1; 1], ints [1]%Z).
Proof. vm_compute. reflexivity. Qed.

Example test_get_subset :
  let at_ smp var :=
    result (let* s := AnnData_getitem dia_backend 0 smp var in storage_values s)
           (heap_of dense_2x3) in
  at_ (I_int 0) (I_int 0) = inr ([1; 1], ints [1]%Z) ∧
  at_ (I_int 0) all = inr ([1; 3], ints [1; 2; 3]%Z) ∧
  at_ all (I_int 0) = inr ([2; 1], ints [1; 4]%Z) ∧
  at_ all (I_sel (S_list [0; 1]%Z)) = inr ([2; 2], ints [1; 2; 4; 5]%Z) ∧
  at_ all (I_sel (S_slice (Some 1%Z) (Some 3%Z) None)) = inr ([2; 2], ints [2; 3; 5; 6]%Z).
Proof. cbv zeta. repeat split; vm_compute; reflexivity. Qed.

Example test_append_meta_col :
  result (let* s := smp_of 0 in
          BoundRecArr_setitem s "new_col" (ints [1; 2]%Z) ;;;
          let* s' := smp_of 0 in
          let* cs := columns s' in
          ret cs) (heap_of dense_2x3) = inr ["new_col"] ∧
  result (BoundRecArr_setitem 0 "new_col2" [VStr "far"; VStr "too"; VStr "long"])
         (heap_of dense_2x3)
  = inl (ValueError_too_many_entries 3 2).
Proof. split; vm_compute; reflexivity. Qed.

(** A negative integer index selects nothing: [mat[-1, :]] is the slice
    [-1:0]. *)
Example getitem_last_row_is_empty :
  result (let* s := AnnData_getitem dia_backend 0 (I_int (-1)) all in storage_values s)
         (heap_of dense_2x3)
  = inr ([0; 3], []).
Proof. vm_compute. reflexivity. Qed.

Example slice_full : resolve slice_None 3 = inr [0; 1; 2].
Proof. reflexivity. Qed.
Example slice_1_3 : resolve (S_slice (Some 1%Z) (Some 3%Z) None) 3 = inr [1; 2].
Proof. reflexivity. Qed.
Example slice_reverse : resolve (S_slice None None (Some (-1)%Z)) 3 = inr [2; 1; 0].
Proof. reflexivity. Qed.
Example slice_step2 : resolve (S_slice (Some (-5)%Z) (Some 10%Z) (Some 2%Z)) 4 = inr [0; 2].
Proof. reflexivity. Qed.
Example list_negative : resolve (S_list [0%Z; (-1)%Z]) 3 = inr [0; 2].
Proof. reflexivity. Qed.
Example list_out_of_bounds :
  resolve (S_list [3%Z]) 3 = inl (IndexError_out_of_bounds 3 3).
Proof. reflexivity. Qed.


(** * Further properties of the module *)

(** ** The mapping [_meta] *)

Lemma meta_run {A} (k : gmap string val -> M A) self h ad m d :
  h_anndata h !! self = Some ad -> ad_meta ad = Some m -> h_dicts h !! m = Some d ->
  (let* ad := get_anndata self in
   let* m := of_option (AttributeError "_meta") (ad_meta ad) in
   let* d := get_dict m in k d) h = k d h.
Proof.
  intros Had Hm Hd. unfold get_anndata, get_dict.
  rewrite (bind_inr _ _ _ _ _ (deref_Some h_anndata _ _ _ Had)).
  rewrite Hm. cbn [of_option]. rewrite (bind_inr _ _ _ _ _ (ret_run _ _)).
  now rewrite (bind_inr _ _ _ _ _ (deref_Some h_dicts _ _ _ Hd)).
Qed.

Lemma AnnData_setitem_meta_inv self k v h u h' :
  AnnData_setitem_meta self k v h = (inr u, h') ->
  ∃ ad m d, h_anndata h !! self = Some ad ∧ ad_meta ad = Some m ∧
            h_dicts h !! m = Some d ∧
            h' = with_dicts (fun s => <[m := <[k := v]> d]> s) h.
Proof.
  unfold AnnData_setitem_meta, get_anndata, get_dict, set_dict. intros H.
  run_bind H as ad h0 E. run_inv E. run_bind H as m h0 E. run_inv E.
  run_bind H as d h0 E. run_inv E. injection H as _ <-. eauto 10.
Qed.

(** X1. [mat[k] = v] followed by [mat[k]] gives [v]; afterwards [k in mat]
    holds and [mat.get(k, default)] is [v]; every other key reads as
    before. *)
Theorem meta_set_then_get self k v h u h' :
  AnnData_setitem_meta self k v h = (inr u, h') ->
  result (AnnData_getitem_meta self k) h' = inr v ∧
  result (AnnData_contains self k) h' = inr true ∧
  (∀ default, result (AnnData_get self k default) h' = inr (Some v)) ∧
  (∀ k', k' ≠ k ->
     result (AnnData_getitem_meta self k') h' = result (AnnData_getitem_meta self k') h).
Proof.
  intros H. apply AnnData_setitem_meta_inv in H as (ad & m & d & Had & Hm & Hd & ->).
  assert (Hd' : h_dicts (with_dicts (fun s => <[m := <[k := v]> d]> s) h) !! m
                = Some (<[k := v]> d)).
  { hsimpl. apply list_lookup_insert_eq. eapply lookup_lt_Some, Hd. }
  assert (Had' : h_anndata (with_dicts (fun s => <[m := <[k := v]> d]> s) h) !! self
                 = Some ad) by exact Had.
  unfold result, AnnData_getitem_meta, AnnData_contains, AnnData_get.
  split; [|split; [|split]].
  - rewrite (meta_run _ _ _ _ _ _ Had' Hm Hd'). now rewrite lookup_insert_eq.
  - rewrite (meta_run _ _ _ _ _ _ Had' Hm Hd'). rewrite lookup_insert_eq.
    reflexivity.
  - intros default. rewrite (meta_run _ _ _ _ _ _ Had' Hm Hd').
    now rewrite lookup_insert_eq.
  - intros k' Hk. rewrite (meta_run _ _ _ _ _ _ Had' Hm Hd').
    rewrite (meta_run _ _ _ _ _ _ Had Hm Hd).
    rewrite lookup_insert_ne by congruence.
    now destruct (d !! k').
Qed.

(** X2. [mat.get(k, default)] never raises [KeyError]: it is [mat[k]]
    where that is defined and [default] where [mat[k]] raises [KeyError];
    [k in mat] tells the two cases apart. *)
Theorem get_agrees_with_getitem self k default h :
  result (AnnData_get self k default) h
  = match result (AnnData_getitem_meta self k) h with
    | inr v => inr (Some v)
    | inl (KeyError _) => inr default
    | inl e => inl e
    end ∧
  result (AnnData_contains self k) h
  = match result (AnnData_getitem_meta self k) h with
    | inr _ => inr true
    | inl (KeyError _) => inr false
    | inl e => inl e
    end.
Proof.
  unfold result, AnnData_get, AnnData_contains, AnnData_getitem_meta,
    get_anndata, get_dict, bind, deref.
  destruct (h_anndata h !! self) as [ad|]; [|split; reflexivity]. cbv beta iota.
  destruct (ad_meta ad) as [m|]; [|split; reflexivity]. cbn [of_option ret].
  destruct (h_dicts h !! m) as [d|]; [|split; reflexivity]. cbv beta iota.
  destruct (d !! k) as [v|]; split; reflexivity.
Qed.

(** The heap in which a call of the constructor that returns ends, store
    by store. *)
Lemma AnnData_returns X smp var vis meta h self h' :
  AnnData X smp var vis meta h = (inr self, h') ->
  ∃ a0 s_type ns ts nv tv extra l,
    self = length (h_anndata h) ∧ no_parameter_key meta ∧
    h_arrays h !! X = Some a0 ∧ classify (a_class a0) = Some s_type ∧
    a_shape (reshaped a0) = [t_len ts; t_len tv] ∧
    vis_or_empty (at_call meta h) vis extra l ∧
    h_mem h' = h_mem h ∧
    h_arrays h' = <[X := reshaped a0]> (h_arrays h) ∧
    h_dtypes h' = (h_dtypes h ++ [ns]) ++ [nv] ∧
    h_tables h' = (h_tables h ++ [ts]) ++ [tv] ∧
    h_dicts h' = (h_dicts h ++ [meta]) ++ extra ∧
    h_anndata h'
    = h_anndata h ++ [{| ad_storage_type := Some s_type; ad_X := Some X;
                         ad_smp := Some (length (h_tables h));
                         ad_var := Some (S (length (h_tables h)));
                         ad_vis := Some l;
                         ad_meta := Some (length (h_dicts h)) |}].
Proof.
  intros H. apply AnnData_inv in H as (-> & Hm & u & H).
  apply AnnData_init_inv in H
    as (ad0 & a0 & s_type & ns & ts & nv & tv & extra & l & _ & Ha0 & Hcl & Hsh
        & _ & _ & _ & _ & _ & _ & Hvis & ->).
  exists a0, s_type, ns, ts, nv, tv, extra, l.
  unfold initialised, add_table, at_call in *. hsimpl.
  repeat split; try assumption. apply insert_snoc.
Qed.

(** X3. The keyword arguments of the constructor are what [mat[k]] reads:
    [AnnData(X, ..., k=v)[k]] is [v], a key that was not given raises
    [KeyError], and no parameter name of [__init__] is among the keys. *)
Theorem constructor_keywords_readable X smp var vis meta h self h' :
  AnnData X smp var vis meta h = (inr self, h') ->
  (∀ k, result (AnnData_getitem_meta self k) h'
        = match meta !! k with Some v => inr v | None => inl (KeyError k) end) ∧
  (∀ k, k ∈ parameters -> meta !! k = None).
Proof.
  intros H.
  apply AnnData_returns in H
    as (a0 & s_type & ns & ts & nv & tv & extra & l & -> & Hm & _ & _ & _ & _
        & _ & _ & _ & _ & Hd & Had).
  split.
  - intros k. unfold result, AnnData_getitem_meta.
    erewrite (meta_run _ _ _ _ (length (h_dicts h)) meta).
    + now destruct (meta !! k).
    + rewrite Had. apply lookup_snoc.
    + reflexivity.
    + rewrite Hd. rewrite lookup_app_l by (rewrite length_app; simpl; lia).
      apply lookup_snoc.
  - intros k Hk. unfold no_parameter_key in Hm.
    destruct (meta !! k) as [v|] eqn:E; [|reflexivity]. exfalso.
    eapply find_none in Hm; [|apply list_elem_of_In; exact Hk].
    rewrite E in Hm. discriminate Hm.
Qed.

(** ** Inverting [transpose] *)

Lemma np_rec_array_inv t h t' h1 :
  np_rec_array t h = (inr t', h1) ->
  ∃ tb, h_tables h !! t = Some tb ∧ t' = length (h_tables h) ∧
        h1 = with_tables (fun s => s ++ [copy_of tb]) h.
Proof.
  unfold np_rec_array, get_table, alloc_table. intros H.
  run_bind H as tb h0 E. run_inv E. injection H as <- <-. eauto.
Qed.

Lemma set_names_inv d new h u h1 :
  set_names d new h = (inr u, h1) ->
  h1 = with_dtypes (fun s => <[d := new]> s) h.
Proof.
  unfold set_names, get_dtype, set_dtype. intros H.
  run_bind H as old h0 E. run_inv E.
  destruct (negb _); [run_inv H|].
  destruct (bool_decide _); [|run_inv H]. now injection H as _ <-.
Qed.

Lemma storage_T_inv X h XT h1 :
  storage_T X h = (inr XT, h1) ->
  ∃ a, h_arrays h !! X = Some a ∧ XT = length (h_arrays h) ∧
       h1 = with_arrays (fun s => s ++ [T_array h a])
              (with_mem (fun m => m ++ T_mem h a) h).
Proof.
  intros H. destruct (h_arrays h !! X) as [a|] eqn:Ha.
  - rewrite (storage_T_run _ _ _ Ha) in H. injection H as <- <-. eauto.
  - unfold storage_T, get_array, bind, deref in H. rewrite Ha in H. discriminate H.
Qed.

Lemma transpose_inv self h T hT :
  transpose self h = (inr T, hT) ->
  ∃ ad X a s v ts tv vis m dm hk,
    h_anndata h !! self = Some ad ∧ ad_X ad = Some X ∧ h_arrays h !! X = Some a ∧
    ad_smp ad = Some s ∧ ad_var ad = Some v ∧
    (h_tables h ++ [copy_of tv]) !! s = Some ts ∧ h_tables h !! v = Some tv ∧
    ad_vis ad = Some vis ∧ ad_meta ad = Some m ∧ h_dicts h !! m = Some dm ∧
    h_mem hk = h_mem h ++ T_mem h a ∧
    h_arrays hk = h_arrays h ++ [T_array h a] ∧
    h_tables hk = (h_tables h ++ [copy_of tv]) ++ [copy_of ts] ∧
    h_dicts hk = h_dicts h ∧ h_anndata hk = h_anndata h ∧
    AnnData (length (h_arrays h)) (Src_recarray (length (h_tables h)))
            (Src_recarray (S (length (h_tables h)))) (Some vis) dm hk
    = (inr T, hT).
Proof.
  unfold transpose, get_anndata, get_table, get_dtype, get_dict. intros H.
  run_bind H as ad h0 E. run_inv E.
  run_bind H as v h0 E. run_inv E.
  run_bind H as smp h1 E. apply np_rec_array_inv in E as (tv & Htv & -> & ->).
  run_bind H as tb h1 E. run_inv E.
  run_bind H as names h1 E. run_inv E.
  run_bind H as u1 h1 E. apply set_names_inv in E as ->.
  run_bind H as s h1 E. run_inv E.
  run_bind H as var h1 E. apply np_rec_array_inv in E as (ts & Hts & -> & ->).
  run_bind H as tb' h1 E. run_inv E.
  run_bind H as names' h1 E. run_inv E.
  run_bind H as u2 h1 E. apply set_names_inv in E as ->.
  run_bind H as X h1 E. run_inv E.
  run_bind H as XT h1 E. apply storage_T_inv in E as (a & Ha & -> & ->).
  run_bind H as vis h1 E. run_inv E.
  run_bind H as m h1 E. run_inv E.
  run_bind H as dm h1 E. run_inv E.
  hsimpl. rewrite length_app, Nat.add_1_r in H.
  exists ad, X, a, s, v, ts, tv, vis, m, dm. eexists.
  do 10 (split; [eassumption|]).
  split; [|split; [|split; [|split; [|split; [|exact H]]]]]; reflexivity.
Qed.

Lemma no_parameter_key_lookup meta k :
  no_parameter_key meta -> k ∈ parameters -> meta !! k = None.
Proof.
  unfold no_parameter_key. intros Hm Hk.
  destruct (meta !! k) as [v|] eqn:E; [|reflexivity]. exfalso.
  eapply find_none in Hm; [|apply list_elem_of_In; exact Hk].
  rewrite E in Hm. discriminate Hm.
Qed.

(** X4. The mapping of a slice is a mapping of its own with the entries
    of the parent's: [mat[smp, var][k]] reads what [mat[k]] read, and
    afterwards an assignment [s[k] = v] does not show in [mat], nor one to
    [mat] in [s]. *)
Theorem slice_meta_is_a_separate_mapping sp self smp var h s h1 :
  AnnData_getitem sp self smp var h = (inr s, h1) ->
  (∀ k, result (AnnData_getitem_meta s k) h1 = result (AnnData_getitem_meta self k) h) ∧
  (∀ k v u h2, AnnData_setitem_meta s k v h1 = (inr u, h2) ->
     ∀ k', result (AnnData_getitem_meta self k') h2
           = result (AnnData_getitem_meta self k') h) ∧
  (∀ k v u h2, AnnData_setitem_meta self k v h1 = (inr u, h2) ->
     ∀ k', result (AnnData_getitem_meta s k') h2
           = result (AnnData_getitem_meta s k') h1).
Proof.
  intros H.
  apply AnnData_getitem_inv in H
    as (ad & X & a & a' & vs & tb1 & tb2 & vis & m & dm & h3 & Had & HX & Ha & Hvis
        & Hm & Hdm & _ & _ & -> & H).
  apply AnnData_returns in H
    as (a0 & s_type & ns & ts & nv & tv & extra & l & -> & _ & _ & _ & _ & _
        & _ & _ & _ & _ & Hd & Hads).
  hsimpl.
  set (ads := {| ad_storage_type := Some s_type; ad_X := Some (length (h_arrays h));
                 ad_smp := _; ad_var := _; ad_vis := Some l;
                 ad_meta := Some (length (h_dicts h)) |}) in Hads.
  assert (Hlm : m < length (h_dicts h)) by (eapply lookup_lt_Some, Hdm).
  assert (Hself : self < length (h_anndata h)) by (eapply lookup_lt_Some, Had).
  assert (Had1 : h_anndata h1 !! self = Some ad)
    by (rewrite Hads; now apply lookup_app_l_Some).
  assert (Hs1 : h_anndata h1 !! length (h_anndata h) = Some ads)
    by (rewrite Hads; apply lookup_snoc).
  assert (Hdm1 : h_dicts h1 !! m = Some dm)
    by (rewrite Hd; now do 2 apply lookup_app_l_Some).
  assert (Hds1 : h_dicts h1 !! length (h_dicts h) = Some dm).
  { rewrite Hd. apply lookup_app_l_Some. apply lookup_snoc. }
  unfold result, AnnData_getitem_meta. split; [|split].
  - intros k.
    rewrite (meta_run _ _ _ _ _ _ Hs1 eq_refl Hds1).
    rewrite (meta_run _ _ _ _ _ _ Had Hm Hdm). now destruct (dm !! k).
  - intros k v u h2 Hset k'.
    apply AnnData_setitem_meta_inv in Hset as (ad2 & m2 & d2 & E1 & E2 & E3 & ->).
    rewrite Hs1 in E1. injection E1 as <-. injection E2 as <-.
    erewrite (meta_run _ _ _ ad m dm); [|exact Had1|exact Hm|].
    + rewrite (meta_run _ _ _ _ _ _ Had Hm Hdm). now destruct (dm !! k').
    + hsimpl. rewrite list_lookup_insert_ne by lia. exact Hdm1.
  - intros k v u h2 Hset k'.
    apply AnnData_setitem_meta_inv in Hset as (ad2 & m2 & d2 & E1 & E2 & E3 & ->).
    rewrite Had1 in E1. injection E1 as <-. rewrite Hm in E2. injection E2 as <-.
    erewrite (meta_run _ _ _ ads (length (h_dicts h)) dm); [|exact Hs1|reflexivity|].
    + rewrite (meta_run _ _ _ _ _ _ Hs1 eq_refl Hds1). now destruct (dm !! k').
    + hsimpl. rewrite list_lookup_insert_ne by lia. exact Hds1.
Qed.

(** X5. A key of [_meta] that is a parameter name of [__init__] ([self],
    [X], [smp], [var], [vis]) makes the instance unusable as a source:
    after [mat[k] = v] with such a key every [mat[smp, var]] raises, and so
    does [mat.T], because both pass [**self._meta] to the constructor. *)
Theorem parameter_key_blocks_slicing sp self k v h u h' :
  k ∈ parameters ->
  AnnData_setitem_meta self k v h = (inr u, h') ->
  (∀ smp var, ∃ e h2, AnnData_getitem sp self smp var h' = (inl e, h2)) ∧
  (∃ e h2, transpose self h' = (inl e, h2)).
Proof.
  intros Hk H. apply AnnData_setitem_meta_inv in H as (ad & m & d & Had & Hm & Hd & ->).
  assert (Hd' : h_dicts (with_dicts (fun s => <[m := <[k := v]> d]> s) h) !! m
                = Some (<[k := v]> d)).
  { hsimpl. apply list_lookup_insert_eq. eapply lookup_lt_Some, Hd. }
  set (h' := with_dicts _ h) in *.
  assert (Had' : h_anndata h' !! self = Some ad) by exact Had.
  assert (Hno : ¬ no_parameter_key (<[k := v]> d)).
  { intros Hno. apply (no_parameter_key_lookup _ k) in Hno; [|exact Hk].
    rewrite lookup_insert_eq in Hno. discriminate Hno. }
  split.
  - intros smp var.
    destruct (AnnData_getitem sp self smp var h') as [[e|s] h2] eqn:E; [eauto|].
    exfalso.
    apply AnnData_getitem_inv in E
      as (ad1 & X & a & a' & vs & tb1 & tb2 & vis & m1 & dm & h3 & E1 & _ & _ & _
          & E2 & E3 & _ & _ & _ & E).
    rewrite Had' in E1. injection E1 as <-. rewrite Hm in E2. injection E2 as <-.
    rewrite Hd' in E3. injection E3 as <-.
    apply AnnData_inv in E as (_ & Hno' & _). contradiction.
  - destruct (transpose self h') as [[e|T] h2] eqn:E; [eauto|].
    exfalso.
    apply transpose_inv in E
      as (ad1 & X & a & s & v1 & ts & tv & vis & m1 & dm & hk & E1 & _ & _ & _ & _
          & _ & _ & _ & E2 & E3 & _ & _ & _ & _ & _ & E).
    rewrite Had' in E1. injection E1 as <-. rewrite Hm in E2. injection E2 as <-.
    rewrite Hd' in E3. injection E3 as <-.
    apply AnnData_inv in E as (_ & Hno' & _). contradiction.
Qed.

(** ** Transpose *)


Lemma reshaped_class a : a_class (reshaped a) = a_class a.
Proof. unfold reshaped. now destruct (length (a_shape a) =? 1). Qed.


(** X7. What [mat.T] holds, for a well-formed [mat] of shape [(r, c)]
    whose row table has no field [var_names] and whose column table none
    [smp_names]: its shape is [(c, r)], its element [(j, i)] is element
    [(i, j)] of [mat], its row table has the fields and columns of
    [mat.var] with [var_names] renamed to [smp_names], its column table
    those of [mat.smp] with [smp_names] renamed to [var_names], and [vis]
    and [_meta] have the entries of [mat]'s. *)
Theorem transpose_elementwise h self C r c :
  well_formed h self C -> c_shape C = [r; c] ->
  VAR_NAMES ∉ fst (c_smp C) -> SMP_NAMES ∉ fst (c_var C) ->
  ∃ T hT CT,
    transpose self h = (inr T, hT) ∧ result (content_of T) hT = inr CT ∧
    c_shape CT = [c; r] ∧ length (c_values CT) = c * r ∧
    (∀ i j, i < r -> j < c ->
       nth (j * r + i) (c_values CT) junk = nth (i * c + j) (c_values C) junk) ∧
    c_smp CT = (rename VAR_NAMES SMP_NAMES (fst (c_var C)), snd (c_var C)) ∧
    c_var CT = (rename SMP_NAMES VAR_NAMES (fst (c_smp C)), snd (c_smp C)) ∧
    c_vis CT = c_vis C ∧ c_meta CT = c_meta C.
Proof.
  intros Hwf Hsh Hs Hv.
  destruct (transpose_spec h self C Hwf Hs Hv) as (T & hT & E & HwfT & _).
  exists T, hT, (transpose_content C).
  split; [exact E|]. split; [now apply content_of_run|].
  unfold transpose_content. cbn [c_shape c_values c_smp c_var c_vis c_meta].
  rewrite Hsh. split; [reflexivity|]. split; [apply permute_length|].
  split; [|repeat split].
  intros i j Hi Hj. rewrite permute_rank2.
  now rewrite (flat_map_rows_nth (fun i j => nth (j * c + i) (c_values C) junk) junk r c 0).
Qed.

(** ** The constructor *)

Lemma classify_cases c s_type :
  classify c = Some s_type ->
  s_type = (if isinstance c C_ndarray then Array else Sparse) ∧ s_type ≠ Masked.
Proof. destruct c; vm_compute; intros [= <-]; split; congruence. Qed.

(** X8. Whenever the constructor returns, the member it recorded as
    [storage_type] is [Array] if [X] is an instance of [np.ndarray] (a
    masked array is one) and [Sparse] otherwise; it is never [Masked]. *)
Theorem storage_type_is_Array_or_Sparse X smp var vis meta h self h' :
  AnnData X smp var vis meta h = (inr self, h') ->
  ∃ a ad, h_arrays h !! X = Some a ∧ h_anndata h' !! self = Some ad ∧
    ad_storage_type ad
    = Some (if isinstance (a_class a) C_ndarray then Array else Sparse) ∧
    ad_storage_type ad ≠ Some Masked.
Proof.
  intros H.
  apply AnnData_returns in H
    as (a0 & s_type & ns & ts & nv & tv & extra & l & -> & _ & Ha0 & Hcl & _ & _
        & _ & _ & _ & _ & _ & Had).
  apply classify_cases in Hcl as [Hs Hne].
  exists a0. eexists. split; [exact Ha0|].
  split; [rewrite Had; apply lookup_snoc|].
  cbn [ad_storage_type]. split; congruence.
Qed.

Lemma AnnData_call X smp var vis meta h :
  no_parameter_key meta ->
  AnnData X smp var vis meta h
  = (AnnData_init (length (h_anndata h)) X smp var vis (length (h_dicts h)) ;;;
     ret (length (h_anndata h))) (at_call meta h).
Proof. unfold AnnData, no_parameter_key. now intros ->. Qed.

(** X9. An [X] whose class derives neither from [np.ndarray] nor from
    [sp.spmatrix] is refused with the error that names the three classes
    of [StorageType], before the metadata is looked at: the outcome is the
    same for every [smp], [var] and [vis], and no array, element or table
    is touched. *)
Theorem unsupported_class_is_refused X smp var vis meta h a :
  h_arrays h !! X = Some a -> classify (a_class a) = None ->
  no_parameter_key meta ->
  AnnData X smp var vis meta h
  = (inl (ValueError_data_type (a_class a) "ndarray, MaskedArray, spmatrix"),
     at_call meta h).
Proof.
  intros Ha Hcl Hm. rewrite AnnData_call by assumption.
  assert (Ha' : h_arrays (at_call meta h) !! X = Some a) by exact Ha.
  apply bind_inl. unfold AnnData_init, get_array.
  rewrite (bind_inr _ _ _ _ _ (deref_Some h_arrays _ _ _ Ha')).
  fold (classify (a_class a)). now rewrite Hcl.
Qed.

(** *** What the constructor does to arrays, whatever its outcome *)

Lemma keeps_reads {A} (m : M A) : reads m -> keeps_arrays m.
Proof. intros Hm h r h' E. now apply Hm in E as ->. Qed.

Lemma keeps_bind {A B} (m : M A) (k : A -> M B) :
  keeps_arrays m -> (∀ a, keeps_arrays (k a)) -> keeps_arrays (bind m k).
Proof.
  intros Hm Hk h r h'. unfold bind.
  destruct (m h) as [[e|a] h1] eqn:E; apply Hm in E as [E1 E2].
  - intros [= _ <-]. auto.
  - intros E. apply Hk in E as [-> ->]. auto.
Qed.

Lemma keeps_ret {A} (a : A) : keeps_arrays (ret a).
Proof. apply keeps_reads, reads_ret. Qed.

Lemma keeps_raise {A} e : keeps_arrays (@raise A e).
Proof. apply keeps_reads, reads_raise. Qed.

Lemma keeps_deref {A} (store : heap -> list A) l : keeps_arrays (deref store l).
Proof. apply keeps_reads, reads_deref. Qed.

Lemma keeps_of_option {A} e (o : option A) : keeps_arrays (of_option e o).
Proof. apply keeps_reads, reads_of_option. Qed.

Lemma keeps_lift {A} (r : exn + A) : keeps_arrays (lift r).
Proof. apply keeps_reads, reads_lift. Qed.

Lemma keeps_update_anndata self f : keeps_arrays (update_anndata self f).
Proof.
  unfold update_anndata, get_anndata. apply keeps_bind; [apply keeps_deref|].
  intros ad h r h'. unfold set_anndata. intros [= _ <-]. auto.
Qed.

Lemma keeps_ndarray_setfield t key value : keeps_arrays (ndarray_setfield t key value).
Proof.
  unfold ndarray_setfield, get_table, get_dtype.
  apply keeps_bind; [apply keeps_deref|intros tb].
  apply keeps_bind; [apply keeps_deref|intros names].
  destruct (index_of key names); [|apply keeps_raise].
  apply keeps_bind; [apply keeps_lift|intros col].
  intros h r h'. unfold set_table. intros [= _ <-]. auto.
Qed.

Lemma keeps_fill_fields arr parent fields : keeps_arrays (fill_fields arr parent fields).
Proof.
  induction fields as [|[name col] fields IH]; cbn [fill_fields]; [apply keeps_ret|].
  apply keeps_bind; [|intros _; exact IH].
  unfold fill_field. apply keeps_bind; [apply keeps_reads, reads_truth|intros _].
  apply keeps_ndarray_setfield.
Qed.

Lemma keeps_BoundRecArr_new src nr_row name_col parent :
  keeps_arrays (BoundRecArr_new src nr_row name_col parent).
Proof.
  unfold BoundRecArr_new. apply keeps_bind.
  - destruct src as [|t|d|c].
    + apply keeps_ret.
    + unfold get_table, get_dtype.
      apply keeps_bind; [apply keeps_deref|intros tb].
      apply keeps_bind; [apply keeps_deref|intros names].
      apply keeps_bind; [apply keeps_lift|intros cols]. apply keeps_ret.
    + destruct (bool_decide (NoDup _)); [apply keeps_ret|apply keeps_raise].
    + apply keeps_raise.
  - intros nc. destruct (snd nc) as [|col0 cols]; [apply keeps_raise|].
    apply keeps_bind; [intros h r h'; unfold alloc_dtype; intros [= _ <-]; auto|].
    intros d.
    apply keeps_bind; [intros h r h'; unfold alloc_table; intros [= _ <-]; auto|].
    intros arr. apply keeps_bind; [apply keeps_fill_fields|intros _; apply keeps_ret].
Qed.

Lemma keeps__check_dimensions data smp var : keeps_arrays (_check_dimensions data smp var).
Proof.
  unfold _check_dimensions, get_array, get_table.
  apply keeps_bind; [apply keeps_deref|intros a].
  destruct (a_shape a) as [|n [|m [|]]]; try apply keeps_raise.
  apply keeps_bind; [apply keeps_deref|intros ts].
  destruct (negb _); [apply keeps_raise|].
  apply keeps_bind; [apply keeps_deref|intros tv].
  destruct (negb _); [apply keeps_raise|apply keeps_ret].
Qed.

Lemma keeps_or_empty_dict vis : keeps_arrays (or_empty_dict vis).
Proof.
  assert (Ha : ∀ d, keeps_arrays (alloc_dict d))
    by (intros d h r h'; unfold alloc_dict; intros [= _ <-]; auto).
  destruct vis as [v|]; cbn [or_empty_dict]; [|apply Ha].
  unfold get_dict. apply keeps_bind; [apply keeps_deref|intros d].
  destruct (bool_decide _); [apply Ha|apply keeps_ret].
Qed.

(** X10. The reshaping of a one-dimensional [X] is not undone when the
    constructor fails later: for an [X] of an accepted class, whether the
    call returns or raises (a source of the wrong type, a table of the wrong
    length, ...), the arrays are as before the call except that [X] has
    shape [(L, 1)] instead of [(L,)], and no element has changed. *)
Theorem constructor_reshapes_even_when_it_raises X smp var vis meta h a r h' :
  h_arrays h !! X = Some a -> classify (a_class a) ≠ None ->
  no_parameter_key meta ->
  AnnData X smp var vis meta h = (r, h') ->
  h_mem h' = h_mem h ∧ h_arrays h' = <[X := reshaped a]> (h_arrays h).
Proof.
  intros Ha Hcl Hm H. rewrite AnnData_call in H by assumption.
  destruct (classify (a_class a)) as [s_type|] eqn:Ecl; [clear Hcl|congruence].
  set (self := length (h_anndata h)) in *.
  set (m := length (h_dicts h)) in *.
  assert (Hself : h_anndata (at_call meta h) !! self = Some fresh_instance)
    by (unfold at_call; hsimpl; apply lookup_snoc).
  assert (Ha' : h_arrays (at_call meta h) !! X = Some a) by exact Ha.
  unfold AnnData_init, get_array in H.
  rewrite bind_assoc in H.
  rewrite (bind_inr _ _ _ _ _ (deref_Some h_arrays _ _ _ Ha')) in H.
  fold (classify (a_class a)) in H. rewrite Ecl in H.
  rewrite bind_assoc in H.
  rewrite (bind_inr _ _ _ _ _ (update_anndata_run _ _ _ _ Hself)) in H.
  set (h0 := with_anndata _ (at_call meta h)) in H.
  rewrite bind_assoc in H.
  assert (E1 : (if length (a_shape a) =? 1
                then set_array X {| a_class := a_class a;
                                    a_shape := [hd 0 (a_shape a); 1];
                                    a_structured := a_structured a;
                                    a_cells := a_cells a |}
                else ret tt) h0
               = (inr tt, with_arrays (fun s => <[X := reshaped a]> s) h0)).
  { unfold reshaped. destruct (length (a_shape a) =? 1); [reflexivity|].
    unfold ret. f_equal. symmetry. now apply with_arrays_insert_id. }
  rewrite (bind_inr _ _ _ _ _ E1) in H.
  match type of H with
  | ?m _ = _ => assert (K : keeps_arrays m)
  end.
  { apply keeps_bind; [|intros _; apply keeps_ret].
    apply keeps_bind; [apply keeps_deref|intros a1].
    destruct (negb (a_structured a1) && negb (length (a_shape a1) =? 2));
      [apply keeps_raise|].
    destruct (a_shape a1) as [|nr_smp [|nr_var [|]]]; try apply keeps_raise.
    apply keeps_bind; [apply keeps_update_anndata|intros _].
    apply keeps_bind; [apply keeps_BoundRecArr_new|intros smp_t].
    apply keeps_bind; [apply keeps_update_anndata|intros _].
    apply keeps_bind; [apply keeps_BoundRecArr_new|intros var_t].
    apply keeps_bind; [apply keeps_update_anndata|intros _].
    apply keeps_bind; [apply keeps_deref|intros ad].
    apply keeps_bind; [apply keeps_of_option|intros s].
    apply keeps_bind; [apply keeps_of_option|intros v].
    apply keeps_bind; [apply keeps__check_dimensions|intros _].
    apply keeps_bind; [apply keeps_or_empty_dict|intros vis'].
    apply keeps_bind; apply keeps_update_anndata || (intros _; apply keeps_update_anndata). }
  apply K in H as [-> ->]. split; reflexivity.
Qed.

(** *** Tables of the wrong length *)

(** [__init__] up to the point where the row table is built. *)
Lemma AnnData_init_to_smp self X smp var vis meta h ad0 a0 s_type r c :
  h_anndata h !! self = Some ad0 ->
  h_arrays h !! X = Some a0 -> classify (a_class a0) = Some s_type ->
  a_shape (reshaped a0) = [r; c] ->
  let h2 := with_anndata (fun s => <[self := set_X X (set_storage_type s_type ad0)]> s)
              (with_arrays (fun s => <[X := reshaped a0]> s) h) in
  truth_defined (Some self) h2 ∧
  AnnData_init self X smp var vis meta h
  = (let* smp_t := BoundRecArr_new smp r SMP_NAMES (Some self) in
     update_anndata self (set_smp smp_t) ;;;
     let* var_t := BoundRecArr_new var c VAR_NAMES (Some self) in
     update_anndata self (set_var var_t) ;;;
     let* ad := get_anndata self in
     let* s := of_option (AttributeError "smp") (ad_smp ad) in
     let* v := of_option (AttributeError "var") (ad_var ad) in
     _check_dimensions X s v ;;;
     let* vis' := or_empty_dict vis in
     update_anndata self (set_vis vis') ;;;
     update_anndata self (set_meta meta)) h2.
Proof.
  intros Had Ha Hcl Hsh h2.
  assert (HX : X < length (h_arrays h)) by (eapply lookup_lt_Some; eauto).
  assert (Hself : self < length (h_anndata h)) by (eapply lookup_lt_Some; eauto).
  split.
  { simpl. exists (set_X X (set_storage_type s_type ad0)), X, (reshaped a0), r, [c].
    unfold h2. hsimpl. rewrite !list_lookup_insert_eq by assumption. auto. }
  unfold AnnData_init, get_array.
  rewrite (bind_inr _ _ _ _ _ (deref_Some h_arrays _ _ _ Ha)).
  fold (classify (a_class a0)). rewrite Hcl.
  erewrite bind_inr; [|apply update_anndata_run; exact Had].
  set (h1 := with_arrays (fun s => <[X := reshaped a0]> s)
               (with_anndata (fun s => <[self := set_storage_type s_type ad0]> s) h)).
  erewrite (bind_inr _ _ _ _ h1).
  2:{ unfold h1, reshaped. destruct (length (a_shape a0) =? 1); [reflexivity|].
      unfold ret. f_equal. symmetry. now apply with_arrays_insert_id. }
  assert (Ha1 : h_arrays h1 !! X = Some (reshaped a0))
    by (unfold h1; hsimpl; now apply list_lookup_insert_eq).
  rewrite (bind_inr _ _ _ _ _ (deref_Some h_arrays _ _ _ Ha1)).
  rewrite Hsh. cbn [length Nat.eqb negb andb].
  rewrite Bool.andb_false_r.
  erewrite bind_inr.
  2:{ apply update_anndata_run. unfold h1. hsimpl.
      now apply list_lookup_insert_eq. }
  f_equal. unfold h2, h1. apply heap_eq; hsimpl; try reflexivity.
  now rewrite list_insert_insert_eq.
Qed.

(** When both tables can be built, with [n] and [m] rows, the outcome is
    that of [_check_dimensions]. *)
Lemma AnnData_init_mismatch self X smp var vis meta h ad0 a0 s_type r c n m ns cs nv cv :
  h_anndata h !! self = Some ad0 ->
  h_arrays h !! X = Some a0 -> classify (a_class a0) = Some s_type ->
  a_shape (reshaped a0) = [r; c] ->
  source_fields h smp r SMP_NAMES = Some (ns, cs) -> regular ns cs n ->
  source_fields h var c VAR_NAMES = Some (nv, cv) -> regular nv cv m ->
  n ≠ r ∨ m ≠ c ->
  ∃ h', AnnData_init self X smp var vis meta h
        = (inl (if bool_decide (n = r) then ValueError_var_rows c m
                else ValueError_smp_rows r n), h').
Proof.
  intros Had Ha Hcl Hsh Hs Hrs Hv Hrv Hne.
  assert (HX : X < length (h_arrays h)) by (eapply lookup_lt_Some; eauto).
  assert (Hself : self < length (h_anndata h)) by (eapply lookup_lt_Some; eauto).
  destruct (AnnData_init_to_smp self X smp var vis meta h ad0 a0 s_type r c
              Had Ha Hcl Hsh) as [Htr0 ->].
  set (h2 := with_anndata _ (with_arrays _ h)) in *.
  assert (Htr : ∀ h3, h_arrays h3 = h_arrays h2 ->
            (∃ ad, h_anndata h3 !! self = Some ad ∧ ad_X ad = Some X) ->
            truth_defined (Some self) h3).
  { intros h3 E1 (ad & E2 & E3). simpl. exists ad, X, (reshaped a0), r, [c].
    rewrite E1. unfold h2. hsimpl. rewrite list_lookup_insert_eq by assumption. auto. }
  eexists.
  erewrite bind_inr.
  2:{ eapply BoundRecArr_new_run with (names := ns) (cols := cs) (n := n).
      - eapply (source_fields_ext h _ _ _ _ _ [] []); [| |exact Hs];
          unfold h2; hsimpl; now rewrite app_nil_r.
      - assumption.
      - assumption. }
  set (h3 := add_table ns _ h2).
  erewrite bind_inr.
  2:{ apply update_anndata_run. unfold h3, add_table, h2. hsimpl.
      now apply list_lookup_insert_eq. }
  set (h4 := with_anndata _ h3).
  erewrite bind_inr.
  2:{ eapply BoundRecArr_new_run with (names := nv) (cols := cv) (n := m).
      - eapply (source_fields_ext h _ _ _ _ _ [_] [_]); [| |exact Hv];
          unfold h4, h3, add_table, h2; hsimpl; reflexivity.
      - assumption.
      - apply Htr; [reflexivity|]. unfold h4, h3, add_table, h2. hsimpl.
        rewrite list_lookup_insert_eq by (now rewrite !length_insert). eauto. }
  set (h5 := add_table nv _ h4).
  erewrite bind_inr.
  2:{ apply update_anndata_run. unfold h5, add_table, h4, h3, add_table, h2.
      hsimpl. apply list_lookup_insert_eq. now rewrite !length_insert. }
  set (h6 := with_anndata _ h5).
  unfold get_anndata.
  erewrite bind_inr.
  2:{ apply deref_Some. unfold h6, h5, add_table, h4, h3, add_table, h2.
      hsimpl. apply list_lookup_insert_eq. now rewrite !length_insert. }
  cbn [set_var set_smp set_X set_storage_type ad_smp ad_var of_option].
  rewrite (bind_inr _ _ _ _ _ (ret_run _ _)).
  rewrite (bind_inr _ _ _ _ _ (ret_run _ _)).
  apply bind_inl.
  unfold _check_dimensions, get_array, get_table, bind, deref.
  replace (h_arrays h6 !! X) with (Some (reshaped a0)).
  2:{ unfold h6, h5, add_table, h4, h3, add_table, h2. hsimpl.
      symmetry. now apply list_lookup_insert_eq. }
  cbv beta iota. rewrite Hsh.
  replace (h_tables h6 !! length (h_tables h2))
    with (Some (new_table h2 cs n (Some self) SMP_NAMES)).
  2:{ unfold h6, h5, add_table, h4, h3, add_table. hsimpl.
      rewrite lookup_app_l by (rewrite length_app; simpl; lia).
      now rewrite lookup_snoc. }
  cbv beta iota. cbn [new_table t_len].
  case_bool_decide as Hn.
  - subst n. rewrite Nat.eqb_refl. cbn [negb].
    replace (h_tables h6 !! length (h_tables h4))
      with (Some (new_table h4 cv m (Some self) VAR_NAMES)).
    2:{ unfold h6, h5, add_table. hsimpl. now rewrite lookup_snoc. }
    cbv beta iota. cbn [new_table t_len].
    destruct (Nat.eqb_spec m c) as [->|_]; [destruct Hne; congruence|].
    reflexivity.
  - destruct (Nat.eqb_spec n r) as [->|_]; [congruence|]. reflexivity.
Qed.

(** X11. A metadata table that can be built but has the wrong number of
    rows is refused by [_check_dimensions]: a row table with [n] rows for a
    storage with [r ≠ n] rows raises the error for sample metadata, which
    quotes [r] and [n]; a column table with [m ≠ c] rows raises the one for
    feature metadata, and only if the row table was right.  This covers a
    record array and a mapping that brings its own identity column. *)
Theorem table_of_wrong_length_is_refused X smp var vis meta h a0 r c n m ns cs nv cv :
  no_parameter_key meta ->
  h_arrays h !! X = Some a0 -> classify (a_class a0) ≠ None ->
  a_shape (reshaped a0) = [r; c] ->
  source_fields h smp r SMP_NAMES = Some (ns, cs) -> regular ns cs n ->
  source_fields h var c VAR_NAMES = Some (nv, cv) -> regular nv cv m ->
  (n ≠ r -> ∃ h', AnnData X smp var vis meta h = (inl (ValueError_smp_rows r n), h')) ∧
  (n = r -> m ≠ c ->
   ∃ h', AnnData X smp var vis meta h = (inl (ValueError_var_rows c m), h')).
Proof.
  intros Hm Ha Hcl Hsh Hs Hrs Hv Hrv.
  destruct (classify (a_class a0)) as [s_type|] eqn:Ecl; [clear Hcl|congruence].
  assert (Hself : h_anndata (at_call meta h) !! length (h_anndata h) = Some fresh_instance)
    by (unfold at_call; hsimpl; apply lookup_snoc).
  assert (Hgen : n ≠ r ∨ m ≠ c ->
    ∃ h', AnnData X smp var vis meta h
          = (inl (if bool_decide (n = r) then ValueError_var_rows c m
                  else ValueError_smp_rows r n), h')).
  { intros Hne. rewrite AnnData_call by assumption.
    destruct (AnnData_init_mismatch (length (h_anndata h)) X smp var vis
                (length (h_dicts h)) (at_call meta h) fresh_instance a0 s_type
                r c n m ns cs nv cv Hself Ha Ecl Hsh Hs Hrs Hv Hrv Hne) as [h' E].
    exists h'. now apply bind_inl. }
  split.
  - intros Hn. destruct Hgen as [h' E]; [now left|].
    rewrite bool_decide_eq_false_2 in E by assumption. eauto.
  - intros Hn Hc. destruct Hgen as [h' E]; [now right|].
    rewrite bool_decide_eq_true_2 in E by assumption. eauto.
Qed.

(** *** A mapping of the wrong length *)

Lemma combine_snoc {A B} (l : list A) (l' : list B) x y :
  length l = length l' -> combine (l ++ [x]) (l' ++ [y]) = combine l l' ++ [(x, y)].
Proof.
  revert l'. induction l as [|a l IH]; intros [|b l'] Hl; try discriminate; simpl.
  - reflexivity.
  - f_equal. apply IH. simpl in Hl. lia.
Qed.

Lemma fill_fields_app arr parent l1 l2 h :
  fill_fields arr parent (l1 ++ l2) h
  = (fill_fields arr parent l1 ;;; fill_fields arr parent l2) h.
Proof.
  revert h. induction l1 as [|[name col] l1 IH]; intros h; cbn [fill_fields app].
  - reflexivity.
  - rewrite bind_assoc. unfold bind.
    destruct (fill_field arr parent name col h) as [[e|u] h1]; [reflexivity|].
    exact (IH h1).
Qed.

(** Filling the first fields of a table, those after them still to come. *)
Lemma fill_fields_prefix arr parent d n attrs names rest_n rest_old :
  ∀ post_n post_c pre_n pre_c old h,
  names = pre_n ++ post_n ++ rest_n -> NoDup names ->
  length pre_n = length pre_c -> length post_n = length post_c ->
  length old = length post_n ->
  Forall (fun c => length c = n) post_c ->
  h_tables h !! arr
    = Some {| t_dtype := d; t_len := n; t_cols := pre_c ++ old ++ rest_old;
              t_attrs := attrs |} ->
  h_dtypes h !! d = Some names ->
  truth_defined parent h ->
  fill_fields arr parent (combine post_n post_c) h
  = (inr tt,
     with_tables (fun s => <[arr := {| t_dtype := d; t_len := n;
                                       t_cols := pre_c ++ post_c ++ rest_old;
                                       t_attrs := attrs |}]> s) h).
Proof.
  induction post_n as [|name post_n IH];
    intros [|col post_c] pre_n pre_c [|o old] h Hn Hnd Hp Hl Ho Hf Ht Hd Htr;
    try discriminate; cbn [combine fill_fields app].
  - unfold ret. f_equal. symmetry. now apply with_tables_insert_id.
  - destruct (truth_run _ _ Htr) as [b Hb].
    unfold fill_field. rewrite bind_assoc.
    rewrite (bind_inr _ _ _ _ _ Hb).
    assert (Hi : index_of name names = Some (length pre_n)).
    { rewrite Hn. apply index_of_middle. rewrite Hn in Hnd.
      apply NoDup_app in Hnd as (_ & Hdis & _). intros Hin.
      apply (Hdis _ Hin). left. }
    inversion Hf as [|? ? Hc Hf']; subst.
    erewrite bind_inr; [|eapply ndarray_setfield_run; eauto].
    cbn [t_cols set_cols t_dtype t_len t_attrs].
    rewrite Hp.
    replace (length pre_c) with (length pre_c + 0) by lia.
    rewrite insert_app_r. cbn [list_insert insert app].
    erewrite (IH post_c (pre_n ++ [name]) (pre_c ++ [col]) old).
    + rewrite with_tables_insert_insert. now rewrite <- app_assoc.
    + now rewrite <- app_assoc.
    + assumption.
    + rewrite !length_app; simpl; lia.
    + simpl in Hl; lia.
    + simpl in Ho; lia.
    + assumption.
    + hsimpl. rewrite list_lookup_insert_eq by (eapply lookup_lt_Some, Ht).
      now rewrite <- app_assoc.
    + hsimpl. assumption.
    + eapply truth_defined_ext; [| |exact Htr]; reflexivity.
Qed.

Lemma length_arange n : length (arange n) = n.
Proof. unfold arange. now rewrite length_map, length_seq. Qed.

(** A mapping without the identity column whose columns have [n] entries
    each, for a table that is to have [nr_row] rows: the identity column
    [arange(nr_row)] does not fit the [n] rows made for the first column. *)
Lemma BoundRecArr_new_mapping_broadcast d nr_row name_col parent h n :
  regular (map fst d) (map snd d) n -> name_col ∉ map fst d ->
  nr_row ≠ n -> nr_row ≠ 1 -> truth_defined parent h ->
  ∃ h', BoundRecArr_new (Src_Mapping d) nr_row name_col parent h
        = (inl (ValueError_broadcast nr_row n), h').
Proof.
  intros (Hnd & Hne & Hl & Hf) Hnc Hrn Hr1 Htr.
  set (keys := map fst d) in *. set (cols := map snd d) in *.
  assert (Hnd' : NoDup (keys ++ [name_col])).
  { apply NoDup_app. split; [assumption|]. split; [|apply NoDup_singleton].
    intros x Hx Hx'. apply list_elem_of_singleton in Hx'. now subst. }
  unfold BoundRecArr_new. fold keys cols. cbv zeta.
  rewrite (bool_decide_eq_false_2 _ Hnc). cbn [fst snd].
  rewrite (bool_decide_eq_true_2 _ Hnd').
  rewrite (bind_inr _ _ _ _ _ (ret_run _ _)). cbn [fst snd].
  assert (Ecols : ∃ col0 cols', cols = col0 :: cols' ∧ length col0 = n).
  { destruct cols as [|col0 cols']; [destruct keys; [congruence|discriminate]|].
    exists col0, cols'. split; [reflexivity|]. now inversion Hf. }
  destruct Ecols as (col0 & cols' & Ecols & Hn).
  assert (Ematch : cols ++ [arange nr_row] = col0 :: (cols' ++ [arange nr_row]))
    by now rewrite Ecols.
  rewrite Ematch. cbv iota. rewrite <- Ematch. clear Ematch.
  unfold alloc_dtype, alloc_table.
  erewrite bind_inr; [|reflexivity]. erewrite bind_inr; [|reflexivity].
  hsimpl. rewrite combine_snoc by assumption.
  rewrite Hn, length_app, Nat.add_1_r.
  replace (replicate (S (length keys)) (replicate n junk))
    with (replicate (length keys) (replicate n junk) ++ [replicate n junk])
    by (now rewrite replicate_S_end).
  set (h0 := with_tables _ (with_dtypes _ h)).
  set (arr := length (h_tables h)).
  assert (Htr0 : truth_defined parent h0)
    by (eapply truth_defined_ext; [| |exact Htr]; reflexivity).
  eexists. apply bind_inl. rewrite fill_fields_app.
  erewrite bind_inr.
  2:{ eapply (fill_fields_prefix arr parent (length (h_dtypes h)) n _
                (keys ++ [name_col]) [name_col] [replicate n junk]
                keys cols [] []).
      - reflexivity.
      - assumption.
      - reflexivity.
      - assumption.
      - apply length_replicate.
      - assumption.
      - unfold h0, arr. hsimpl. rewrite lookup_snoc. reflexivity.
      - unfold h0. hsimpl. apply lookup_snoc.
      - assumption. }
  cbn [app fill_fields]. apply bind_inl.
  set (h1 := with_tables _ h0).
  assert (Htr1 : truth_defined parent h1)
    by (eapply truth_defined_ext; [| |exact Htr0]; reflexivity).
  destruct (truth_run _ _ Htr1) as [b Hb].
  unfold fill_field. rewrite (bind_inr _ _ _ _ _ Hb).
  unfold ndarray_setfield, get_table, get_dtype.
  erewrite bind_inr.
  2:{ apply deref_Some. unfold h1, h0, arr. hsimpl.
      apply list_lookup_insert_eq. rewrite length_app. simpl. lia. }
  cbn [t_dtype t_len t_cols].
  erewrite bind_inr.
  2:{ apply deref_Some. unfold h1, h0. hsimpl. apply lookup_snoc. }
  rewrite index_of_middle by assumption.
  apply bind_inl. unfold broadcast_col. rewrite length_arange.
  destruct (Nat.eqb_spec nr_row n) as [|_]; [congruence|].
  destruct (Nat.eqb_spec nr_row 1) as [|_]; [congruence|]. reflexivity.
Qed.

(** X12. A mapping without the identity column whose columns all have [n]
    entries, given as row metadata for a storage with [r] rows, [r]
    different from [n] and from 1, is not refused by [_check_dimensions]
    but earlier, by numpy: the table is made with [n] rows and the identity
    column [arange(r)] cannot be broadcast into it. *)
Theorem mapping_of_wrong_length_is_a_broadcast_error X d var vis meta h a0 r c n :
  no_parameter_key meta ->
  h_arrays h !! X = Some a0 -> classify (a_class a0) ≠ None ->
  a_shape (reshaped a0) = [r; c] ->
  regular (map fst d) (map snd d) n -> SMP_NAMES ∉ map fst d ->
  r ≠ n -> r ≠ 1 ->
  ∃ h', AnnData X (Src_Mapping d) var vis meta h = (inl (ValueError_broadcast r n), h').
Proof.
  intros Hm Ha Hcl Hsh Hreg Hnc Hrn Hr1.
  destruct (classify (a_class a0)) as [s_type|] eqn:Ecl; [clear Hcl|congruence].
  assert (Hself : h_anndata (at_call meta h) !! length (h_anndata h) = Some fresh_instance)
    by (unfold at_call; hsimpl; apply lookup_snoc).
  assert (Ha' : h_arrays (at_call meta h) !! X = Some a0) by exact Ha.
  rewrite AnnData_call by assumption.
  destruct (AnnData_init_to_smp (length (h_anndata h)) X (Src_Mapping d) var vis
              (length (h_dicts h)) (at_call meta h) fresh_instance a0 s_type r c
              Hself Ha' Ecl Hsh) as [Htr E].
  destruct (BoundRecArr_new_mapping_broadcast d r SMP_NAMES _ _ n Hreg Hnc Hrn Hr1 Htr)
    as [h' E'].
  exists h'. apply bind_inl. rewrite E. now apply bind_inl.
Qed.

(** *** What a new instance holds *)

Lemma columns_run t h tb names parent name_col :
  h_tables h !! t = Some tb -> h_dtypes h !! t_dtype tb = Some names ->
  t_attrs tb = Some (parent, name_col) ->
  columns t h = (inr (filter (fun c => negb (bool_decide (c = name_col))) names), h).
Proof.
  intros Ht Hd Hattrs. unfold columns, get_table, get_dtype.
  rewrite (bind_inr _ _ _ _ _ (deref_Some h_tables _ _ _ Ht)).
  rewrite (bind_inr _ _ _ _ _ (deref_Some h_dtypes _ _ _ Hd)).
  rewrite Hattrs. reflexivity.
Qed.

(** The tables of an instance the constructor returned, when the fields
    its sources give are regular. *)
Lemma AnnData_tables X smp var vis meta h a0 r c ns cs nv cv self h' :
  AnnData X smp var vis meta h = (inr self, h') ->
  h_arrays h !! X = Some a0 -> a_shape (reshaped a0) = [r; c] ->
  source_fields h smp r SMP_NAMES = Some (ns, cs) -> regular ns cs r ->
  source_fields h var c VAR_NAMES = Some (nv, cv) -> regular nv cv c ->
  result (let* t := smp_of self in table_content t) h' = inr (ns, cs) ∧
  result (let* t := var_of self in table_content t) h' = inr (nv, cv) ∧
  result (let* t := smp_of self in columns t) h'
  = inr (filter (fun c => negb (bool_decide (c = SMP_NAMES))) ns) ∧
  result (let* t := var_of self in columns t) h'
  = inr (filter (fun c => negb (bool_decide (c = VAR_NAMES))) nv).
Proof.
  intros H Ha Hsh Hs Hrs Hv Hrv. pose proof H as H'.
  apply AnnData_returns in H'
    as (a0' & s_type & ns' & ts & nv' & tv & extra & l & -> & Hm & Ha0 & Hcl & _ & Hvis
        & _ & _ & _ & _ & _ & _).
  rewrite Ha in Ha0. injection Ha0 as <-.
  rewrite (AnnData_run X smp var vis meta h a0 s_type r c ns cs nv cv extra l
             Hm Ha Hcl Hsh Hs Hrs Hv Hrv Hvis) in H.
  injection H as <-.
  set (self := length (h_anndata h)).
  assert (Had : h_anndata
                  (initialised self X s_type a0 ns
                     (new_table h cs r (Some self) SMP_NAMES) nv
                     (new_table (with_dtypes (fun s => s ++ [ns]) h) cv c (Some self)
                        VAR_NAMES) extra l (length (h_dicts h)) (at_call meta h))
                !! self
                = Some {| ad_storage_type := Some s_type; ad_X := Some X;
                          ad_smp := Some (length (h_tables h));
                          ad_var := Some (S (length (h_tables h)));
                          ad_vis := Some l;
                          ad_meta := Some (length (h_dicts h)) |}).
  { unfold initialised, add_table, at_call. hsimpl.
    apply list_lookup_insert_eq. rewrite length_app. simpl. unfold self. lia. }
  set (hf := initialised _ _ _ _ _ _ _ _ _ _ _ _) in *.
  assert (Hts : h_tables hf !! length (h_tables h)
                = Some (new_table h cs r (Some self) SMP_NAMES)).
  { unfold hf, initialised, add_table, at_call. hsimpl.
    apply lookup_app_l_Some. apply lookup_snoc. }
  assert (Htv : h_tables hf !! S (length (h_tables h))
                = Some (new_table (with_dtypes (fun s => s ++ [ns]) h) cv c (Some self)
                          VAR_NAMES)).
  { unfold hf, initialised, add_table, at_call. hsimpl.
    replace (S (length (h_tables h)))
      with (length (h_tables h ++ [new_table h cs r (Some self) SMP_NAMES]))
      by (rewrite length_app; simpl; lia).
    apply lookup_snoc. }
  assert (Hds : h_dtypes hf !! length (h_dtypes h) = Some ns).
  { unfold hf, initialised, add_table, at_call. hsimpl.
    apply lookup_app_l_Some. apply lookup_snoc. }
  assert (Hdv : h_dtypes hf !! length (h_dtypes h ++ [ns]) = Some nv).
  { unfold hf, initialised, add_table, at_call. hsimpl. apply lookup_snoc. }
  unfold result, smp_of, var_of. repeat split.
  - rewrite (bind_inr _ _ _ _ _ (attr_run ad_smp _ _ _ _ _ Had eq_refl)).
    now rewrite (table_content_run _ _ _ _ Hts Hds).
  - rewrite (bind_inr _ _ _ _ _ (attr_run ad_var _ _ _ _ _ Had eq_refl)).
    now rewrite (table_content_run _ _ _ _ Htv Hdv).
  - rewrite (bind_inr _ _ _ _ _ (attr_run ad_smp _ _ _ _ _ Had eq_refl)).
    now rewrite (columns_run _ _ _ _ _ _ Hts Hds eq_refl).
  - rewrite (bind_inr _ _ _ _ _ (attr_run ad_var _ _ _ _ _ Had eq_refl)).
    now rewrite (columns_run _ _ _ _ _ _ Htv Hdv eq_refl).
Qed.

(** X13. What the constructor stores, for sources whose fields are
    regular with one entry per row (column) of [X]: the instance holds the
    shape and the values of [X], a row table with exactly the fields and
    columns the source gives ([arange] under the identity name for [None];
    the fields of a record array as they are; the columns of a mapping in
    key order, with the identity column added after them when the mapping
    has none), the same for the column table, the entries of [vis], and
    the keyword arguments as [_meta]. *)
Theorem constructor_holds_its_arguments X smp var vis meta h a0 r c ns cs nv cv dv :
  no_parameter_key meta ->
  h_arrays h !! X = Some a0 -> classify (a_class a0) ≠ None ->
  a_shape (reshaped a0) = [r; c] -> length (a_cells a0) = r * c ->
  source_fields h smp r SMP_NAMES = Some (ns, cs) -> regular ns cs r ->
  source_fields h var c VAR_NAMES = Some (nv, cv) -> regular nv cv c ->
  match vis with None => dv = ∅ | Some l => h_dicts h !! l = Some dv end ->
  ∃ self h',
    AnnData X smp var vis meta h = (inr self, h') ∧
    result (content_of self) h'
    = inr {| c_shape := [r; c];
             c_values := map (fun k => nth k (h_mem h) junk) (a_cells a0);
             c_smp := (ns, cs); c_var := (nv, cv); c_vis := dv; c_meta := meta |}.
Proof.
  intros Hm Ha Hcl Hsh Hcells Hs Hrs Hv Hrv Hvis.
  destruct (AnnData_well_formed X smp var vis meta h a0 r c ns cs nv cv dv
              Hm Ha Hcl Hsh Hcells Hs Hrs Hv Hrv Hvis) as (self & h' & E & Hwf).
  exists self, h'. split; [exact E|]. now apply content_of_run.
Qed.

Lemma field_head name col : field [name] [col] name = inr col.
Proof. unfold field. cbn [index_of]. now rewrite bool_decide_eq_true_2. Qed.

(** X14. Without metadata the tables hold the identity columns only:
    whenever [AnnData(X)] returns, for a storage that then has shape
    [(r, c)], [smp_names] is [0, ..., r-1], [var_names] is [0, ..., c-1],
    and the [columns] of both tables are empty. *)
Theorem default_identity_columns X vis meta h self h' :
  AnnData X Src_None Src_None vis meta h = (inr self, h') ->
  ∃ a r c,
    h_arrays h' !! X = Some a ∧ a_shape a = [r; c] ∧
    result (smp_names self) h' = inr (arange r) ∧
    result (var_names self) h' = inr (arange c) ∧
    result (let* t := smp_of self in columns t) h' = inr [] ∧
    result (let* t := var_of self in columns t) h' = inr [].
Proof.
  intros H. pose proof H as H'.
  apply AnnData_returns in H'
    as (a0 & s_type & ns' & ts & nv' & tv & extra & l & Eself & Hm & Ha0 & Hcl & Hsh & Hvis
        & _ & Harr & _ & _ & _ & _).
  destruct (AnnData_tables X Src_None Src_None vis meta h a0 (t_len ts) (t_len tv)
              [SMP_NAMES] [arange (t_len ts)] [VAR_NAMES] [arange (t_len tv)] self h'
              H Ha0 Hsh eq_refl (regular_arange _ _) eq_refl (regular_arange _ _))
    as (Es & Ev & Ecs & Ecv).
  exists (reshaped a0), (t_len ts), (t_len tv).
  split; [rewrite Harr; apply list_lookup_insert_eq; eapply lookup_lt_Some, Ha0|].
  split; [exact Hsh|].
  split; [|split; [|split]].
  - unfold smp_names.
    rewrite (names_of_content ad_smp _ self SMP_NAMES h' _ _ Es).
    now rewrite field_head.
  - unfold var_names.
    rewrite (names_of_content ad_var _ self VAR_NAMES h' _ _ Ev).
    now rewrite field_head.
  - exact Ecs.
  - exact Ecv.
Qed.

Lemma filter_not_name (name : string) (names : list string) :
  name ∉ names -> filter (fun c => negb (bool_decide (c = name))) names = names.
Proof.
  induction names as [|n names IH]; intros Hn; [reflexivity|].
  apply not_elem_of_cons in Hn as [Hne Hn].
  cbn [filter]. unfold filter in *. cbn [list_filter].
  rewrite bool_decide_eq_false_2 by congruence. cbn [negb].
  f_equal. now apply IH.
Qed.

(** X15. A record array given as row metadata is taken with the fields it
    has: no identity column is added to it.  If it has no field
    [smp_names], the constructor still returns, [mat.smp_names] raises
    numpy's error for an unknown field, and [mat.smp.columns] lists every
    field. *)
Theorem record_array_source_gets_no_identity_column
    X t var vis meta h a0 r c tb ns nv cv self h' :
  AnnData X (Src_recarray t) var vis meta h = (inr self, h') ->
  h_arrays h !! X = Some a0 -> a_shape (reshaped a0) = [r; c] ->
  h_tables h !! t = Some tb -> h_dtypes h !! t_dtype tb = Some ns ->
  regular ns (t_cols tb) r ->
  source_fields h var c VAR_NAMES = Some (nv, cv) -> regular nv cv c ->
  SMP_NAMES ∉ ns ->
  result (let* s := smp_of self in table_content s) h' = inr (ns, t_cols tb) ∧
  result (smp_names self) h' = inl (ValueError_no_field SMP_NAMES) ∧
  result (let* s := smp_of self in columns s) h' = inr ns.
Proof.
  intros H Ha Hsh Ht Hd Hrs Hv Hrv Hno.
  assert (Hs : source_fields h (Src_recarray t) r SMP_NAMES = Some (ns, t_cols tb)).
  { cbn [source_fields]. rewrite Ht. cbn. rewrite Hd. reflexivity. }
  destruct (AnnData_tables X (Src_recarray t) var vis meta h a0 r c ns (t_cols tb)
              nv cv self h' H Ha Hsh Hs Hrs Hv Hrv) as (Es & _ & Ecs & _).
  split; [exact Es|]. split.
  - unfold smp_names.
    rewrite (names_of_content ad_smp _ self SMP_NAMES h' _ _ Es).
    unfold field. now rewrite index_of_None.
  - rewrite Ecs. now rewrite filter_not_name.
Qed.

(** X16. [vis or {}]: the constructor keeps the caller's [vis] object only
    if it has entries.  Given a mapping without entries, as given [None],
    the instance gets a new empty mapping of its own, so entries the
    caller adds to the mapping afterwards are not seen by the instance. *)
Theorem constructor_keeps_vis_only_if_not_empty X smp var vis meta h self h' :
  AnnData X smp var vis meta h = (inr self, h') ->
  ∃ ad l,
    h_anndata h' !! self = Some ad ∧ ad_vis ad = Some l ∧
    (vis = None -> length (h_dicts h) < l ∧ h_dicts h' !! l = Some ∅) ∧
    (∀ v d, vis = Some v -> h_dicts h !! v = Some d ->
       h_dicts h' !! l = Some d ∧
       if bool_decide (d = ∅) then length (h_dicts h) < l else l = v).
Proof.
  intros H.
  apply AnnData_returns in H
    as (a0 & s_type & ns & ts & nv & tv & extra & l & -> & _ & _ & _ & _ & Hvis
        & _ & _ & _ & _ & Hd & Had).
  eexists _, l. split; [rewrite Had; apply lookup_snoc|]. split; [reflexivity|].
  unfold vis_or_empty, at_call in Hvis. hsimpl. rewrite Hd.
  destruct Hvis as [(-> & -> & d & Hl & Hne)|(-> & -> & Hv)].
  - split; [discriminate|]. intros v d' [= <-] Hd'.
    rewrite (lookup_app_l_Some _ _ _ _ Hd') in Hl. injection Hl as ->.
    rewrite app_nil_r. split; [now apply lookup_app_l_Some|].
    now rewrite bool_decide_eq_false_2.
  - rewrite length_app, Nat.add_1_r.
    assert (Hnew : ((h_dicts h ++ [meta]) ++ [∅ : gmap string val])
                   !! S (length (h_dicts h)) = Some ∅).
    { replace (S (length (h_dicts h))) with (length (h_dicts h ++ [meta]))
        by (rewrite length_app; simpl; lia).
      apply lookup_snoc. }
    split; [intros _; split; [lia|exact Hnew]|].
    intros v d -> Hd'. destruct Hv as [Hv|(v' & [= <-] & Hv)]; [discriminate|].
    rewrite (lookup_app_l_Some _ _ _ _ Hd') in Hv. injection Hv as ->.
    split; [exact Hnew|]. rewrite bool_decide_eq_true_2 by reflexivity. lia.
Qed.

(** ** Appending and assigning columns *)


Section Append_short.

Variables (h : heap) (t p X : loc) (tb : table_obj) (name_col : string)
          (names : list string) (ad : anndata_obj) (a : array_obj)
          (n : nat) (shape : list nat).

Hypothesis Ht : h_tables h !! t = Some tb.
Hypothesis Hattrs : t_attrs tb = Some (Some p, name_col).
Hypothesis Hd : h_dtypes h !! t_dtype tb = Some names.
Hypothesis Had : h_anndata h !! p = Some ad.
Hypothesis HX : ad_X ad = Some X.
Hypothesis Ha : h_arrays h !! X = Some a.
Hypothesis Hshape : a_shape a = n :: shape.


End Append_short.

Lemma slot_of_run name_col p h t ad :
  h_anndata h !! p = Some (set_slot name_col t ad) ->
  slot_of name_col p h = (inr t, h).
Proof.
  intros Had. unfold slot_of, set_slot, smp_of, var_of, get_anndata in *.
  destruct (slot name_col);
    rewrite (bind_inr _ _ _ _ _ (deref_Some h_anndata _ _ _ Had)); reflexivity.
Qed.

Lemma set_slot_X name_col t ad : ad_X (set_slot name_col t ad) = ad_X ad.
Proof. unfold set_slot. now destruct (slot name_col). Qed.


(** The heap after a successful append, store by store. *)
Lemma setitem_appends_heap h t p X tb name_col names ad a n shape key value :
  h_tables h !! t = Some tb -> t_attrs tb = Some (Some p, name_col) ->
  h_dtypes h !! t_dtype tb = Some names ->
  h_anndata h !! p = Some ad -> ad_X ad = Some X -> h_arrays h !! X = Some a ->
  a_shape a = n :: shape -> n ≠ 0 ->
  key ∉ names -> length value = t_len tb -> regular names (t_cols tb) (t_len tb) ->
  ∃ h',
    BoundRecArr_setitem t key value h = (inr tt, h') ∧
    h_arrays h' = h_arrays h ∧
    h_dtypes h' = (h_dtypes h ++ [names ++ [key]]) ++ [names ++ [key]] ∧
    h_tables h'
    = (h_tables h ++ [{| t_dtype := length (h_dtypes h); t_len := t_len tb;
                         t_cols := t_cols tb ++ [value]; t_attrs := None |}])
      ++ [{| t_dtype := S (length (h_dtypes h)); t_len := t_len tb;
             t_cols := t_cols tb ++ [value];
             t_attrs := Some (Some p, name_col) |}] ∧
    h_anndata h' = <[p := set_slot name_col (S (length (h_tables h))) ad]> (h_anndata h).
Proof.
  intros Ht Hattrs Hd Had HX Ha Hshape Hn Hk Hlen Hreg.
  pose proof (setitem_appends h t p X tb name_col names ad a n shape
                Ht Hattrs Hd Had HX Ha Hshape key value Hn Hk Hlen Hreg) as E.
  cbv zeta in E. eexists. split; [exact E|].
  unfold add_table, new_table. hsimpl.
  rewrite length_app, Nat.add_1_r. repeat split.
Qed.

(** X18. A table handle goes stale with the first append made through it:
    the append rebuilds the table and stores the new one on the owner, the
    handle still names the old one.  Two appends through the same handle
    leave the owner with the second column only; fetching the table from
    the owner again before the second append keeps both. *)
Theorem stale_handle_loses_appended_columns
    h t p X tb name_col names ad a n shape k1 v1 k2 v2 :
  h_tables h !! t = Some tb -> t_attrs tb = Some (Some p, name_col) ->
  h_dtypes h !! t_dtype tb = Some names ->
  h_anndata h !! p = Some ad -> ad_X ad = Some X -> h_arrays h !! X = Some a ->
  a_shape a = n :: shape -> n ≠ 0 ->
  regular names (t_cols tb) (t_len tb) ->
  k1 ∉ names -> k2 ∉ names -> k1 ≠ k2 ->
  length v1 = t_len tb -> length v2 = t_len tb ->
  result (BoundRecArr_setitem t k1 v1 ;;; BoundRecArr_setitem t k2 v2 ;;;
          let* t' := slot_of name_col p in table_content t') h
  = inr (names ++ [k2], t_cols tb ++ [v2]) ∧
  result (BoundRecArr_setitem t k1 v1 ;;;
          (let* t1 := slot_of name_col p in BoundRecArr_setitem t1 k2 v2) ;;;
          let* t' := slot_of name_col p in table_content t') h
  = inr ((names ++ [k1]) ++ [k2], (t_cols tb ++ [v1]) ++ [v2]).
Proof.
  intros Ht Hattrs Hd Had HX Ha Hshape Hn Hreg Hk1 Hk2 Hk12 Hl1 Hl2.
  destruct (setitem_appends_heap h t p X tb name_col names ad a n shape k1 v1
              Ht Hattrs Hd Had HX Ha Hshape Hn Hk1 Hl1 Hreg)
    as (h1 & E1 & Harr1 & Hdt1 & Htb1 & Had1).
  assert (Hp : p < length (h_anndata h)) by (eapply lookup_lt_Some, Had).
  assert (Had1' : h_anndata h1 !! p
                  = Some (set_slot name_col (S (length (h_tables h))) ad))
    by (rewrite Had1; now apply list_lookup_insert_eq).
  assert (HX1 : ad_X (set_slot name_col (S (length (h_tables h))) ad) = Some X)
    by (now rewrite set_slot_X).
  assert (Ha1 : h_arrays h1 !! X = Some a) by (now rewrite Harr1).
  unfold result. split.
  - (* the stale handle *)
    assert (Ht1 : h_tables h1 !! t = Some tb)
      by (rewrite Htb1; now do 2 apply lookup_app_l_Some).
    assert (Hd1 : h_dtypes h1 !! t_dtype tb = Some names)
      by (rewrite Hdt1; now do 2 apply lookup_app_l_Some).
    destruct (setitem_appends_heap h1 t p X tb name_col names _ a n shape k2 v2
                Ht1 Hattrs Hd1 Had1' HX1 Ha1 Hshape Hn Hk2 Hl2 Hreg)
      as (h2 & E2 & _ & Hdt2 & Htb2 & Had2).
    rewrite (bind_inr _ _ _ _ _ E1), (bind_inr _ _ _ _ _ E2).
    erewrite bind_inr.
    2:{ eapply slot_of_run. rewrite Had2. apply list_lookup_insert_eq.
        rewrite Had1, length_insert. exact Hp. }
    erewrite table_content_run; cycle 1.
    + rewrite Htb2.
      replace (S (length (h_tables h1))) with (length (h_tables h1 ++ [{|
          t_dtype := length (h_dtypes h1); t_len := t_len tb;
          t_cols := t_cols tb ++ [v2]; t_attrs := None |}]))
        by (rewrite length_app; simpl; lia).
      apply lookup_snoc.
    + cbn [t_dtype]. rewrite Hdt2.
      replace (S (length (h_dtypes h1)))
        with (length (h_dtypes h1 ++ [names ++ [k2]]))
        by (rewrite length_app; simpl; lia).
      apply lookup_snoc.
    + reflexivity.
  - (* the table fetched again *)
    set (t1 := S (length (h_tables h))) in *.
    set (tb1 := {| t_dtype := S (length (h_dtypes h)); t_len := t_len tb;
                   t_cols := t_cols tb ++ [v1];
                   t_attrs := Some (Some p, name_col) |}).
    assert (Ht1 : h_tables h1 !! t1 = Some tb1).
    { rewrite Htb1. unfold t1.
      replace (S (length (h_tables h))) with (length (h_tables h ++ [{|
          t_dtype := length (h_dtypes h); t_len := t_len tb;
          t_cols := t_cols tb ++ [v1]; t_attrs := None |}]))
        by (rewrite length_app; simpl; lia).
      apply lookup_snoc. }
    assert (Hd1 : h_dtypes h1 !! t_dtype tb1 = Some (names ++ [k1])).
    { cbn [tb1 t_dtype]. rewrite Hdt1.
      replace (S (length (h_dtypes h)))
        with (length (h_dtypes h ++ [names ++ [k1]]))
        by (rewrite length_app; simpl; lia).
      apply lookup_snoc. }
    destruct Hreg as (Hnd & Hne & Hl & Hf).
    assert (Hreg1 : regular (names ++ [k1]) (t_cols tb1) (t_len tb1)).
    { cbn [tb1 t_cols t_len]. repeat split.
      - apply NoDup_app. repeat split; [assumption| |apply NoDup_singleton].
        intros x Hx Hx'. apply list_elem_of_singleton in Hx'. now subst.
      - now destruct names.
      - rewrite !length_app. simpl. lia.
      - apply Forall_app. split; [assumption|]. now constructor. }
    assert (Hk2' : k2 ∉ names ++ [k1]).
    { intros Hin. apply elem_of_app in Hin as [Hin|Hin]; [contradiction|].
      apply list_elem_of_singleton in Hin. congruence. }
    destruct (setitem_appends_heap h1 t1 p X tb1 name_col (names ++ [k1]) _ a n shape
                k2 v2 Ht1 eq_refl Hd1 Had1' HX1 Ha1 Hshape Hn Hk2' Hl2 Hreg1)
      as (h2 & E2 & _ & Hdt2 & Htb2 & Had2).
    rewrite (bind_inr _ _ _ _ _ E1).
    erewrite bind_inr.
    2:{ erewrite bind_inr; [exact E2|]. eapply slot_of_run. exact Had1'. }
    erewrite bind_inr.
    2:{ eapply slot_of_run. rewrite Had2. apply list_lookup_insert_eq.
        rewrite Had1, length_insert. exact Hp. }
    erewrite table_content_run; cycle 1.
    + rewrite Htb2.
      replace (S (length (h_tables h1))) with (length (h_tables h1 ++ [{|
          t_dtype := length (h_dtypes h1); t_len := t_len tb1;
          t_cols := t_cols tb1 ++ [v2]; t_attrs := None |}]))
        by (rewrite length_app; simpl; lia).
      apply lookup_snoc.
    + cbn [t_dtype]. rewrite Hdt2.
      replace (S (length (h_dtypes h1)))
        with (length (h_dtypes h1 ++ [(names ++ [k1]) ++ [k2]]))
        by (rewrite length_app; simpl; lia).
      apply lookup_snoc.
    + reflexivity.
Qed.

(** *** Assigning an existing column *)







Lemma lookup_snoc_S {A} (l : list A) x y : ((l ++ [x]) ++ [y]) !! S (length l) = Some y.
Proof.
  replace (S (length l)) with (length (l ++ [x])) by (rewrite length_app; simpl; lia).
  apply lookup_snoc.
Qed.




(** ** Deletion *)

Lemma AnnData_delitem_frame sp self smp var h r h' :
  AnnData_delitem sp self smp var h = (r, h') ->
  h_tables h' = h_tables h ∧ h_dtypes h' = h_dtypes h ∧
  h_dicts h' = h_dicts h ∧ h_anndata h' = h_anndata h.
Proof.
  assert (Hiloc : ∀ t h0 r0 h1, recarray_del_iloc t h0 = (r0, h1) -> h1 = h0).
  { intros t h0 r0 h1 E. destruct (recarray_del_iloc_raises t h0) as [e He].
    rewrite He in E. now injection E as _ <-. }
  unfold AnnData_delitem, get_anndata.
  unfold bind at 1. unfold deref.
  destruct (h_anndata h !! self) as [ad|]; [|now intros [= _ <-]].
  unfold bind at 1. unfold of_option at 1.
  destruct (ad_X ad) as [X|]; [|now intros [= _ <-]]. cbn [ret].
  unfold bind at 1.
  destruct (storage_delitem sp X _ _ h) as [[e|u] h1] eqn:E1.
  - intros [= _ <-]. revert E1.
    unfold storage_delitem, get_array, bind, deref, of_option, lift, ret, raise,
      read_cells, alloc_cells, set_array.
    destruct (h_arrays h !! X) as [a|]; [|now intros [= _ <-]].
    destruct (isinstance (a_class a) C_ndarray); [now intros [= _ <-]|].
    destruct (isinstance (a_class a) C_spmatrix); [|now intros [= _ <-]].
    destruct (sp_delitem _ _ _ _ _ _); now intros [= _ <-].
  - assert (F1 : h_tables h1 = h_tables h ∧ h_dtypes h1 = h_dtypes h ∧
                 h_dicts h1 = h_dicts h ∧ h_anndata h1 = h_anndata h).
    { revert E1.
      unfold storage_delitem, get_array, bind, deref, of_option, lift, ret, raise,
        read_cells, alloc_cells, set_array.
      destruct (h_arrays h !! X) as [a|]; [|now intros [= _ <-]].
      destruct (isinstance (a_class a) C_ndarray); [now intros [= _ <-]|].
      destruct (isinstance (a_class a) C_spmatrix); [|now intros [= _ <-]].
      destruct (sp_delitem _ _ _ _ _ _); now intros [= _ <-]. }
    unfold bind at 1.
    match goal with
    | |- context [(if ?b then ?m1 else ret tt) h1] =>
        destruct ((if b then m1 else ret tt) h1) as [[e|u2] h2] eqn:E2;
        assert (h2 = h1) as ->
    end.
    + destruct (bool_decide _) in E2.
      * unfold bind in E2. destruct (of_option _ _ h1) as [[e'|t] h3] eqn:E3.
        -- apply reads_of_option in E3 as ->. now injection E2 as _ <-.
        -- apply reads_of_option in E3 as ->. now apply Hiloc in E2.
      * unfold ret in E2. now injection E2 as _ <-.
    + intros [= _ <-]. exact F1.
    + destruct (bool_decide _) in E2.
      * unfold bind in E2. destruct (of_option _ _ h1) as [[e'|t] h3] eqn:E3.
        -- apply reads_of_option in E3 as ->. now injection E2 as _ <-.
        -- apply reads_of_option in E3 as ->. now apply Hiloc in E2.
      * unfold ret in E2. now injection E2 as _ <-.
    + intros E3. assert (h' = h1) as ->; [|exact F1].
      destruct (bool_decide _) in E3.
      * unfold bind in E3. destruct (of_option _ _ h1) as [[e'|t] h3] eqn:E4.
        -- apply reads_of_option in E4 as ->. now injection E3 as _ <-.
        -- apply reads_of_option in E4 as ->. now apply Hiloc in E3.
      * unfold ret in E3. now injection E3 as _ <-.
Qed.

(** X21. [del mat[index]] deletes nothing from a table and, on numpy
    storage, nothing at all: with numpy storage it raises numpy's error for
    deleting array elements and leaves every object as it was; with any
    storage, whether it returns or raises, the tables, their fields, the
    mappings and the instances are as before; and it can only return when
    neither selector is the full range, that is, when no table was to be
    touched. *)
Theorem deletion_never_changes_a_table sp self smp var h :
  (∀ ad X a, h_anndata h !! self = Some ad -> ad_X ad = Some X ->
     h_arrays h !! X = Some a -> isinstance (a_class a) C_ndarray = true ->
     AnnData_delitem sp self smp var h = (inl ValueError_cannot_delete, h)) ∧
  (∀ r h', AnnData_delitem sp self smp var h = (r, h') ->
     h_tables h' = h_tables h ∧ h_dtypes h' = h_dtypes h ∧
     h_dicts h' = h_dicts h ∧ h_anndata h' = h_anndata h) ∧
  (∀ u h', AnnData_delitem sp self smp var h = (inr u, h') ->
     fst (_unpack_index smp var) ≠ slice_None ∧
     snd (_unpack_index smp var) ≠ slice_None).
Proof.
  split; [|split].
  - intros ad X a Had HX Ha Hc. eapply delitem_numpy; eassumption.
  - intros r h'. apply AnnData_delitem_frame.
  - intros u h'. apply delitem_returns.
Qed.

(** ** Indexing *)

(** X22. Two integer lists as index never give an instance: numpy pairs
    the two lists element by element, so the selection from a
    two-dimensional array is one-dimensional, and [__getitem__] fails on
    its second assertion, which reads [data.shape[1]] (or before). *)
Theorem two_index_lists_raise sp self l1 l2 h ad X a r c :
  h_anndata h !! self = Some ad -> ad_X ad = Some X -> h_arrays h !! X = Some a ->
  isinstance (a_class a) C_ndarray = true -> a_shape a = [r; c] ->
  ∃ e h', AnnData_getitem sp self (I_sel (S_list l1)) (I_sel (S_list l2)) h
          = (inl e, h').
Proof.
  intros Had HX Ha Hc Hsh.
  destruct (AnnData_getitem sp self (I_sel (S_list l1)) (I_sel (S_list l2)) h)
    as [[e|s] h'] eqn:E; [eauto|]. exfalso.
  unfold AnnData_getitem, get_anndata in E. cbn [_unpack_index fst snd] in E.
  run_bind E as ad' h0 E0. run_inv E0.
  run_bind E as X' h0 E0. run_inv E0.
  rewrite Had in H. injection H as <-. rewrite HX in H0. injection H0 as <-.
  run_bind E as data h1 E0.
  assert (Hdata : ∃ k cells, h_arrays h1 !! data
                    = Some {| a_class := a_class a; a_shape := [k];
                              a_structured := a_structured a; a_cells := cells |} ∧
                  length (h_arrays h1) = S data).
  { unfold storage_getitem, get_array in E0.
    rewrite (bind_inr _ _ _ _ _ (deref_Some h_arrays _ _ _ Ha)) in E0.
    rewrite Hc in E0. unfold ndarray_getitem, get_array in E0.
    rewrite (bind_inr _ _ _ _ _ (deref_Some h_arrays _ _ _ Ha)) in E0.
    run_bind E0 as sc h2 E1. run_inv E1.
    unfold select2 in H. rewrite Hsh in H. cbn [resolve is_slice orb] in H.
    destruct (list_indices l1 r) as [e1|R]; [discriminate|].
    destruct (list_indices l2 c) as [e2|C]; [discriminate|].
    cbn [ebind] in H. destruct (broadcast_pairs R C) as [e3|pairs]; [discriminate|].
    cbn [ebind] in H. injection H as <-.
    cbn [is_slice andb fst snd] in E0.
    run_bind E0 as vs h2 E1. unfold read_cells in E1. injection E1 as <- <-.
    run_bind E0 as cells h2 E1. unfold alloc_cells in E1. injection E1 as <- <-.
    unfold alloc_array in E0. injection E0 as <- <-. hsimpl.
    eexists _, _. split; [apply lookup_snoc|].
    rewrite length_app. simpl. lia. }
  destruct Hdata as (k & cells & Hdata & _). clear E0.
  run_bind E as st h2 E0. run_inv E0.
  run_bind E as smp_meta h2 E0. apply recarray_getitem_inv in E0 as (tb1 & -> & ->).
  run_bind E as vt h2 E0. run_inv E0.
  run_bind E as var_meta h2 E0. apply recarray_getitem_inv in E0 as (tb2 & -> & ->).
  run_bind E as a1 h2 E0. unfold get_array in E0. run_inv E0. hsimpl.
  rewrite Hdata in H1. injection H1 as <-. cbn [a_shape] in E.
  run_bind E as ts h2 E0. unfold get_table in E0. run_inv E0.
  run_bind E as d0 h2 E0. unfold shape_at in E0. run_inv E0.
  destruct (negb (t_len ts =? d0)); [run_inv E|].
  run_bind E as tv h2 E0. unfold get_table in E0. run_inv E0.
  run_bind E as d1 h2 E0. unfold shape_at in E0. run_inv E0.
  discriminate.
Qed.

(** *** Integers and slices *)

Lemma one_position (z : Z) :
  map (fun k : nat => Z.to_nat (z + Z.of_nat k * 1)) (seq 0 (Z.to_nat (0 + 1)))
  = [Z.to_nat z].
Proof.
  change (Z.to_nat (0 + 1)) with 1. cbn [seq map]. f_equal. f_equal. lia.
Qed.

Lemma unit_slice (i : Z) (n : nat) :
  slice_indices (Some i) (Some (i + 1)%Z) None n
  = inr (if ((0 <=? i) && (i <? Z.of_nat n))%Z then [Z.to_nat i]
         else if ((- Z.of_nat n <=? i) && (i <? -1))%Z then [Z.to_nat (i + Z.of_nat n)]
         else []).
Proof.
  unfold slice_indices. cbn [default]. change (1 =? 0)%Z with false.
  change (1 <? 0)%Z with false. cbv iota. f_equal.
  set (len := Z.of_nat n).
  assert (Hlen : (0 <= len)%Z) by (unfold len; lia).
  destruct (Z.leb_spec 0 i) as [H0|H0]; cbn [andb].
  - (* i >= 0 *)
    destruct (Z.ltb_spec i 0) as [?|_]; [lia|].
    destruct (Z.ltb_spec (i + 1) 0) as [?|_]; [lia|].
    destruct (Z.ltb_spec i len) as [Hi|Hi].
    + rewrite (Z.min_l i len), (Z.min_l (i + 1) len) by lia.
      destruct (Z.ltb_spec i (i + 1)) as [_|?]; [|lia].
      replace (i + 1 - i - 1)%Z with 0%Z by lia.
      rewrite Z.div_1_r. apply one_position.
    + rewrite (Z.min_r i len), (Z.min_r (i + 1) len) by lia.
      destruct (Z.ltb_spec len len) as [?|_]; [lia|].
      destruct (Z.leb_spec (- len) i) as [?|?]; destruct (Z.ltb_spec i (-1));
        cbn [andb]; try lia; reflexivity.
  - (* i < 0 *)
    destruct (Z.ltb_spec i 0) as [_|?]; [|lia].
    destruct (Z.ltb_spec i (-1)) as [Hm|Hm].
    + destruct (Z.ltb_spec (i + 1) 0) as [_|?]; [|lia].
      destruct (Z.leb_spec (- len) i) as [Hn|Hn]; cbn [andb].
      * rewrite (Z.max_l (i + len) 0), (Z.max_l (i + 1 + len) 0) by lia.
        destruct (Z.ltb_spec (i + len) (i + 1 + len)) as [_|?]; [|lia].
        replace (i + 1 + len - (i + len) - 1)%Z with 0%Z by lia.
        rewrite Z.div_1_r. apply one_position.
      * rewrite (Z.max_r (i + len) 0), (Z.max_r (i + 1 + len) 0) by lia.
        reflexivity.
    + assert (i = -1)%Z as -> by lia.
      change (-1 + 1 <? 0)%Z with false. cbv iota. change (-1 + 1)%Z with 0%Z.
      rewrite (Z.min_l 0 len) by lia.
      destruct (Z.ltb_spec (Z.max (-1 + len) 0) 0) as [?|_]; [lia|].
      destruct (Z.leb_spec (- len) (-1)); reflexivity.
Qed.

(** X23. An integer index [i] is turned into the slice [i:i+1], so it
    never raises [IndexError]: along an axis of length [n] it selects
    position [i] for [0 <= i < n] and position [n + i] for [-n <= i < -1],
    and nothing at all for [i = -1] (the slice is [-1:0]) and for every [i]
    out of range.  This holds for the row and for the column index. *)
Theorem integer_index_selects (i : Z) (other : index) (n : nat) :
  let positions :=
    if ((0 <=? i) && (i <? Z.of_nat n))%Z then [Z.to_nat i]
    else if ((- Z.of_nat n <=? i) && (i <? -1))%Z then [Z.to_nat (i + Z.of_nat n)]
    else [] in
  resolve (fst (_unpack_index (I_int i) other)) n = inr positions ∧
  resolve (snd (_unpack_index other (I_int i))) n = inr positions ∧
  resolve (fst (_unpack_index (I_int (-1)) other)) n = inr [].
Proof.
  cbv zeta. cbn [_unpack_index fst snd resolve]. repeat split; try apply unit_slice.
  rewrite unit_slice.
  destruct (Z.ltb_spec (-1) (Z.of_nat n)); destruct (Z.leb_spec (- Z.of_nat n) (-1));
    reflexivity.
Qed.

Lemma list_indices_bounds l n idx :
  list_indices l n = inr idx -> Forall (fun i => i < n) idx ∧ length idx = length l.
Proof.
  revert idx. induction l as [|i l IH]; intros idx; cbn [list_indices].
  - intros [= <-]. split; [constructor|reflexivity].
  - destruct (Z.ltb_spec i (- Z.of_nat n)) as [?|Hlo]; cbn [orb]; [discriminate|].
    destruct (Z.leb_spec (Z.of_nat n) i) as [?|Hhi]; [discriminate|].
    destruct (list_indices l n) as [e|r]; [discriminate|].
    intros [= <-]. destruct (IH r eq_refl) as [IH1 IH2].
    split; [|cbn; now rewrite IH2]. constructor; [|exact IH1].
    destruct (Z.ltb_spec i 0); lia.
Qed.

Lemma positions_bounds (start' stop' st len : Z) (k : nat) :
  st ≠ 0%Z -> (0 <= len)%Z ->
  let lower := if (st <? 0)%Z then (-1)%Z else 0%Z in
  let upper := if (st <? 0)%Z then (len - 1)%Z else len in
  (lower <= start' <= upper)%Z -> (lower <= stop' <= upper)%Z ->
  k < Z.to_nat (if (st <? 0)%Z
                then (if (stop' <? start')%Z
                      then ((start' - stop' - 1) / (- st) + 1)%Z else 0%Z)
                else (if (start' <? stop')%Z
                      then ((stop' - start' - 1) / st + 1)%Z else 0%Z)) ->
  (0 <= start' + Z.of_nat k * st < len)%Z.
Proof.
  intros Hst Hlen lower upper Hstart Hstop Hk. unfold lower, upper in *.
  destruct (Z.ltb_spec st 0) as [Hneg|Hpos].
  - destruct (Z.ltb_spec stop' start') as [Hlt|Hge]; [|simpl in Hk; lia].
    assert (Hq : (0 <= (start' - stop' - 1) / - st)%Z)
      by (apply Z.div_pos; lia).
    assert (Hk' : (Z.of_nat k <= (start' - stop' - 1) / - st)%Z) by lia.
    assert (Hm : (- st * ((start' - stop' - 1) / - st) <= start' - stop' - 1)%Z)
      by (apply Z.mul_div_le; lia).
    nia.
  - destruct (Z.ltb_spec start' stop') as [Hlt|Hge]; [|simpl in Hk; lia].
    assert (Hst' : (0 < st)%Z) by lia.
    assert (Hq : (0 <= (stop' - start' - 1) / st)%Z)
      by (apply Z.div_pos; lia).
    assert (Hk' : (Z.of_nat k <= (stop' - start' - 1) / st)%Z) by lia.
    assert (Hm : (st * ((stop' - start' - 1) / st) <= stop' - start' - 1)%Z)
      by (apply Z.mul_div_le; lia).
    nia.
Qed.

Lemma slice_indices_bounds start stop step n idx :
  slice_indices start stop step n = inr idx -> Forall (fun i => i < n) idx.
Proof.
  unfold slice_indices.
  destruct (Z.eqb_spec (default 1%Z step) 0) as [|Hst]; [discriminate|].
  intros [= <-].
  apply Forall_forall. intros x Hx.
  apply list_elem_of_In, in_map_iff in Hx as (k & <- & Hk).
  apply in_seq in Hk as [_ Hk]. cbn [Nat.add] in Hk.
  assert (Hlen : (0 <= Z.of_nat n)%Z) by lia.
  assert (Hclamp : ∀ v,
    ((if (default 1 step <? 0) then -1 else 0)
     <= (if v <? 0
         then Z.max (v + Z.of_nat n) (if (default 1 step <? 0) then -1 else 0)
         else Z.min v (if (default 1 step <? 0) then Z.of_nat n - 1 else Z.of_nat n))
     <= (if (default 1 step <? 0) then Z.of_nat n - 1 else Z.of_nat n))%Z).
  { intros v. destruct (Z.ltb_spec (default 1%Z step) 0); destruct (Z.ltb_spec v 0); lia. }
  eapply (positions_bounds _ _ _ (Z.of_nat n) k Hst Hlen) in Hk.
  - lia.
  - destruct start as [v|]; [apply Hclamp|].
    destruct (default 1 step <? 0)%Z; lia.
  - destruct stop as [v|]; [apply Hclamp|].
    destruct (default 1 step <? 0)%Z; lia.
Qed.

(** X24. Selectors are resolved within bounds.  A slice never raises for
    its bounds: with a step other than 0 it resolves, for every start and
    stop, to positions below the length of the axis (bounds out of range are
    clipped); step 0 is a [ValueError].  A list of integers resolves only if
    every entry lies in [-n, n), to one position below [n] per entry;
    otherwise it is an [IndexError] that names the first entry out of
    range. *)
Theorem selectors_resolve_within_bounds (s : sel) (n : nat) :
  (∀ idx, resolve s n = inr idx -> Forall (fun i => i < n) idx) ∧
  (∀ start stop step, s = S_slice start stop step ->
     if bool_decide (step = Some 0%Z) then resolve s n = inl ValueError_slice_step
     else ∃ idx, resolve s n = inr idx) ∧
  (∀ l, s = S_list l ->
     match resolve s n with
     | inr idx => length idx = length l ∧
                  Forall (fun i => (- Z.of_nat n <= i < Z.of_nat n)%Z) l
     | inl e => ∃ i, i ∈ l ∧ ¬ (- Z.of_nat n <= i < Z.of_nat n)%Z ∧
                     e = IndexError_out_of_bounds i n
     end).
Proof.
  split; [|split].
  - intros idx. destruct s as [start stop step|l]; cbn [resolve].
    + apply slice_indices_bounds.
    + intros H. now apply list_indices_bounds in H.
  - intros start stop step ->. cbn [resolve]. unfold slice_indices.
    case_bool_decide as Hs.
    + subst step. reflexivity.
    + destruct (Z.eqb_spec (default 1%Z step) 0) as [E|_]; [|eauto].
      destruct step as [z|]; cbn in E; [congruence|discriminate].
  - intros l ->. cbn [resolve].
    induction l as [|i l IH]; cbn [list_indices].
    + split; [reflexivity|constructor].
    + destruct (Z.ltb_spec i (- Z.of_nat n)) as [Hlo|Hlo]; cbn [orb].
      { exists i. split; [left|]. split; [lia|reflexivity]. }
      destruct (Z.leb_spec (Z.of_nat n) i) as [Hhi|Hhi].
      { exists i. split; [left|]. split; [lia|reflexivity]. }
      destruct (list_indices l n) as [e|r].
      * destruct IH as (j & Hj & Hout & ->). exists j. split; [now right|]. auto.
      * destruct IH as [IH1 IH2]. split; [cbn; now rewrite IH1|].
        constructor; [lia|exact IH2].
Qed.

(** *** What a slice holds *)

Lemma select2_rank2 a r c smp var R Cs :
  a_shape a = [r; c] -> resolve smp r = inr R -> resolve var c = inr Cs ->
  is_slice smp || is_slice var = true ->
  select2 a smp var
  = inr ([length R; length Cs],
         flat_map (fun i => map (fun j => nth (i * c + j) (a_cells a) 0) Cs) R).
Proof.
  intros Hsh HR HC Hs. unfold select2. rewrite Hsh, HR, HC. cbn [ebind]. rewrite Hs.
  f_equal. f_equal. apply flat_map_ext. intros i.
  rewrite <- flat_map_single. apply flat_map_ext. intros j.
  unfold block. cbn [product fold_right seq map].
  now rewrite Nat.mul_1_r, Nat.add_0_r.
Qed.

Lemma storage_getitem_ndarray_run sp X smp var h a sc :
  h_arrays h !! X = Some a -> isinstance (a_class a) C_ndarray = true ->
  select2 a smp var = inr sc ->
  ∃ a' vs,
    storage_getitem sp X smp var h
    = (inr (length (h_arrays h)),
       with_arrays (fun s => s ++ [a']) (with_mem (fun m => m ++ vs) h)) ∧
    a_class a' = a_class a ∧ a_shape a' = fst sc ∧
    length (a_cells a') = length (snd sc) ∧
    map (fun k => nth k (h_mem h ++ vs) junk) (a_cells a')
    = map (fun k => nth k (h_mem h) junk) (snd sc).
Proof.
  intros Ha Hc Hsel. unfold storage_getitem, get_array.
  rewrite (bind_inr _ _ _ _ _ (deref_Some h_arrays _ _ _ Ha)). rewrite Hc.
  unfold ndarray_getitem, get_array.
  rewrite (bind_inr _ _ _ _ _ (deref_Some h_arrays _ _ _ Ha)). rewrite Hsel.
  cbn [lift]. rewrite (bind_inr _ _ _ _ _ (ret_run _ _)).
  destruct (is_slice smp && is_slice var).
  - eexists _, []. split.
    + unfold alloc_array. f_equal. apply heap_eq; hsimpl; try reflexivity.
      now rewrite app_nil_r.
    + cbn [a_class a_shape a_cells]. rewrite app_nil_r. auto.
  - unfold read_cells, alloc_cells, alloc_array.
    erewrite bind_inr; [|reflexivity]. erewrite bind_inr; [|reflexivity].
    eexists _, _. split; [reflexivity|].
    cbn [a_class a_shape a_cells].
    split; [reflexivity|]. split; [reflexivity|].
    split; [now rewrite length_seq, length_map|].
    apply read_fresh_cells.
Qed.

Lemma recarray_getitem_run t s h tb rows :
  h_tables h !! t = Some tb -> resolve s (t_len tb) = inr rows ->
  recarray_getitem t s h
  = (inr (length (h_tables h)),
     with_tables (fun l => l ++ [{| t_dtype := t_dtype tb; t_len := length rows;
                                    t_cols := map (take_rows rows) (t_cols tb);
                                    t_attrs := None |}]) h).
Proof.
  intros Ht Hr. unfold recarray_getitem, get_table.
  rewrite (bind_inr _ _ _ _ _ (deref_Some h_tables _ _ _ Ht)). rewrite Hr.
  reflexivity.
Qed.

Lemma flat_map_rows_len {A} (f : nat -> nat -> A) (R Cs : list nat) :
  length (flat_map (fun i => map (f i) Cs) R) = length R * length Cs.
Proof.
  induction R as [|i R IH]; [reflexivity|].
  cbn [flat_map length]. rewrite length_app, length_map, IH. lia.
Qed.

Lemma selected_values (mem : list val) cells r c R Cs :
  length cells = r * c -> Forall (fun i => i < r) R -> Forall (fun j => j < c) Cs ->
  map (fun k => nth k mem junk)
      (flat_map (fun i => map (fun j => nth (i * c + j) cells 0) Cs) R)
  = flat_map (fun i => map (fun j => nth (i * c + j)
                                       (map (fun k => nth k mem junk) cells) junk) Cs) R.
Proof.
  intros Hl HR HC. rewrite map_of_flat_map.
  induction HR as [|i R Hi HR IH]; [reflexivity|].
  cbn [flat_map]. rewrite IH. f_equal.
  rewrite map_map. apply map_ext_in. intros j Hj.
  rewrite Forall_forall in HC. apply list_elem_of_In in Hj. apply HC in Hj.
  assert (Hlt : i * c + j < length cells) by nia.
  rewrite (nth_indep (map (fun k => nth k mem junk) cells) junk (nth 0 mem junk))
    by (now rewrite length_map).
  now rewrite (map_nth (fun k => nth k mem junk)).
Qed.

Lemma regular_take_rows names cols n rows :
  regular names cols n ->
  regular names (map (take_rows rows) cols) (length rows).
Proof.
  intros (Hnd & Hne & Hl & Hf). repeat split; try assumption.
  - now rewrite length_map.
  - apply Forall_forall. intros col Hin.
    apply list_elem_of_In, in_map_iff in Hin as (col0 & <- & _).
    unfold take_rows. apply length_map.
Qed.

Lemma resolve_bounds s n idx : resolve s n = inr idx -> Forall (fun i => i < n) idx.
Proof.
  destruct s as [start stop step|l]; cbn [resolve].
  - apply slice_indices_bounds.
  - intros H. now apply list_indices_bounds in H.
Qed.

(** The slice made by [__getitem__] and what it holds. *)
Lemma getitem_spec sp h self C r c smp var R Cs ad X a :
  well_formed h self C -> c_shape C = [r; c] ->
  h_anndata h !! self = Some ad -> ad_X ad = Some X -> h_arrays h !! X = Some a ->
  isinstance (a_class a) C_ndarray = true ->
  resolve (fst (_unpack_index smp var)) r = inr R ->
  resolve (snd (_unpack_index smp var)) c = inr Cs ->
  is_slice (fst (_unpack_index smp var)) || is_slice (snd (_unpack_index smp var)) = true ->
  ∃ s h', AnnData_getitem sp self smp var h = (inr s, h') ∧
          result (content_of s) h' = inr (getitem_content C c R Cs).
Proof.
  intros Hwf Hsh Had HX Ha Hc HR HC Hs.
  destruct Hwf as (ad' & X' & s & v & l & m & a' & ts & tv & r' & c' & Had' & HX' & Hs'
                   & Hv & Hl & Hm & Ha' & Hsha & Hcells & Hcl & HCs & HCv & Hts & Hns
                   & Hcs & Hls & Hrs & Htv & Hnv & Hcv & Hlv & Hrv & Hdd & Hdl & Hdm
                   & Hkeys).
  rewrite Had in Had'. injection Had' as <-.
  rewrite HX in HX'. injection HX' as <-.
  rewrite Ha in Ha'. injection Ha' as <-.
  rewrite Hsh in HCs. injection HCs as <- <-.
  set (smpsel := fst (_unpack_index smp var)) in *.
  set (varsel := snd (_unpack_index smp var)) in *.
  pose proof (select2_rank2 a r c smpsel varsel R Cs Hsha HR HC Hs) as Hsel.
  destruct (storage_getitem_ndarray_run sp X smpsel varsel h a _ Ha Hc Hsel)
    as (a1 & vs & E1 & Hcls1 & Hsh1 & Hlen1 & Hvals1).
  cbn [fst snd] in Hsh1, Hlen1, Hvals1.
  set (h1 := with_arrays (fun s => s ++ [a1]) (with_mem (fun m => m ++ vs) h)) in *.
  assert (HR' : resolve smpsel (t_len ts) = inr R) by (now rewrite Hls).
  assert (HC' : resolve varsel (t_len tv) = inr Cs) by (now rewrite Hlv).
  assert (Hts1 : h_tables h1 !! s = Some ts) by exact Hts.
  pose proof (recarray_getitem_run s smpsel h1 ts R Hts1 HR') as E2.
  set (tb1 := {| t_dtype := t_dtype ts; t_len := length R;
                 t_cols := map (take_rows R) (t_cols ts); t_attrs := None |}) in *.
  set (h2 := with_tables (fun l => l ++ [tb1]) h1) in *.
  assert (Htv2 : h_tables h2 !! v = Some tv)
    by (unfold h2; hsimpl; now apply lookup_app_l_Some).
  pose proof (recarray_getitem_run v varsel h2 tv Cs Htv2 HC') as E3.
  set (tb2 := {| t_dtype := t_dtype tv; t_len := length Cs;
                 t_cols := map (take_rows Cs) (t_cols tv); t_attrs := None |}) in *.
  set (h3 := with_tables (fun l => l ++ [tb2]) h2) in *.
  assert (Hl2 : length (h_tables h2) = S (length (h_tables h)))
    by (unfold h2, h1; hsimpl; rewrite length_app; simpl; lia).
  assert (Ha3 : h_arrays h3 !! length (h_arrays h) = Some a1)
    by (unfold h3, h2, h1; hsimpl; apply lookup_snoc).
  assert (Ht1 : h_tables h3 !! length (h_tables h) = Some tb1)
    by (unfold h3, h2, h1; hsimpl; apply lookup_app_l_Some, lookup_snoc).
  assert (Ht2 : h_tables h3 !! S (length (h_tables h)) = Some tb2)
    by (unfold h3, h2, h1; hsimpl; apply lookup_snoc_S).
  destruct (AnnData_well_formed (length (h_arrays h))
              (Src_recarray (length (h_tables h)))
              (Src_recarray (S (length (h_tables h)))) (Some l) (c_meta C) h3 a1
              (length R) (length Cs)
              (fst (c_smp C)) (map (take_rows R) (snd (c_smp C)))
              (fst (c_var C)) (map (take_rows Cs) (snd (c_var C))) (c_vis C))
    as (s' & h' & E & Hwf').
  - exact Hkeys.
  - exact Ha3.
  - now rewrite Hcls1.
  - now rewrite (reshaped_rank2 a1 (length R) (length Cs)).
  - rewrite Hlen1. apply flat_map_rows_len.
  - cbn [source_fields]. rewrite Ht1. cbn. unfold h3, h2, h1. hsimpl.
    rewrite Hns. cbn. now rewrite Hcs.
  - now apply regular_take_rows with (n := r).
  - cbn [source_fields]. rewrite Ht2. cbn. unfold h3, h2, h1. hsimpl.
    rewrite Hnv. cbn. now rewrite Hcv.
  - now apply regular_take_rows with (n := c).
  - exact Hdl.
  - exists s', h'. split.
    + unfold AnnData_getitem, get_anndata, get_array, get_table, get_dict.
      fold smpsel varsel.
      rewrite (bind_inr _ _ _ _ _ (deref_Some h_anndata _ _ _ Had)).
      rewrite HX. cbn [of_option]. rewrite (bind_inr _ _ _ _ _ (ret_run _ _)).
      rewrite (bind_inr _ _ _ _ _ E1). fold h1.
      rewrite Hs'. cbn [of_option]. rewrite (bind_inr _ _ _ _ _ (ret_run _ _)).
      rewrite (bind_inr _ _ _ _ _ E2). fold h2.
      rewrite Hv. cbn [of_option]. rewrite (bind_inr _ _ _ _ _ (ret_run _ _)).
      rewrite (bind_inr _ _ _ _ _ E3). fold h3.
      rewrite (bind_inr _ _ _ _ _ (deref_Some h_arrays _ _ _ Ha3)).
      assert (Ht1' : h_tables h3 !! length (h_tables h1) = Some tb1) by exact Ht1.
      rewrite (bind_inr _ _ _ _ _ (deref_Some h_tables _ _ _ Ht1')).
      rewrite Hsh1. unfold shape_at. cbn [lookup list_lookup of_option].
      rewrite (bind_inr _ _ _ _ _ (ret_run _ _)).
      cbn [tb1 t_len]. rewrite Nat.eqb_refl. cbn [negb].
      assert (Ht2' : h_tables h3 !! length (h_tables h2) = Some tb2)
        by (rewrite Hl2; exact Ht2).
      rewrite (bind_inr _ _ _ _ _ (deref_Some h_tables _ _ _ Ht2')).
      rewrite (bind_inr _ _ _ _ _ (ret_run _ _)).
      cbn [tb2 t_len]. rewrite Nat.eqb_refl. cbn [negb].
      rewrite Hl, Hm. cbn [of_option].
      rewrite (bind_inr _ _ _ _ _ (ret_run _ _)).
      rewrite (bind_inr _ _ _ _ _ (ret_run _ _)).
      assert (Hdm3 : h_dicts h3 !! m = Some (c_meta C)) by exact Hdm.
      rewrite (bind_inr _ _ _ _ _ (deref_Some h_dicts _ _ _ Hdm3)).
      rewrite Hl2. exact E.
    + rewrite (content_of_run _ _ _ Hwf'). f_equal.
      unfold getitem_content. f_equal.
      unfold h3, h2, h1. hsimpl. rewrite Hvals1, HCv.
      apply (selected_values _ _ r c); [assumption| |].
      * eapply resolve_bounds, HR.
      * eapply resolve_bounds, HC.
Qed.

(** X25. What [mat[smp, var]] holds, for a well-formed [mat] with numpy
    storage of shape [(r, c)] and a pair of selectors of which at least one
    is a slice (an integer counts as one): if the selectors resolve to the
    rows [R] and the columns [Cs], the slice is made, has shape
    [(len(R), len(Cs))], its element [(p, q)] is element [(R[p], Cs[q])] of
    [mat], its row table has the fields of [mat.smp] with the rows [R] of
    every column, its column table the fields of [mat.var] with the rows
    [Cs], and [vis] and [_meta] have the entries of [mat]'s. *)
Theorem slice_holds_the_selection sp h self C r c smp var R Cs ad X a :
  well_formed h self C -> c_shape C = [r; c] ->
  h_anndata h !! self = Some ad -> ad_X ad = Some X -> h_arrays h !! X = Some a ->
  isinstance (a_class a) C_ndarray = true ->
  resolve (fst (_unpack_index smp var)) r = inr R ->
  resolve (snd (_unpack_index smp var)) c = inr Cs ->
  is_slice (fst (_unpack_index smp var)) || is_slice (snd (_unpack_index smp var)) = true ->
  ∃ s h', AnnData_getitem sp self smp var h = (inr s, h') ∧
          result (content_of s) h' = inr (getitem_content C c R Cs).
Proof. apply getitem_spec. Qed.

Lemma resolve_full n : resolve slice_None n = inr (seq 0 n).
Proof.
  cbn [resolve slice_None]. unfold slice_indices. cbn [default].
  change (1 =? 0)%Z with false. change (1 <? 0)%Z with false. cbv iota. f_equal.
  assert (Hc : Z.to_nat (if (0 <? Z.of_nat n)%Z
                         then ((Z.of_nat n - 0 - 1) / 1 + 1)%Z else 0%Z) = n).
  { destruct (Z.ltb_spec 0 (Z.of_nat n)); [rewrite Z.div_1_r|]; lia. }
  rewrite Hc. rewrite <- (map_id (seq 0 n)) at 2. apply map_ext. intros k. lia.
Qed.

Lemma take_rows_all col n : length col = n -> take_rows (seq 0 n) col = col.
Proof.
  intros <-. unfold take_rows. rewrite (map_nth_seq col junk 0 (length col)) by lia.
  cbn [skipn]. apply firstn_all.
Qed.

Lemma map_take_rows_all cols n :
  Forall (fun col => length col = n) cols -> map (take_rows (seq 0 n)) cols = cols.
Proof.
  induction 1 as [|col cols Hc _ IH]; cbn [map]; [reflexivity|].
  now rewrite take_rows_all, IH.
Qed.

(** X26. [mat[:, :]] is an instance of its own that holds what [mat] holds:
    for a well-formed [mat] with numpy storage the slice with two full
    ranges is made and has the shape, the values, the fields and columns of
    both tables and the entries of [vis] and [_meta] of [mat]. *)
Theorem full_slice_holds_the_same sp h self C r c ad X a :
  well_formed h self C -> c_shape C = [r; c] ->
  h_anndata h !! self = Some ad -> ad_X ad = Some X -> h_arrays h !! X = Some a ->
  isinstance (a_class a) C_ndarray = true ->
  ∃ s h', AnnData_getitem sp self all all h = (inr s, h') ∧
          s ≠ self ∧ result (content_of s) h' = inr C.
Proof.
  intros Hwf Hsh Had HX Ha Hc.
  destruct (getitem_spec sp h self C r c all all (seq 0 r) (seq 0 c) ad X a
              Hwf Hsh Had HX Ha Hc (resolve_full r) (resolve_full c) eq_refl)
    as (s & h' & E & Hcont).
  exists s, h'. split; [exact E|]. split.
  - apply AnnData_getitem_inv in E
      as (ad1 & X1 & a1 & a' & vs & tb1 & tb2 & vis & m & dm & h3 & _ & _ & _ & _
          & _ & _ & _ & _ & -> & E).
    apply AnnData_inv in E as (-> & _). hsimpl.
    apply lookup_lt_Some in Had. lia.
  - rewrite Hcont. f_equal.
    destruct Hwf as (ad' & X' & s0 & v & l & m & a' & ts & tv & r' & c' & Had' & HX' & Hs'
                     & Hv & Hl & Hm & Ha' & Hsha & Hcells & Hcl & HCs & HCv & Hts & Hns
                     & Hcs & Hls & Hrs & Htv & Hnv & Hcv & Hlv & Hrv & _).
    rewrite Hsh in HCs. injection HCs as <- <-.
    rewrite Had in Had'. injection Had' as <-.
    rewrite HX in HX'. injection HX' as <-.
    rewrite Ha in Ha'. injection Ha' as <-.
    destruct Hrs as (_ & _ & _ & Hfs). destruct Hrv as (_ & _ & _ & Hfv).
    destruct C as [Cshape Cvalues [ns cols_s] [nv cols_v] dv dm].
    cbn [c_shape c_values c_smp c_var c_vis c_meta fst snd] in *.
    unfold getitem_content. cbn [c_shape c_values c_smp c_var c_vis c_meta fst snd].
    rewrite !length_seq, Hsh.
    rewrite (map_take_rows_all _ _ Hfs), (map_take_rows_all _ _ Hfv).
    f_equal. apply rows_concat. rewrite HCv, length_map. exact Hcells.
Qed.

(** X27. [mat[i, j]] with two integers in range, [0 <= i < r] and
    [0 <= j < c], is an instance of shape [(1, 1)] that holds element
    [(i, j)] of [mat], row [i] of every column of [mat.smp] and row [j] of
    every column of [mat.var]. *)
Theorem integer_pair_selects_one_element sp h self C r c ad X a (i j : nat) :
  well_formed h self C -> c_shape C = [r; c] ->
  h_anndata h !! self = Some ad -> ad_X ad = Some X -> h_arrays h !! X = Some a ->
  isinstance (a_class a) C_ndarray = true ->
  i < r -> j < c ->
  ∃ s h',
    AnnData_getitem sp self (I_int (Z.of_nat i)) (I_int (Z.of_nat j)) h = (inr s, h') ∧
    result (content_of s) h'
    = inr {| c_shape := [1; 1];
             c_values := [nth (i * c + j) (c_values C) junk];
             c_smp := (fst (c_smp C), map (take_rows [i]) (snd (c_smp C)));
             c_var := (fst (c_var C), map (take_rows [j]) (snd (c_var C)));
             c_vis := c_vis C; c_meta := c_meta C |}.
Proof.
  intros Hwf Hsh Had HX Ha Hc Hi Hj.
  assert (Hunit : ∀ (k n : nat), k < n ->
            resolve (S_slice (Some (Z.of_nat k)) (Some (Z.of_nat k + 1)%Z) None) n
            = inr [k]).
  { intros k n Hk. cbn [resolve]. rewrite unit_slice.
    destruct (Z.leb_spec 0 (Z.of_nat k)); [|lia].
    destruct (Z.ltb_spec (Z.of_nat k) (Z.of_nat n)); [|lia].
    cbn [andb]. now rewrite Nat2Z.id. }
  destruct (getitem_spec sp h self C r c (I_int (Z.of_nat i)) (I_int (Z.of_nat j))
              [i] [j] ad X a Hwf Hsh Had HX Ha Hc (Hunit i r Hi) (Hunit j c Hj) eq_refl)
    as (s & h' & E & Hcont).
  exists s, h'. split; [exact E|]. rewrite Hcont. reflexivity.
Qed.

(** ** Writing an element *)





(** ** Instances of the properties above *)

Lemma meta_set_then_get_witness :
  let h := heap_of dense_2x2 in
  let h' := heap_after (AnnData_setitem_meta 0 "k" (VInt 1)) h in
  AnnData_setitem_meta 0 "k" (VInt 1) h = (inr tt, h') ∧
  result (AnnData_getitem_meta 0 "k") h' = inr (VInt 1) ∧
  result (AnnData_contains 0 "k") h' = inr true ∧
  (∀ default, result (AnnData_get 0 "k" default) h' = inr (Some (VInt 1))) ∧
  (∀ k', k' ≠ "k" ->
     result (AnnData_getitem_meta 0 k') h' = result (AnnData_getitem_meta 0 k') h).
Proof.
  cbv zeta.
  assert (H : AnnData_setitem_meta 0 "k" (VInt 1) (heap_of dense_2x2)
              = (inr tt, heap_after (AnnData_setitem_meta 0 "k" (VInt 1))
                           (heap_of dense_2x2)))
    by (vm_compute; reflexivity).
  exact (conj H (meta_set_then_get _ _ _ _ _ _ H)).
Defined.

Lemma constructor_keywords_readable_witness :
  let h := heap_after dense_2x2 empty_heap in
  let meta : gmap string val := {["k" := VInt 1]} in
  let h' := heap_after (AnnData 0 Src_None Src_None None meta) h in
  AnnData 0 Src_None Src_None None meta h = (inr 0, h') ∧
  (∀ k, result (AnnData_getitem_meta 0 k) h'
        = match meta !! k with Some v => inr v | None => inl (KeyError k) end) ∧
  (∀ k, k ∈ parameters -> meta !! k = None).
Proof.
  cbv zeta.
  assert (H : AnnData 0 Src_None Src_None None {["k" := VInt 1]}
                (heap_after dense_2x2 empty_heap)
              = (inr 0, heap_after (AnnData 0 Src_None Src_None None {["k" := VInt 1]})
                          (heap_after dense_2x2 empty_heap)))
    by (vm_compute; reflexivity).
  exact (conj H (constructor_keywords_readable _ _ _ _ _ _ _ _ H)).
Defined.

Lemma slice_meta_is_a_separate_mapping_witness :
  let h := heap_of dense_2x3 in
  let h1 := heap_after (AnnData_getitem dia_backend 0 (I_int 0) all) h in
  AnnData_getitem dia_backend 0 (I_int 0) all h = (inr 1, h1) ∧
  (∀ k, result (AnnData_getitem_meta 1 k) h1 = result (AnnData_getitem_meta 0 k) h) ∧
  (∀ k v u h2, AnnData_setitem_meta 1 k v h1 = (inr u, h2) ->
     ∀ k', result (AnnData_getitem_meta 0 k') h2
           = result (AnnData_getitem_meta 0 k') h) ∧
  (∀ k v u h2, AnnData_setitem_meta 0 k v h1 = (inr u, h2) ->
     ∀ k', result (AnnData_getitem_meta 1 k') h2
           = result (AnnData_getitem_meta 1 k') h1).
Proof.
  cbv zeta.
  assert (H : AnnData_getitem dia_backend 0 (I_int 0) all (heap_of dense_2x3)
              = (inr 1, heap_after (AnnData_getitem dia_backend 0 (I_int 0) all)
                          (heap_of dense_2x3)))
    by (vm_compute; reflexivity).
  exact (conj H (slice_meta_is_a_separate_mapping _ _ _ _ _ _ _ H)).
Defined.

Lemma parameter_key_blocks_slicing_witness :
  let h := heap_of dense_2x2 in
  let h' := heap_after (AnnData_setitem_meta 0 "X" (VInt 1)) h in
  "X" ∈ parameters ∧
  AnnData_setitem_meta 0 "X" (VInt 1) h = (inr tt, h') ∧
  (∀ smp var, ∃ e h2, AnnData_getitem dia_backend 0 smp var h' = (inl e, h2)) ∧
  (∃ e h2, transpose 0 h' = (inl e, h2)).
Proof.
  cbv zeta.
  assert (Hk : "X" ∈ parameters) by (unfold parameters; repeat constructor).
  assert (H : AnnData_setitem_meta 0 "X" (VInt 1) (heap_of dense_2x2)
              = (inr tt, heap_after (AnnData_setitem_meta 0 "X" (VInt 1))
                           (heap_of dense_2x2)))
    by (vm_compute; reflexivity).
  exact (conj Hk (conj H (parameter_key_blocks_slicing dia_backend _ _ _ _ _ _ Hk H))).
Defined.

(** [mat['X'] = 1] and then [mat[0, :]] or [mat.T]: the constructor is
    called with two values for [X]. *)
Example parameter_key_error :
  let h' := heap_after (AnnData_setitem_meta 0 "X" (VInt 1)) (heap_of dense_2x2) in
  result (AnnData_getitem dia_backend 0 (I_int 0) all) h'
  = inl (TypeError_multiple_values "X") ∧
  result (transpose 0) h' = inl (TypeError_multiple_values "X").
Proof. cbv zeta. split; vm_compute; reflexivity. Qed.


Lemma transpose_elementwise_witness :
  well_formed (heap_of dense_2x3) 0 content_2x3 ∧
  c_shape content_2x3 = [2; 3] ∧
  (VAR_NAMES ∉ fst (c_smp content_2x3)) ∧ (SMP_NAMES ∉ fst (c_var content_2x3)) ∧
  ∃ T hT CT,
    transpose 0 (heap_of dense_2x3) = (inr T, hT) ∧
    result (content_of T) hT = inr CT ∧
    c_shape CT = [3; 2] ∧ length (c_values CT) = 3 * 2 ∧
    (∀ i j, i < 2 -> j < 3 ->
       nth (j * 2 + i) (c_values CT) junk = nth (i * 3 + j) (c_values content_2x3) junk) ∧
    c_smp CT = (rename VAR_NAMES SMP_NAMES (fst (c_var content_2x3)),
                snd (c_var content_2x3)) ∧
    c_var CT = (rename SMP_NAMES VAR_NAMES (fst (c_smp content_2x3)),
                snd (c_smp content_2x3)) ∧
    c_vis CT = c_vis content_2x3 ∧ c_meta CT = c_meta content_2x3.
Proof.
  assert (H1 : VAR_NAMES ∉ fst (c_smp content_2x3)) by by_compute.
  assert (H2 : SMP_NAMES ∉ fst (c_var content_2x3)) by by_compute.
  exact (conj well_formed_2x3 (conj eq_refl (conj H1 (conj H2
    (transpose_elementwise _ 0 content_2x3 2 3 well_formed_2x3 eq_refl H1 H2))))).
Defined.

Lemma storage_type_is_Array_or_Sparse_witness :
  let h := heap_after masked_2x2 empty_heap in
  let h' := heap_after (AnnData 0 Src_None Src_None None ∅) h in
  AnnData 0 Src_None Src_None None ∅ h = (inr 0, h') ∧
  ∃ a ad, h_arrays h !! 0 = Some a ∧ h_anndata h' !! 0 = Some ad ∧
    ad_storage_type ad
    = Some (if isinstance (a_class a) C_ndarray then Array else Sparse) ∧
    ad_storage_type ad ≠ Some Masked.
Proof.
  cbv zeta.
  assert (H : AnnData 0 Src_None Src_None None ∅ (heap_after masked_2x2 empty_heap)
              = (inr 0, heap_after (AnnData 0 Src_None Src_None None ∅)
                          (heap_after masked_2x2 empty_heap)))
    by (vm_compute; reflexivity).
  exact (conj H (storage_type_is_Array_or_Sparse _ _ _ _ _ _ _ _ H)).
Defined.

Lemma unsupported_class_is_refused_witness :
  let h := heap_after plain_list empty_heap in
  let a := {| a_class := C_list; a_shape := []; a_structured := false;
              a_cells := [0; 1] |} in
  h_arrays h !! 0 = Some a ∧ classify (a_class a) = None ∧ no_parameter_key ∅ ∧
  AnnData 0 Src_None Src_None None ∅ h
  = (inl (ValueError_data_type C_list "ndarray, MaskedArray, spmatrix"), at_call ∅ h).
Proof.
  cbv zeta.
  assert (H1 : h_arrays (heap_after plain_list empty_heap) !! 0
               = Some {| a_class := C_list; a_shape := []; a_structured := false;
                         a_cells := [0; 1] |}) by (vm_compute; reflexivity).
  assert (H2 : classify C_list = None) by reflexivity.
  assert (H3 : no_parameter_key ∅) by reflexivity.
  exact (conj H1 (conj H2 (conj H3
    (unsupported_class_is_refused 0 Src_None Src_None None ∅ _ _ H1 H2 H3)))).
Defined.

Lemma constructor_reshapes_even_when_it_raises_witness :
  let h := heap_after dense_3 empty_heap in
  let a := {| a_class := C_ndarray; a_shape := [3]; a_structured := false;
              a_cells := [0; 1; 2] |} in
  let h' := heap_after (AnnData 0 (Src_other C_list) Src_None None ∅) h in
  h_arrays h !! 0 = Some a ∧ classify (a_class a) ≠ None ∧ no_parameter_key ∅ ∧
  AnnData 0 (Src_other C_list) Src_None None ∅ h
  = (inl (ValueError_meta_source C_list), h') ∧
  h_mem h' = h_mem h ∧ h_arrays h' = <[0 := reshaped a]> (h_arrays h).
Proof.
  cbv zeta.
  assert (H1 : h_arrays (heap_after dense_3 empty_heap) !! 0
               = Some {| a_class := C_ndarray; a_shape := [3]; a_structured := false;
                         a_cells := [0; 1; 2] |}) by (vm_compute; reflexivity).
  assert (H2 : classify C_ndarray ≠ None) by discriminate.
  assert (H3 : no_parameter_key ∅) by reflexivity.
  assert (H4 : AnnData 0 (Src_other C_list) Src_None None ∅ (heap_after dense_3 empty_heap)
               = (inl (ValueError_meta_source C_list),
                  heap_after (AnnData 0 (Src_other C_list) Src_None None ∅)
                    (heap_after dense_3 empty_heap)))
    by (vm_compute; reflexivity).
  exact (conj H1 (conj H2 (conj H3 (conj H4
    (constructor_reshapes_even_when_it_raises _ _ _ _ _ _ _ _ _ H1 H2 H3 H4))))).
Defined.

Ltac by_regular := repeat split; by_compute.

Lemma table_of_wrong_length_is_refused_witness :
  let h := heap_after dense_2x2 empty_heap in
  no_parameter_key ∅ ∧ h_arrays h !! 0 = Some array_2x2 ∧
  classify (a_class array_2x2) ≠ None ∧ a_shape (reshaped array_2x2) = [2; 2] ∧
  source_fields h (Src_Mapping four_names) 2 SMP_NAMES
  = Some ([SMP_NAMES], [ints [1; 2; 3; 4]%Z]) ∧
  regular [SMP_NAMES] [ints [1; 2; 3; 4]%Z] 4 ∧
  source_fields h Src_None 2 VAR_NAMES = Some ([VAR_NAMES], [arange 2]) ∧
  regular [VAR_NAMES] [arange 2] 2 ∧
  (4 ≠ 2 -> ∃ h', AnnData 0 (Src_Mapping four_names) Src_None None ∅ h
                  = (inl (ValueError_smp_rows 2 4), h')) ∧
  (4 = 2 -> 2 ≠ 2 ->
   ∃ h', AnnData 0 (Src_Mapping four_names) Src_None None ∅ h
         = (inl (ValueError_var_rows 2 2), h')).
Proof.
  cbv zeta.
  assert (H1 : no_parameter_key ∅) by reflexivity.
  assert (H2 : h_arrays (heap_after dense_2x2 empty_heap) !! 0 = Some array_2x2)
    by (vm_compute; reflexivity).
  assert (H3 : classify (a_class array_2x2) ≠ None) by discriminate.
  assert (H4 : a_shape (reshaped array_2x2) = [2; 2]) by reflexivity.
  assert (H5 : source_fields (heap_after dense_2x2 empty_heap) (Src_Mapping four_names)
                 2 SMP_NAMES = Some ([SMP_NAMES], [ints [1; 2; 3; 4]%Z]))
    by (vm_compute; reflexivity).
  assert (H6 : regular [SMP_NAMES] [ints [1; 2; 3; 4]%Z] 4) by by_regular.
  assert (H7 : source_fields (heap_after dense_2x2 empty_heap) Src_None 2 VAR_NAMES
               = Some ([VAR_NAMES], [arange 2])) by reflexivity.
  assert (H8 : regular [VAR_NAMES] [arange 2] 2) by by_regular.
  exact (conj H1 (conj H2 (conj H3 (conj H4 (conj H5 (conj H6 (conj H7 (conj H8
    (table_of_wrong_length_is_refused 0 _ _ None ∅ _ _ 2 2 4 2 _ _ _ _
       H1 H2 H3 H4 H5 H6 H7 H8))))))))).
Defined.

Lemma mapping_of_wrong_length_is_a_broadcast_error_witness :
  let h := heap_after dense_2x2 empty_heap in
  no_parameter_key ∅ ∧ h_arrays h !! 0 = Some array_2x2 ∧
  classify (a_class array_2x2) ≠ None ∧ a_shape (reshaped array_2x2) = [2; 2] ∧
  regular (map fst too_long) (map snd too_long) 4 ∧
  (SMP_NAMES ∉ map fst too_long) ∧ 2 ≠ 4 ∧ 2 ≠ 1 ∧
  ∃ h', AnnData 0 (Src_Mapping too_long) Src_None None ∅ h
        = (inl (ValueError_broadcast 2 4), h').
Proof.
  cbv zeta.
  assert (H1 : no_parameter_key ∅) by reflexivity.
  assert (H2 : h_arrays (heap_after dense_2x2 empty_heap) !! 0 = Some array_2x2)
    by (vm_compute; reflexivity).
  assert (H3 : classify (a_class array_2x2) ≠ None) by discriminate.
  assert (H4 : a_shape (reshaped array_2x2) = [2; 2]) by reflexivity.
  assert (H5 : regular (map fst too_long) (map snd too_long) 4) by by_regular.
  assert (H6 : SMP_NAMES ∉ map fst too_long) by by_compute.
  assert (H7 : 2 ≠ 4) by lia.
  assert (H8 : 2 ≠ 1) by lia.
  exact (conj H1 (conj H2 (conj H3 (conj H4 (conj H5 (conj H6 (conj H7 (conj H8
    (mapping_of_wrong_length_is_a_broadcast_error 0 _ Src_None None ∅ _ _ 2 2 4
       H1 H2 H3 H4 H5 H6 H7 H8))))))))).
Defined.

Lemma constructor_holds_its_arguments_witness :
  let h := heap_after dense_2x3 empty_heap in
  no_parameter_key ∅ ∧ h_arrays h !! 0 = Some array_2x3 ∧
  classify (a_class array_2x3) ≠ None ∧ a_shape (reshaped array_2x3) = [2; 3] ∧
  length (a_cells array_2x3) = 2 * 3 ∧
  source_fields h (Src_Mapping Smp_AB) 2 SMP_NAMES
  = Some (["Smp"; SMP_NAMES], [[VStr "A"; VStr "B"]; arange 2]) ∧
  regular ["Smp"; SMP_NAMES] [[VStr "A"; VStr "B"]; arange 2] 2 ∧
  source_fields h (Src_Mapping Feat_abc) 3 VAR_NAMES
  = Some (["Feat"; VAR_NAMES], [[VStr "a"; VStr "b"; VStr "c"]; arange 3]) ∧
  regular ["Feat"; VAR_NAMES] [[VStr "a"; VStr "b"; VStr "c"]; arange 3] 3 ∧
  (∅ : gmap string val) = ∅ ∧
  ∃ self h',
    AnnData 0 (Src_Mapping Smp_AB) (Src_Mapping Feat_abc) None ∅ h = (inr self, h') ∧
    result (content_of self) h'
    = inr {| c_shape := [2; 3];
             c_values := map (fun k => nth k (h_mem h) junk) (a_cells array_2x3);
             c_smp := (["Smp"; SMP_NAMES], [[VStr "A"; VStr "B"]; arange 2]);
             c_var := (["Feat"; VAR_NAMES], [[VStr "a"; VStr "b"; VStr "c"]; arange 3]);
             c_vis := ∅; c_meta := ∅ |}.
Proof.
  cbv zeta.
  assert (H1 : no_parameter_key ∅) by reflexivity.
  assert (H2 : h_arrays (heap_after dense_2x3 empty_heap) !! 0 = Some array_2x3)
    by (vm_compute; reflexivity).
  assert (H3 : classify (a_class array_2x3) ≠ None) by discriminate.
  assert (H4 : a_shape (reshaped array_2x3) = [2; 3]) by reflexivity.
  assert (H5 : length (a_cells array_2x3) = 2 * 3) by reflexivity.
  assert (H6 : source_fields (heap_after dense_2x3 empty_heap) (Src_Mapping Smp_AB)
                 2 SMP_NAMES
               = Some (["Smp"; SMP_NAMES], [[VStr "A"; VStr "B"]; arange 2]))
    by (vm_compute; reflexivity).
  assert (H7 : regular ["Smp"; SMP_NAMES] [[VStr "A"; VStr "B"]; arange 2] 2)
    by by_regular.
  assert (H8 : source_fields (heap_after dense_2x3 empty_heap) (Src_Mapping Feat_abc)
                 3 VAR_NAMES
               = Some (["Feat"; VAR_NAMES], [[VStr "a"; VStr "b"; VStr "c"]; arange 3]))
    by (vm_compute; reflexivity).
  assert (H9 : regular ["Feat"; VAR_NAMES] [[VStr "a"; VStr "b"; VStr "c"]; arange 3] 3)
    by by_regular.
  exact (conj H1 (conj H2 (conj H3 (conj H4 (conj H5 (conj H6 (conj H7 (conj H8
    (conj H9 (conj eq_refl
    (constructor_holds_its_arguments 0 _ _ None ∅ _ _ 2 3 _ _ _ _ ∅
       H1 H2 H3 H4 H5 H6 H7 H8 H9 eq_refl))))))))))).
Defined.

Lemma default_identity_columns_witness :
  let h := heap_after dense_2x3 empty_heap in
  let h' := heap_after (AnnData 0 Src_None Src_None None ∅) h in
  AnnData 0 Src_None Src_None None ∅ h = (inr 0, h') ∧
  ∃ a r c,
    h_arrays h' !! 0 = Some a ∧ a_shape a = [r; c] ∧
    result (smp_names 0) h' = inr (arange r) ∧
    result (var_names 0) h' = inr (arange c) ∧
    result (let* t := smp_of 0 in columns t) h' = inr [] ∧
    result (let* t := var_of 0 in columns t) h' = inr [].
Proof.
  cbv zeta.
  assert (H : AnnData 0 Src_None Src_None None ∅ (heap_after dense_2x3 empty_heap)
              = (inr 0, heap_after (AnnData 0 Src_None Src_None None ∅)
                          (heap_after dense_2x3 empty_heap)))
    by (vm_compute; reflexivity).
  exact (conj H (default_identity_columns _ _ _ _ _ _ H)).
Defined.

Lemma record_array_source_gets_no_identity_column_witness :
  let h := heap_of dense_2x2 in
  let h' := heap_after (AnnData 0 (Src_recarray 1) Src_None None ∅) h in
  AnnData 0 (Src_recarray 1) Src_None None ∅ h = (inr 1, h') ∧
  h_arrays h !! 0 = Some array_2x2 ∧ a_shape (reshaped array_2x2) = [2; 2] ∧
  h_tables h !! 1 = Some var_table_2 ∧
  h_dtypes h !! t_dtype var_table_2 = Some [VAR_NAMES] ∧
  regular [VAR_NAMES] (t_cols var_table_2) 2 ∧
  source_fields h Src_None 2 VAR_NAMES = Some ([VAR_NAMES], [arange 2]) ∧
  regular [VAR_NAMES] [arange 2] 2 ∧
  (SMP_NAMES ∉ [VAR_NAMES]) ∧
  result (let* s := smp_of 1 in table_content s) h'
  = inr ([VAR_NAMES], t_cols var_table_2) ∧
  result (smp_names 1) h' = inl (ValueError_no_field SMP_NAMES) ∧
  result (let* s := smp_of 1 in columns s) h' = inr [VAR_NAMES].
Proof.
  cbv zeta.
  assert (H : AnnData 0 (Src_recarray 1) Src_None None ∅ (heap_of dense_2x2)
              = (inr 1, heap_after (AnnData 0 (Src_recarray 1) Src_None None ∅)
                          (heap_of dense_2x2)))
    by (vm_compute; reflexivity).
  assert (H2 : h_arrays (heap_of dense_2x2) !! 0 = Some array_2x2)
    by (vm_compute; reflexivity).
  assert (H3 : a_shape (reshaped array_2x2) = [2; 2]) by reflexivity.
  assert (H4 : h_tables (heap_of dense_2x2) !! 1 = Some var_table_2)
    by (vm_compute; reflexivity).
  assert (H5 : h_dtypes (heap_of dense_2x2) !! t_dtype var_table_2 = Some [VAR_NAMES])
    by (vm_compute; reflexivity).
  assert (H6 : regular [VAR_NAMES] (t_cols var_table_2) 2) by by_regular.
  assert (H7 : source_fields (heap_of dense_2x2) Src_None 2 VAR_NAMES
               = Some ([VAR_NAMES], [arange 2])) by reflexivity.
  assert (H8 : regular [VAR_NAMES] [arange 2] 2) by by_regular.
  assert (H9 : SMP_NAMES ∉ [VAR_NAMES]) by by_compute.
  exact (conj H (conj H2 (conj H3 (conj H4 (conj H5 (conj H6 (conj H7 (conj H8
    (conj H9
    (record_array_source_gets_no_identity_column 0 1 Src_None None ∅ _ _ 2 2 _ _ _ _
       _ _ H H2 H3 H4 H5 H6 H7 H8 H9)))))))))).
Defined.

Lemma constructor_keeps_vis_only_if_not_empty_witness :
  let h := heap_of dense_2x2 in
  let h' := heap_after (AnnData 0 Src_None Src_None (Some 1) ∅) h in
  AnnData 0 Src_None Src_None (Some 1) ∅ h = (inr 1, h') ∧
  ∃ ad l,
    h_anndata h' !! 1 = Some ad ∧ ad_vis ad = Some l ∧
    (Some 1 = None -> length (h_dicts h) < l ∧ h_dicts h' !! l = Some ∅) ∧
    (∀ v d, Some 1 = Some v -> h_dicts h !! v = Some d ->
       h_dicts h' !! l = Some d ∧
       if bool_decide (d = ∅) then length (h_dicts h) < l else l = v).
Proof.
  cbv zeta.
  assert (H : AnnData 0 Src_None Src_None (Some 1) ∅ (heap_of dense_2x2)
              = (inr 1, heap_after (AnnData 0 Src_None Src_None (Some 1) ∅)
                          (heap_of dense_2x2)))
    by (vm_compute; reflexivity).
  exact (conj H (constructor_keeps_vis_only_if_not_empty _ _ _ _ _ _ _ _ H)).
Defined.



(** [mat.smp['new'] = [7]] on two rows: the second entry is numpy's fill
    value for integers. *)
Example short_column_fill_value :
  result (BoundRecArr_setitem 0 "new" (ints [7]%Z) ;;;
          let* t := smp_of 0 in recarray_field t "new") (heap_of dense_2x3)
  = inr (ints [7; 999999]%Z).
Proof. vm_compute. reflexivity. Qed.

Lemma stale_handle_loses_appended_columns_witness :
  let h := heap_of dense_2x3 in
  h_tables h !! 0 = Some smp_table_2 ∧
  t_attrs smp_table_2 = Some (Some 0, SMP_NAMES) ∧
  h_dtypes h !! t_dtype smp_table_2 = Some [SMP_NAMES] ∧
  h_anndata h !! 0 = Some instance_0 ∧ ad_X instance_0 = Some 0 ∧
  h_arrays h !! 0 = Some array_2x3 ∧ a_shape array_2x3 = [2; 3] ∧ 2 ≠ 0 ∧
  regular [SMP_NAMES] (t_cols smp_table_2) (t_len smp_table_2) ∧
  ("a" ∉ [SMP_NAMES]) ∧ ("b" ∉ [SMP_NAMES]) ∧ "a" ≠ "b" ∧
  length (ints [1; 2]%Z) = t_len smp_table_2 ∧
  length (ints [3; 4]%Z) = t_len smp_table_2 ∧
  result (BoundRecArr_setitem 0 "a" (ints [1; 2]%Z) ;;;
          BoundRecArr_setitem 0 "b" (ints [3; 4]%Z) ;;;
          let* t' := slot_of SMP_NAMES 0 in table_content t') h
  = inr ([SMP_NAMES] ++ ["b"], t_cols smp_table_2 ++ [ints [3; 4]%Z]) ∧
  result (BoundRecArr_setitem 0 "a" (ints [1; 2]%Z) ;;;
          (let* t1 := slot_of SMP_NAMES 0 in BoundRecArr_setitem t1 "b" (ints [3; 4]%Z)) ;;;
          let* t' := slot_of SMP_NAMES 0 in table_content t') h
  = inr (([SMP_NAMES] ++ ["a"]) ++ ["b"],
         (t_cols smp_table_2 ++ [ints [1; 2]%Z]) ++ [ints [3; 4]%Z]).
Proof.
  cbv zeta.
  assert (H1 : h_tables (heap_of dense_2x3) !! 0 = Some smp_table_2)
    by (vm_compute; reflexivity).
  assert (H3 : h_dtypes (heap_of dense_2x3) !! t_dtype smp_table_2 = Some [SMP_NAMES])
    by (vm_compute; reflexivity).
  assert (H4 : h_anndata (heap_of dense_2x3) !! 0 = Some instance_0)
    by (vm_compute; reflexivity).
  assert (H6 : h_arrays (heap_of dense_2x3) !! 0 = Some array_2x3)
    by (vm_compute; reflexivity).
  assert (H8 : 2 ≠ 0) by lia.
  assert (H9 : regular [SMP_NAMES] (t_cols smp_table_2) (t_len smp_table_2))
    by by_regular.
  assert (H10 : "a" ∉ [SMP_NAMES]) by by_compute.
  assert (H11 : "b" ∉ [SMP_NAMES]) by by_compute.
  assert (H12 : "a" ≠ "b") by discriminate.
  exact (conj H1 (conj eq_refl (conj H3 (conj H4 (conj eq_refl (conj H6 (conj eq_refl
    (conj H8 (conj H9 (conj H10 (conj H11 (conj H12 (conj eq_refl (conj eq_refl
    (stale_handle_loses_appended_columns _ 0 0 0 _ SMP_NAMES _ _ _ 2 [3]
       "a" (ints [1; 2]%Z) "b" (ints [3; 4]%Z)
       H1 eq_refl H3 H4 eq_refl H6 eq_refl H8 H9 H10 H11 H12 eq_refl eq_refl))))))))))))))).
Defined.



(** [test_names], and the setter: [adata.smp_names = ['x', 'y']]. *)
Example test_names :
  let made := let* X := dense_2x3 in
              AnnData X (Src_Mapping [(SMP_NAMES, [VStr "A"; VStr "B"])])
                (Src_Mapping [(VAR_NAMES, [VStr "a"; VStr "b"; VStr "c"])]) None ∅ in
  result (let* adata := made in smp_names adata) empty_heap
  = inr [VStr "A"; VStr "B"] ∧
  result (let* adata := made in var_names adata) empty_heap
  = inr [VStr "a"; VStr "b"; VStr "c"] ∧
  result (let* adata := made in
          smp_names_setter adata [VStr "x"; VStr "y"] ;;; smp_names adata) empty_heap
  = inr [VStr "x"; VStr "y"].
Proof. cbv zeta. repeat split; vm_compute; reflexivity. Qed.

Lemma two_index_lists_raise_witness :
  let h := heap_of dense_2x3 in
  h_anndata h !! 0 = Some instance_0 ∧ ad_X instance_0 = Some 0 ∧
  h_arrays h !! 0 = Some array_2x3 ∧
  isinstance (a_class array_2x3) C_ndarray = true ∧ a_shape array_2x3 = [2; 3] ∧
  ∃ e h', AnnData_getitem dia_backend 0 (I_sel (S_list [0; 1]%Z))
            (I_sel (S_list [0; 1]%Z)) h = (inl e, h').
Proof.
  cbv zeta.
  assert (H1 : h_anndata (heap_of dense_2x3) !! 0 = Some instance_0)
    by (vm_compute; reflexivity).
  assert (H3 : h_arrays (heap_of dense_2x3) !! 0 = Some array_2x3)
    by (vm_compute; reflexivity).
  exact (conj H1 (conj eq_refl (conj H3 (conj eq_refl (conj eq_refl
    (two_index_lists_raise dia_backend 0 [0; 1]%Z [0; 1]%Z _ _ 0 _ 2 3
       H1 eq_refl H3 eq_refl eq_refl)))))).
Defined.

(** [mat[[0, 1], [0, 1]]] and [mat[5, :]] on the matrix of
    [test_get_subset]. *)
Example index_edge_cases :
  result (AnnData_getitem dia_backend 0 (I_sel (S_list [0; 1]%Z))
            (I_sel (S_list [0; 1]%Z))) (heap_of dense_2x3)
  = inl IndexError_tuple ∧
  result (let* s := AnnData_getitem dia_backend 0 (I_int 5) all in storage_values s)
         (heap_of dense_2x3)
  = inr ([0; 3], []) ∧
  result (let* s := AnnData_getitem dia_backend 0 (I_int (-2)) all in storage_values s)
         (heap_of dense_2x3)
  = inr ([1; 3], ints [1; 2; 3]%Z).
Proof. repeat split; vm_compute; reflexivity. Qed.

Lemma slice_holds_the_selection_witness :
  let h := heap_of dense_2x3 in
  let var := I_sel (S_list [0; 1]%Z) in
  well_formed h 0 content_2x3 ∧ c_shape content_2x3 = [2; 3] ∧
  h_anndata h !! 0 = Some instance_0 ∧ ad_X instance_0 = Some 0 ∧
  h_arrays h !! 0 = Some array_2x3 ∧
  isinstance (a_class array_2x3) C_ndarray = true ∧
  resolve (fst (_unpack_index all var)) 2 = inr [0; 1] ∧
  resolve (snd (_unpack_index all var)) 3 = inr [0; 1] ∧
  is_slice (fst (_unpack_index all var)) || is_slice (snd (_unpack_index all var)) = true ∧
  ∃ s h', AnnData_getitem dia_backend 0 all var h = (inr s, h') ∧
          result (content_of s) h' = inr (getitem_content content_2x3 3 [0; 1] [0; 1]).
Proof.
  cbv zeta.
  assert (H3 : h_anndata (heap_of dense_2x3) !! 0 = Some instance_0)
    by (vm_compute; reflexivity).
  assert (H5 : h_arrays (heap_of dense_2x3) !! 0 = Some array_2x3)
    by (vm_compute; reflexivity).
  exact (conj well_formed_2x3 (conj eq_refl (conj H3 (conj eq_refl (conj H5
    (conj eq_refl (conj eq_refl (conj eq_refl (conj eq_refl
    (slice_holds_the_selection dia_backend _ 0 content_2x3 2 3 all
       (I_sel (S_list [0; 1]%Z)) [0; 1] [0; 1] _ 0 _
       well_formed_2x3 eq_refl H3 eq_refl H5 eq_refl eq_refl eq_refl eq_refl)))))))))).
Defined.

Lemma full_slice_holds_the_same_witness :
  let h := heap_of dense_2x3 in
  well_formed h 0 content_2x3 ∧ c_shape content_2x3 = [2; 3] ∧
  h_anndata h !! 0 = Some instance_0 ∧ ad_X instance_0 = Some 0 ∧
  h_arrays h !! 0 = Some array_2x3 ∧
  isinstance (a_class array_2x3) C_ndarray = true ∧
  ∃ s h', AnnData_getitem dia_backend 0 all all h = (inr s, h') ∧
          s ≠ 0 ∧ result (content_of s) h' = inr content_2x3.
Proof.
  cbv zeta.
  assert (H3 : h_anndata (heap_of dense_2x3) !! 0 = Some instance_0)
    by (vm_compute; reflexivity).
  assert (H5 : h_arrays (heap_of dense_2x3) !! 0 = Some array_2x3)
    by (vm_compute; reflexivity).
  exact (conj well_formed_2x3 (conj eq_refl (conj H3 (conj eq_refl (conj H5
    (conj eq_refl
    (full_slice_holds_the_same dia_backend _ 0 content_2x3 2 3 _ 0 _
       well_formed_2x3 eq_refl H3 eq_refl H5 eq_refl))))))).
Defined.

Lemma integer_pair_selects_one_element_witness :
  let h := heap_of dense_2x3 in
  well_formed h 0 content_2x3 ∧ c_shape content_2x3 = [2; 3] ∧
  h_anndata h !! 0 = Some instance_0 ∧ ad_X instance_0 = Some 0 ∧
  h_arrays h !! 0 = Some array_2x3 ∧
  isinstance (a_class array_2x3) C_ndarray = true ∧ 1 < 2 ∧ 2 < 3 ∧
  ∃ s h',
    AnnData_getitem dia_backend 0 (I_int (Z.of_nat 1)) (I_int (Z.of_nat 2)) h
    = (inr s, h') ∧
    result (content_of s) h'
    = inr {| c_shape := [1; 1];
             c_values := [nth (1 * 3 + 2) (c_values content_2x3) junk];
             c_smp := (fst (c_smp content_2x3),
                       map (take_rows [1]) (snd (c_smp content_2x3)));
             c_var := (fst (c_var content_2x3),
                       map (take_rows [2]) (snd (c_var content_2x3)));
             c_vis := c_vis content_2x3; c_meta := c_meta content_2x3 |}.
Proof.
  cbv zeta.
  assert (H3 : h_anndata (heap_of dense_2x3) !! 0 = Some instance_0)
    by (vm_compute; reflexivity).
  assert (H5 : h_arrays (heap_of dense_2x3) !! 0 = Some array_2x3)
    by (vm_compute; reflexivity).
  assert (H7 : 1 < 2) by lia.
  assert (H8 : 2 < 3) by lia.
  exact (conj well_formed_2x3 (conj eq_refl (conj H3 (conj eq_refl (conj H5
    (conj eq_refl (conj H7 (conj H8
    (integer_pair_selects_one_element dia_backend _ 0 content_2x3 2 3 _ 0 _ 1 2
       well_formed_2x3 eq_refl H3 eq_refl H5 eq_refl H7 H8))))))))).
Defined.

(** [test_get_subset_meta]: [mat[0, 0].smp['Smp']] and [mat[0, 0].var['Feat']]. *)
Example test_get_subset_meta :
  let made := let* X := dense_2x3 in
              AnnData X (Src_Mapping Smp_AB) (Src_Mapping Feat_abc) None ∅ in
  result (let* mat := made in
          let* s := AnnData_getitem dia_backend mat (I_int 0) (I_int 0) in
          let* t := smp_of s in recarray_field t "Smp") empty_heap
  = inr [VStr "A"] ∧
  result (let* mat := made in
          let* s := AnnData_getitem dia_backend mat (I_int 0) (I_int 0) in
          let* t := var_of s in recarray_field t "Feat") empty_heap
  = inr [VStr "a"].
Proof. cbv zeta. split; vm_compute; reflexivity. Qed.


(** [mat[1, 2] = 99] on the matrix of [test_get_subset]. *)
Example element_write :
  result (AnnData_setitem dia_backend 0 (I_int 1) (I_int 2) (scalar (VInt 99)) ;;;
          storage_values 0) (heap_of dense_2x3)
  = inr ([2; 3], ints [1; 2; 3; 4; 5; 99]%Z).
Proof. vm_compute. reflexivity. Qed.
